(** * AzureIPChecker: the network relationship classification core

    A shallow embedding of [utils/ip_validator.py] (class [IPValidator]) and
    [core/subnet_analyzer.py] (class [SubnetAnalyzer]), together with the part
    of CPython's [ipaddress] module these two files call.

    Conventions of the embedding:
    - a Python [str] is a Rocq [string]; a character is a code point below 256;
    - a Python [int] is a [Z];
    - a raised exception is the [Raise] outcome of a computation, and a
      [try ... except E] is a match that handles [Raise E] and lets every
      other exception through;
    - [print] appends a line to the console, which is part of the state the
      analyzer threads through its loops, next to the [results] dictionary;
    - [input] reads the line that the caller supplies as an argument. *)

From Stdlib Require Import ZArith List String Ascii Bool Lia DecimalString.
Import ListNotations.

Local Open Scope Z_scope.

(** ** Exceptions and outcomes *)

Inductive exn : Type :=
| AddressValueError
| NetmaskValueError.

Inductive outcome (A : Type) : Type :=
| Return (a : A)
| Raise (e : exn).

Arguments Return {A} a.
Arguments Raise {A} e.

Definition bind {A B : Type} (m : outcome A) (k : A -> outcome B) : outcome B :=
  match m with
  | Return a => k a
  | Raise e => Raise e
  end.

Notation "x <- m ;; k" := (bind m (fun x => k))
  (at level 61, m at next level, right associativity).
Notation "' p <- m ;; k" := (bind m (fun p => k))
  (at level 61, p pattern, m at next level, right associativity).

(** ** The operations of Python's [str] that the program uses *)

Module PyStr.

Definition code (c : ascii) : Z := Z.of_N (N_of_ascii c).

(** [str.isspace] on one character (code points below 256). *)
Definition isspace (c : ascii) : bool :=
  let n := code c in
  ((9 <=? n) && (n <=? 13)) || ((28 <=? n) && (n <=? 32))
  || (n =? 133) || (n =? 160).

Definition is_decimal_digit (c : ascii) : bool :=
  let n := code c in (48 <=? n) && (n <=? 57).

(** Truth value of a string: non-empty. *)
Definition truthy (s : string) : bool :=
  match s with
  | EmptyString => false
  | String _ _ => true
  end.

Fixpoint all_chars (p : ascii -> bool) (s : string) : bool :=
  match s with
  | EmptyString => true
  | String c r => p c && all_chars p r
  end.

(** [c in s] for a one-character string [c]. *)
Fixpoint contains (c : ascii) (s : string) : bool :=
  match s with
  | EmptyString => false
  | String d r => Ascii.eqb d c || contains c r
  end.

(** [s.isascii() and s.isdigit()]: non-empty, and only 0-9. *)
Definition isascii_isdigit (s : string) : bool :=
  truthy s && all_chars is_decimal_digit s.

(** [int(s)] on a string of decimal digits, most significant first. *)
Fixpoint int_digits_from (acc : Z) (s : string) : Z :=
  match s with
  | EmptyString => acc
  | String c r => int_digits_from (10 * acc + (code c - 48)) r
  end.

Definition int_digits (s : string) : Z := int_digits_from 0 s.

(** [str(n)] for a non-negative [n]. *)
Definition str_of_int (n : Z) : string :=
  NilZero.string_of_uint (N.to_uint (Z.to_N n)).

Fixpoint lstrip (s : string) : string :=
  match s with
  | EmptyString => EmptyString
  | String c r => if isspace c then lstrip r else s
  end.

Fixpoint rstrip (s : string) : string :=
  match s with
  | EmptyString => EmptyString
  | String c r =>
      match rstrip r with
      | EmptyString => if isspace c then EmptyString else String c EmptyString
      | r' => String c r'
      end
  end.

Definition strip (s : string) : string := rstrip (lstrip s).

(** [str.lower] on one character (code points below 256). *)
Definition lower_char (c : ascii) : ascii :=
  let n := code c in
  if ((65 <=? n) && (n <=? 90))
     || ((192 <=? n) && (n <=? 222) && negb (n =? 215))
  then ascii_of_N (Z.to_N (n + 32))
  else c.

Fixpoint lower (s : string) : string :=
  match s with
  | EmptyString => EmptyString
  | String c r => String (lower_char c) (lower r)
  end.

(** [s.split(sep)] for a one-character separator: never an empty list. *)
Fixpoint split (sep : ascii) (s : string) : list string :=
  match s with
  | EmptyString => [EmptyString]
  | String c r =>
      if Ascii.eqb c sep then EmptyString :: split sep r
      else match split sep r with
           | h :: t => String c h :: t
           | [] => [String c EmptyString]
           end
  end.

(** [sep.join(parts)]. *)
Fixpoint join (sep : string) (parts : list string) : string :=
  match parts with
  | [] => EmptyString
  | [p] => p
  | p :: rest => append p (append sep (join sep rest))
  end.

(** [x in xs] for a list of strings. *)
Definition mem (x : string) (xs : list string) : bool :=
  existsb (String.eqb x) xs.

End PyStr.

(** ** CPython's [ipaddress] module, IPv4 part *)

Module ipaddress.

Definition _ALL_ONES : Z := 2 ^ 32 - 1.
Definition _max_prefixlen : Z := 32.

(** [int.bit_length]. *)
Definition bit_length (n : Z) : Z :=
  if n =? 0 then 0 else Z.log2 (Z.abs n) + 1.

Definition _count_righthand_zero_bits (number bits : Z) : Z :=
  if number =? 0 then bits
  else Z.min bits (bit_length (Z.land (Z.lnot number) (number - 1))).

(** [_parse_octet]: [None] stands for the [ValueError] that
    [_ip_int_from_string] catches. *)
Definition _parse_octet (octet_str : string) : option Z :=
  if negb (PyStr.truthy octet_str) then None
  else if negb (PyStr.isascii_isdigit octet_str) then None
  else if (3 <? Z.of_nat (String.length octet_str)) then None
  else if negb (String.eqb octet_str "0")
          && match octet_str with
             | String c _ => Ascii.eqb c "0"
             | EmptyString => false
             end
  then None
  else
    let octet_int := PyStr.int_digits octet_str in
    if 255 <? octet_int then None else Some octet_int.

Fixpoint parse_octets (octets : list string) : option (list Z) :=
  match octets with
  | [] => Some []
  | o :: rest =>
      match _parse_octet o with
      | None => None
      | Some b =>
          match parse_octets rest with
          | None => None
          | Some bs => Some (b :: bs)
          end
      end
  end.

(** [int.from_bytes(bs, 'big')]. *)
Definition int_from_bytes_big (bs : list Z) : Z :=
  fold_left (fun acc b => 256 * acc + b) bs 0.

Definition _ip_int_from_string (ip_str : string) : outcome Z :=
  if negb (PyStr.truthy ip_str) then Raise AddressValueError
  else
    let octets := PyStr.split "." ip_str in
    if negb (Nat.eqb (List.length octets) 4) then Raise AddressValueError
    else match parse_octets octets with
         | Some bs => Return (int_from_bytes_big bs)
         | None => Raise AddressValueError
         end.

(** [IPv4Address(address)] for a string argument; the value is [_ip]. *)
Definition IPv4Address (address : string) : outcome Z :=
  if PyStr.contains "/" address then Raise AddressValueError
  else _ip_int_from_string address.

(** [_string_from_ip_int]: dotted decimal notation. *)
Definition _string_from_ip_int (ip_int : Z) : string :=
  PyStr.join "."
    (map PyStr.str_of_int
       [Z.shiftr ip_int 24 mod 256; Z.shiftr ip_int 16 mod 256;
        Z.shiftr ip_int 8 mod 256; ip_int mod 256]).

Definition _ip_int_from_prefix (prefixlen : Z) : Z :=
  Z.lxor _ALL_ONES (Z.shiftr _ALL_ONES prefixlen).

(** [_prefix_from_ip_int]: [None] stands for its [ValueError]. *)
Definition _prefix_from_ip_int (ip_int : Z) : option Z :=
  let trailing_zeroes := _count_righthand_zero_bits ip_int _max_prefixlen in
  let prefixlen := _max_prefixlen - trailing_zeroes in
  let leading_ones := Z.shiftr ip_int trailing_zeroes in
  let all_ones := Z.shiftl 1 prefixlen - 1 in
  if negb (leading_ones =? all_ones) then None else Some prefixlen.

Definition _prefix_from_prefix_string (prefixlen_str : string) : outcome Z :=
  if negb (PyStr.isascii_isdigit prefixlen_str) then Raise NetmaskValueError
  else
    let prefixlen := PyStr.int_digits prefixlen_str in
    if negb ((0 <=? prefixlen) && (prefixlen <=? _max_prefixlen))
    then Raise NetmaskValueError
    else Return prefixlen.

Definition _prefix_from_ip_string (ip_str : string) : outcome Z :=
  match _ip_int_from_string ip_str with
  | Raise _ => Raise NetmaskValueError
  | Return ip_int =>
      match _prefix_from_ip_int ip_int with
      | Some p => Return p
      | None =>
          let ip_int := Z.lxor ip_int _ALL_ONES in
          match _prefix_from_ip_int ip_int with
          | Some p => Return p
          | None => Raise NetmaskValueError
          end
      end
  end.

(** The mask handed to [_make_netmask]: the text after the slash, or the
    integer [_max_prefixlen] when the argument has no slash. *)
Inductive mask_arg : Type :=
| MaskInt (n : Z)
| MaskStr (s : string).

(** [_make_netmask]: the pair (netmask, prefix length). *)
Definition _make_netmask (arg : mask_arg) : outcome (Z * Z) :=
  prefixlen <-
    match arg with
    | MaskInt prefixlen =>
        if negb ((0 <=? prefixlen) && (prefixlen <=? _max_prefixlen))
        then Raise NetmaskValueError
        else Return prefixlen
    | MaskStr s =>
        match _prefix_from_prefix_string s with
        | Raise NetmaskValueError => _prefix_from_ip_string s
        | other => other
        end
    end ;;
  Return (_ip_int_from_prefix prefixlen, prefixlen).

Definition _split_optional_netmask (address : string) : outcome (list string) :=
  let addr := PyStr.split "/" address in
  if (2 <? Z.of_nat (List.length addr)) then Raise AddressValueError
  else Return addr.

Definition _split_addr_prefix (address : string) : outcome (string * mask_arg) :=
  address <- _split_optional_netmask address ;;
  match address with
  | a :: m :: _ => Return (a, MaskStr m)
  | [a] => Return (a, MaskInt _max_prefixlen)
  | [] => Return (EmptyString, MaskInt _max_prefixlen)
  end.

(** An [IPv4Network] object: the attributes its constructor sets. *)
Record IPv4Network : Type := mkIPv4Network {
  network_address : Z;
  netmask : Z;
  prefixlen : Z
}.

(** [IPv4Network(address, strict=False)] for a string argument. *)
Definition IPv4Network_nonstrict (address : string) : outcome IPv4Network :=
  '(addr, mask) <- _split_addr_prefix address ;;
  network_address <- IPv4Address addr ;;
  '(netmask, prefixlen) <- _make_netmask mask ;;
  let packed := network_address in
  let network_address :=
    if negb (Z.land packed netmask =? packed)
    then Z.land packed netmask
    else network_address in
  Return (mkIPv4Network network_address netmask prefixlen).

Definition hostmask (n : IPv4Network) : Z :=
  Z.lxor (netmask n) _ALL_ONES.

Definition broadcast_address (n : IPv4Network) : Z :=
  Z.lor (network_address n) (hostmask n).

(** [__str__]. *)
Definition str (n : IPv4Network) : string :=
  append (_string_from_ip_int (network_address n))
    (append "/" (PyStr.str_of_int (prefixlen n))).

(** [__eq__] between two IPv4 networks. *)
Definition eqb (a b : IPv4Network) : bool :=
  (network_address a =? network_address b) && (netmask a =? netmask b).

(** [__contains__]: [other in self] for an address [other]. *)
Definition contains (self : IPv4Network) (other : Z) : bool :=
  Z.land other (netmask self) =? network_address self.

Definition overlaps (self other : IPv4Network) : bool :=
  contains other (network_address self)
  || (contains other (broadcast_address self)
      || (contains self (network_address other)
          || contains self (broadcast_address other))).

Definition _is_subnet_of (a b : IPv4Network) : bool :=
  (network_address b <=? network_address a)
  && (broadcast_address b >=? broadcast_address a).

Definition subnet_of (self other : IPv4Network) : bool :=
  _is_subnet_of self other.

Definition supernet_of (self other : IPv4Network) : bool :=
  _is_subnet_of other self.

(** The constant networks of [_IPv4Constants] that the program reaches. *)
Definition net (a b c d p : Z) : IPv4Network :=
  mkIPv4Network (int_from_bytes_big [a; b; c; d]) (_ip_int_from_prefix p) p.

Definition _multicast_network : IPv4Network := net 224 0 0 0 4.
Definition _public_network : IPv4Network := net 100 64 0 0 10.

Definition _private_networks : list IPv4Network :=
  [ net 0 0 0 0 8; net 10 0 0 0 8; net 127 0 0 0 8; net 169 254 0 0 16;
    net 172 16 0 0 12; net 192 0 0 0 24; net 192 0 0 170 31;
    net 192 0 2 0 24; net 192 168 0 0 16; net 198 18 0 0 15;
    net 198 51 100 0 24; net 203 0 113 0 24; net 240 0 0 0 4;
    net 255 255 255 255 32 ].

Definition _private_networks_exceptions : list IPv4Network :=
  [ net 192 0 0 9 32; net 192 0 0 10 32 ].

(** [IPv4Address.is_multicast]. *)
Definition address_is_multicast (ip : Z) : bool :=
  contains _multicast_network ip.

(** [_BaseNetwork.is_multicast]. *)
Definition is_multicast (n : IPv4Network) : bool :=
  address_is_multicast (network_address n)
  && address_is_multicast (broadcast_address n).

(** [_BaseNetwork.is_private]. *)
Definition is_private (n : IPv4Network) : bool :=
  existsb (fun priv_network =>
             contains priv_network (network_address n)
             && contains priv_network (broadcast_address n))
          _private_networks
  && forallb (fun network =>
                negb (contains network (network_address n))
                && negb (contains network (broadcast_address n)))
             _private_networks_exceptions.

(** [IPv4Network.is_global]. *)
Definition is_global (n : IPv4Network) : bool :=
  negb (contains _public_network (network_address n)
        && contains _public_network (broadcast_address n))
  && negb (is_private n).

End ipaddress.

(** ** [utils/ip_validator.py]: class [IPValidator] *)

Module IPValidator.

Import ipaddress.

(** The second component of a [(False, message)] result, by the [return]
    statement that builds it:
    - [Empty_input_provided]: "Empty input provided";
    - [Invalid_IP_address_format s]: "Invalid IP address format: " + s;
    - [Multicast_not_supported]:
      "Multicast addresses are not supported in VNet";
    - [Class_E_not_supported]: "Class E addresses are not supported";
    - [Operation_cancelled_by_user]: "Operation cancelled by user";
    - [Invalid_CIDR_notation e]: "Invalid CIDR notation: " + str(e). *)
Inductive ErrorMessage : Type :=
| Empty_input_provided
| Invalid_IP_address_format (ip_input : string)
| Multicast_not_supported
| Class_E_not_supported
| Operation_cancelled_by_user
| Invalid_CIDR_notation (e : exn).

(** The pair that [validate_input] returns: [(True, network)] or
    [(False, message)]. *)
Inductive validation : Type :=
| Valid (network : IPv4Network)
| Invalid (message : ErrorMessage).

(** [validate_input(ip_input)]. [answer] is the line that [input] returns
    when the confirmation prompt is reached; the two warning lines printed
    before the prompt are not part of the returned value and are left out.
    A run in which [input] reads no line (end of file, or an interrupt at
    the prompt) is outside the model: what is proved of [validate_input]
    speaks of the runs in which the prompt, when reached, is answered. *)
Definition validate_input (ip_input : string) (answer : string)
  : outcome validation :=
  if negb (PyStr.truthy (PyStr.strip ip_input))
  then Return (Invalid Empty_input_provided)
  else
    let ip_input := PyStr.strip ip_input in
    (* Handle single IP address without mask *)
    step <-
      (if negb (PyStr.contains "/" ip_input) then
         match IPv4Address ip_input with
         | Return _ => Return (inr (append ip_input "/32"))
         | Raise AddressValueError =>
             Return (inl (Invalid (Invalid_IP_address_format ip_input)))
         | Raise e => Raise e
         end
       else Return (inr ip_input)) ;;
    match step with
    | inl early => Return early
    | inr ip_input =>
        match IPv4Network_nonstrict ip_input with
        | Return network =>
            if is_multicast network
            then Return (Invalid Multicast_not_supported)
            else if network_address network >=? int_from_bytes_big [240; 0; 0; 0]
            then Return (Invalid Class_E_not_supported)
            else if is_global network
            then
              let confirm := PyStr.lower (PyStr.strip answer) in
              if negb (PyStr.mem confirm ["y"%string; "yes"%string])
              then Return (Invalid Operation_cancelled_by_user)
              else Return (Valid network)
            else Return (Valid network)
        | Raise e => Return (Invalid (Invalid_CIDR_notation e))
        end
    end.

(** [is_subnet_overlap(network1, network2)]. *)
Definition is_subnet_overlap (network1 network2 : IPv4Network) : string :=
  if eqb network1 network2 then "exact"
  else if supernet_of network1 network2 then "contains"
  else if subnet_of network1 network2 then "contained"
  else if overlaps network1 network2 then "overlap"
  else "none".

(** [check_host_in_network(host_network, subnet)]. *)
Definition check_host_in_network (host_network subnet : IPv4Network) : bool :=
  if prefixlen host_network =? 32
  then ipaddress.contains subnet (network_address host_network)
  else false.

End IPValidator.

(** ** [core/subnet_analyzer.py]: class [SubnetAnalyzer] *)

Module SubnetAnalyzer.

Import ipaddress.
Import IPValidator.

Infix "+++" := append (at level 60, right associativity).

(** The [colorama] constants the analyzer interpolates. *)
Module Fore.
Definition ESC : string := String (ascii_of_nat 27) EmptyString.
Definition RED : string := ESC +++ "[31m".
Definition GREEN : string := ESC +++ "[32m".
Definition YELLOW : string := ESC +++ "[33m".
Definition CYAN : string := ESC +++ "[36m".
End Fore.

Module Style.
Definition RESET_ALL : string := Fore.ESC +++ "[0m".
End Style.

Definition NL : string := String (ascii_of_nat 10) EmptyString.

(** A subnet dictionary: keys ['name'] and ['address_prefix']. *)
Record Subnet : Type := mkSubnet {
  subnet_name_of : string;
  address_prefix : string
}.

(** A VNet dictionary, by the keys the analyzer reads; a missing
    ['address_prefixes'] or ['subnets'] key reads as the empty list. *)
Record VNet : Type := mkVNet {
  name : string;
  resource_group_of : string;
  address_prefixes : list string;
  subnets : list Subnet
}.

(** A [match_info] dictionary; ['subnet_name'] is present for subnets only. *)
Record MatchInfo : Type := mkMatchInfo {
  vnet_name : string;
  resource_group : string;
  subnet_name : option string;
  type : string;
  network : string;
  relationship : string
}.

(** [results['matches']]: one list per key. *)
Record Matches : Type := mkMatches {
  m_exact : list MatchInfo;
  m_contains : list MatchInfo;
  m_contained : list MatchInfo;
  m_overlap : list MatchInfo;
  m_host_in_subnet : list MatchInfo
}.

(** The [results] dictionary. *)
Record Results : Type := mkResults {
  target_network : string;
  is_host : bool;
  matches : Matches;
  total_vnets_checked : Z;
  total_subnets_checked : Z
}.

(** The state the analyzer works on: the [results] dictionary it mutates
    and the lines it has printed, oldest first. *)
Record World : Type := mkWorld {
  results : Results;
  console : list string
}.

Definition print (line : string) (w : World) : World :=
  mkWorld (results w) (console w ++ [line]).

Definition set_matches (f : Matches -> Matches) (w : World) : World :=
  let r := results w in
  mkWorld (mkResults (target_network r) (is_host r) (f (matches r))
             (total_vnets_checked r) (total_subnets_checked r))
          (console w).

(** [results['matches'][key].append(match_info)], one per literal key. *)
Definition append_exact (mi : MatchInfo) : World -> World :=
  set_matches (fun m => mkMatches (m_exact m ++ [mi]) (m_contains m)
                          (m_contained m) (m_overlap m) (m_host_in_subnet m)).
Definition append_contains (mi : MatchInfo) : World -> World :=
  set_matches (fun m => mkMatches (m_exact m) (m_contains m ++ [mi])
                          (m_contained m) (m_overlap m) (m_host_in_subnet m)).
Definition append_contained (mi : MatchInfo) : World -> World :=
  set_matches (fun m => mkMatches (m_exact m) (m_contains m)
                          (m_contained m ++ [mi]) (m_overlap m) (m_host_in_subnet m)).
Definition append_overlap (mi : MatchInfo) : World -> World :=
  set_matches (fun m => mkMatches (m_exact m) (m_contains m)
                          (m_contained m) (m_overlap m ++ [mi]) (m_host_in_subnet m)).
Definition append_host_in_subnet (mi : MatchInfo) : World -> World :=
  set_matches (fun m => mkMatches (m_exact m) (m_contains m)
                          (m_contained m) (m_overlap m) (m_host_in_subnet m ++ [mi])).

(** [results['total_subnets_checked'] += 1]. *)
Definition incr_total_subnets_checked (w : World) : World :=
  let r := results w in
  mkWorld (mkResults (target_network r) (is_host r) (matches r)
             (total_vnets_checked r) (total_subnets_checked r + 1))
          (console w).

(** A [for] loop whose body may raise: the first exception ends the loop. *)
Fixpoint for_each {A : Type} (xs : list A) (body : A -> World -> outcome World)
         (w : World) : outcome World :=
  match xs with
  | [] => Return w
  | x :: rest => w' <- body x w ;; for_each rest body w'
  end.

(** [_analyze_subnet(target_network, subnet, vnet_name, resource_group,
    results)]. *)
Definition _analyze_subnet (target_network : IPv4Network) (subnet : Subnet)
           (vnet_name resource_group : string) (w : World) : outcome World :=
  let subnet_name := subnet_name_of subnet in
  let subnet_prefix := address_prefix subnet in
  let try_block :=
    subnet_network <- IPv4Network_nonstrict subnet_prefix ;;
    (* Check network relationships *)
    let general :=
      let relationship := is_subnet_overlap target_network subnet_network in
      if negb (String.eqb relationship "none") then
        let match_info :=
          mkMatchInfo vnet_name resource_group (Some subnet_name) "subnet"
            (str subnet_network) relationship in
        if String.eqb relationship "exact" then
          Return (print ("    " +++ Fore.RED +++ "EXACT MATCH" +++ Style.RESET_ALL
                         +++ " in subnet '" +++ subnet_name +++ "': "
                         +++ str subnet_network)
                    (append_exact match_info w))
        else if String.eqb relationship "contains" then
          Return (print ("    " +++ Fore.YELLOW +++ "SUPERNET" +++ Style.RESET_ALL
                         +++ " Subnet contains target '" +++ subnet_name +++ "': "
                         +++ str subnet_network)
                    (append_contains match_info w))
        else if String.eqb relationship "contained" then
          Return (print ("    " +++ Fore.YELLOW +++ "SUBNET" +++ Style.RESET_ALL
                         +++ " Target contains subnet '" +++ subnet_name +++ "': "
                         +++ str subnet_network)
                    (append_contained match_info w))
        else if String.eqb relationship "overlap" then
          Return (print ("    " +++ Fore.YELLOW +++ "OVERLAP" +++ Style.RESET_ALL
                         +++ " with subnet '" +++ subnet_name +++ "': "
                         +++ str subnet_network)
                    (append_overlap match_info w))
        else Return w
      else Return w in
    (* Check for host in subnet (when target is /32) *)
    if prefixlen target_network =? 32 then
      if check_host_in_network target_network subnet_network then
        let match_info :=
          mkMatchInfo vnet_name resource_group (Some subnet_name) "subnet"
            (str subnet_network) "host_in_subnet" in
        Return (print ("    " +++ Fore.GREEN +++ "HOST FOUND" +++ Style.RESET_ALL
                       +++ " in subnet '" +++ subnet_name +++ "': "
                       +++ str subnet_network)
                  (append_host_in_subnet match_info w))
      else general
    else general in
  match try_block with
  | Raise AddressValueError =>
      Return (print ("    " +++ Fore.RED +++ "Invalid subnet address prefix: "
                     +++ subnet_prefix +++ Style.RESET_ALL) w)
  | other => other
  end.

(** The body of the loop over [vnet.get('address_prefixes', [])]. *)
Definition _analyze_vnet_prefix (target_network : IPv4Network)
           (vnet_name resource_group : string) (prefix : string) (w : World)
  : outcome World :=
  let try_block :=
    vnet_network <- IPv4Network_nonstrict prefix ;;
    let relationship := is_subnet_overlap target_network vnet_network in
    if negb (String.eqb relationship "none") then
      let match_info :=
        mkMatchInfo vnet_name resource_group None "vnet_address_space"
          (str vnet_network) relationship in
      if String.eqb relationship "exact" then
        Return (print ("  " +++ Fore.RED +++ "EXACT MATCH" +++ Style.RESET_ALL
                       +++ " in VNet address space: " +++ str vnet_network)
                  (append_exact match_info w))
      else if String.eqb relationship "contains" then
        Return (print ("  " +++ Fore.YELLOW +++ "SUPERNET" +++ Style.RESET_ALL
                       +++ " VNet address space contains target: "
                       +++ str vnet_network)
                  (append_contains match_info w))
      else if String.eqb relationship "contained" then
        Return (print ("  " +++ Fore.YELLOW +++ "SUBNET" +++ Style.RESET_ALL
                       +++ " Target contains VNet address space: "
                       +++ str vnet_network)
                  (append_contained match_info w))
      else if String.eqb relationship "overlap" then
        Return (print ("  " +++ Fore.YELLOW +++ "OVERLAP" +++ Style.RESET_ALL
                       +++ " with VNet address space: " +++ str vnet_network)
                  (append_overlap match_info w))
      else Return w
    else Return w in
  match try_block with
  | Raise AddressValueError =>
      Return (print ("  " +++ Fore.RED +++ "Invalid address prefix in VNet: "
                     +++ prefix +++ Style.RESET_ALL) w)
  | other => other
  end.

(** [_analyze_vnet(target_network, vnet, results)]. *)
Definition _analyze_vnet (target_network : IPv4Network) (vnet : VNet)
           (w : World) : outcome World :=
  let vnet_name := name vnet in
  let resource_group := resource_group_of vnet in
  let w := print (Fore.YELLOW +++ "Checking VNet: " +++ vnet_name +++ " (RG: "
                  +++ resource_group +++ ")" +++ Style.RESET_ALL) w in
  (* Check VNet address prefixes *)
  w <- for_each (address_prefixes vnet)
         (_analyze_vnet_prefix target_network vnet_name resource_group) w ;;
  (* Check individual subnets *)
  for_each (subnets vnet)
    (fun subnet w =>
       w <- _analyze_subnet target_network subnet vnet_name resource_group w ;;
       Return (incr_total_subnets_checked w))
    w.

Definition empty_matches : Matches := mkMatches [] [] [] [] [].

(** [analyze_ip_usage(target_network, vnets)], started on a console that
    already shows [printed]. The [results] component of the final state is
    the returned dictionary. *)
Definition analyze_ip_usage_from (printed : list string)
           (target_network : IPv4Network) (vnets : list VNet) : outcome World :=
  let results :=
    mkResults (str target_network) (prefixlen target_network =? 32)
      empty_matches (Z.of_nat (List.length vnets)) 0 in
  let w := mkWorld results printed in
  let w := print (NL +++ Fore.CYAN +++ "Analyzing network: "
                  +++ str target_network +++ Style.RESET_ALL) w in
  let w := print (Fore.CYAN +++ "Checking "
                  +++ PyStr.str_of_int (Z.of_nat (List.length vnets))
                  +++ " VNet(s)..." +++ Style.RESET_ALL +++ NL) w in
  for_each vnets (_analyze_vnet target_network) w.

Definition analyze_ip_usage (target_network : IPv4Network) (vnets : list VNet)
  : outcome World :=
  analyze_ip_usage_from [] target_network vnets.

End SubnetAnalyzer.

(** * Properties of the embedding *)

(** ** Networks as address ranges *)

Module NetworkFacts.

Import ipaddress.

(** What every [IPv4Network] object built by the constructor satisfies: a
    prefix length between 0 and 32, the netmask of that prefix length, and
    a 32-bit network address without host bits. *)
Definition well_formed (n : IPv4Network) : bool :=
  (0 <=? prefixlen n) && (prefixlen n <=? 32)
  && (netmask n =? _ip_int_from_prefix (prefixlen n))
  && (0 <=? network_address n) && (network_address n <=? _ALL_ONES)
  && (Z.land (network_address n) (netmask n) =? network_address n).

(** The number of host bits. *)
Definition host_bits (n : IPv4Network) : Z := 32 - prefixlen n.

(** The two networks share an address. *)
Definition ranges_intersect (a b : IPv4Network) : Prop :=
  exists x, 0 <= x <= _ALL_ONES
            /\ contains a x = true /\ contains b x = true.

(** Every address of [b] is an address of [a]. *)
Definition range_included (b a : IPv4Network) : Prop :=
  forall x, 0 <= x <= _ALL_ONES -> contains b x = true -> contains a x = true.

Lemma well_formed_spec n :
  well_formed n = true <->
  0 <= prefixlen n <= 32
  /\ netmask n = _ip_int_from_prefix (prefixlen n)
  /\ 0 <= network_address n <= _ALL_ONES
  /\ Z.land (network_address n) (netmask n) = network_address n.
Proof.
  unfold well_formed.
  rewrite !andb_true_iff, !Z.leb_le, !Z.eqb_eq. tauto.
Qed.

(** A property of prefix lengths can be checked on the 33 values. *)
Lemma prefix_cases (f g : Z -> Z) :
  forallb (fun n => f (Z.of_nat n) =? g (Z.of_nat n)) (seq 0 33) = true ->
  forall p, 0 <= p <= 32 -> f p = g p.
Proof.
  intros Hall p Hp.
  rewrite forallb_forall in Hall.
  specialize (Hall (Z.to_nat p)).
  rewrite Z2Nat.id in Hall by lia.
  apply Z.eqb_eq, Hall, in_seq. lia.
Qed.

Lemma netmask_value p :
  0 <= p <= 32 -> _ip_int_from_prefix p = 2 ^ 32 - 2 ^ (32 - p).
Proof.
  apply (prefix_cases _ip_int_from_prefix (fun p => 2 ^ 32 - 2 ^ (32 - p))).
  vm_compute. reflexivity.
Qed.

Lemma hostmask_value p :
  0 <= p <= 32 -> Z.lxor (_ip_int_from_prefix p) _ALL_ONES = Z.ones (32 - p).
Proof.
  apply (prefix_cases (fun p => Z.lxor (_ip_int_from_prefix p) _ALL_ONES)
           (fun p => Z.ones (32 - p))).
  vm_compute. reflexivity.
Qed.

Lemma netmask_injective p q :
  0 <= p <= 32 -> 0 <= q <= 32 ->
  _ip_int_from_prefix p = _ip_int_from_prefix q -> p = q.
Proof.
  intros Hp Hq. rewrite !netmask_value by assumption. intros E.
  assert (E' : 2 ^ (32 - p) = 2 ^ (32 - q)) by lia.
  apply Z.pow_inj_r in E'; lia.
Qed.

(** Masking a 32-bit address clears its low [32 - p] bits. *)
Lemma land_netmask x p :
  0 <= x <= _ALL_ONES -> 0 <= p <= 32 ->
  Z.land x (_ip_int_from_prefix p) = 2 ^ (32 - p) * (x / 2 ^ (32 - p)).
Proof.
  intros Hx Hp.
  assert (Hx32 : x = x mod 2 ^ 32).
  { symmetry. apply Z.mod_small. unfold _ALL_ONES in Hx. lia. }
  rewrite <- Z.shiftr_div_pow2, Z.mul_comm, <- Z.shiftl_mul_pow2 by lia.
  apply Z.bits_inj'. intros i Hi.
  unfold _ip_int_from_prefix.
  change _ALL_ONES with (Z.ones 32).
  rewrite Z.land_spec, Z.lxor_spec, Z.shiftr_spec by lia.
  rewrite !Z.testbit_ones_nonneg by lia.
  destruct (Z.ltb_spec i (32 - p)) as [Hlow | Hhigh].
  - rewrite Z.shiftl_spec_low by lia.
    replace (i <? 32) with true by (symmetry; apply Z.ltb_lt; lia).
    replace (i + p <? 32) with true by (symmetry; apply Z.ltb_lt; lia).
    apply andb_false_r.
  - rewrite Z.shiftl_spec by lia.
    rewrite Z.shiftr_spec by lia.
    replace (i - (32 - p) + (32 - p)) with i by lia.
    replace (i + p <? 32) with false by (symmetry; apply Z.ltb_ge; lia).
    destruct (Z.ltb_spec i 32) as [Hin | Hout].
    + apply andb_true_r.
    + rewrite Hx32, Z.mod_pow2_bits_high by lia. reflexivity.
Qed.

Section Range.

Variable n : IPv4Network.
Hypothesis Hwf : well_formed n = true.

Lemma host_bits_range : 0 <= host_bits n <= 32.
Proof. apply well_formed_spec in Hwf. unfold host_bits. lia. Qed.

Lemma network_address_aligned :
  network_address n = 2 ^ host_bits n * (network_address n / 2 ^ host_bits n).
Proof.
  apply well_formed_spec in Hwf. destruct Hwf as (Hp & Hm & Hr & Hl).
  rewrite Hm, land_netmask in Hl by assumption.
  unfold host_bits. lia.
Qed.

Lemma broadcast_value :
  broadcast_address n = network_address n + 2 ^ host_bits n - 1.
Proof.
  pose proof host_bits_range as Hk.
  pose proof network_address_aligned as Ha.
  apply well_formed_spec in Hwf. destruct Hwf as (Hp & Hm & Hr & Hl).
  unfold broadcast_address, hostmask.
  rewrite Hm, hostmask_value by assumption. fold (host_bits n).
  pose proof (Z.add_lor_land (network_address n) (Z.ones (host_bits n))) as Hadd.
  rewrite Z.land_ones in Hadd by lia.
  assert (Hmod : network_address n mod 2 ^ host_bits n = 0).
  { rewrite Ha, Z.mul_comm. apply Z.mod_mul.
    apply Z.pow_nonzero; lia. }
  rewrite Z.ones_equiv in *. lia.
Qed.

Lemma network_le_broadcast : network_address n <= broadcast_address n.
Proof.
  rewrite broadcast_value.
  pose proof host_bits_range.
  assert (0 < 2 ^ host_bits n) by (apply Z.pow_pos_nonneg; lia). lia.
Qed.

Lemma network_address_range : 0 <= network_address n <= _ALL_ONES.
Proof. apply well_formed_spec in Hwf. tauto. Qed.

Lemma broadcast_range : 0 <= broadcast_address n <= _ALL_ONES.
Proof.
  pose proof network_le_broadcast as Hle.
  pose proof network_address_range as Hr.
  pose proof host_bits_range as Hk.
  pose proof network_address_aligned as Ha.
  split; [lia|].
  rewrite broadcast_value.
  assert (Hpos : 0 < 2 ^ host_bits n) by (apply Z.pow_pos_nonneg; lia).
  assert (Hsplit : 2 ^ 32 = 2 ^ host_bits n * 2 ^ prefixlen n).
  { rewrite <- Z.pow_add_r by (unfold host_bits in *; lia).
    f_equal. unfold host_bits. lia. }
  unfold _ALL_ONES in *.
  set (q := network_address n / 2 ^ host_bits n) in *.
  assert (q < 2 ^ prefixlen n) by nia.
  nia.
Qed.

(** Membership is membership in the interval from the network address
    to the broadcast address. *)
Lemma contains_range x :
  0 <= x <= _ALL_ONES ->
  contains n x = true <-> network_address n <= x <= broadcast_address n.
Proof.
  intros Hx.
  pose proof host_bits_range as Hk.
  pose proof network_address_aligned as Ha.
  rewrite broadcast_value.
  pose proof Hwf as Hwf'.
  apply well_formed_spec in Hwf'. destruct Hwf' as (Hp & Hm & Hr & Hl).
  unfold contains. rewrite Z.eqb_eq, Hm, land_netmask by assumption.
  fold (host_bits n).
  assert (Hpos : 0 < 2 ^ host_bits n) by (apply Z.pow_pos_nonneg; lia).
  pose proof (Z.mul_div_le x _ Hpos) as Hlo.
  pose proof (Z.mul_succ_div_gt x _ Hpos) as Hhi.
  set (q := network_address n / 2 ^ host_bits n) in *.
  set (qx := x / 2 ^ host_bits n) in *.
  split.
  - intros E. lia.
  - intros [H1 H2].
    assert (qx = q) by nia. subst qx. lia.
Qed.

Lemma contains_network_address : contains n (network_address n) = true.
Proof.
  apply contains_range.
  - apply network_address_range.
  - pose proof network_le_broadcast. lia.
Qed.

Lemma contains_broadcast_address : contains n (broadcast_address n) = true.
Proof.
  apply contains_range.
  - apply broadcast_range.
  - pose proof network_le_broadcast. lia.
Qed.

End Range.

(** *** Comparison of two networks *)

Lemma eqb_eq a b :
  well_formed a = true -> well_formed b = true ->
  eqb a b = true <-> a = b.
Proof.
  intros Ha Hb. split.
  - unfold eqb. rewrite andb_true_iff, !Z.eqb_eq. intros [Hn Hm].
    apply well_formed_spec in Ha. apply well_formed_spec in Hb.
    destruct Ha as (Hpa & Hma & _). destruct Hb as (Hpb & Hmb & _).
    assert (prefixlen a = prefixlen b).
    { apply netmask_injective; congruence. }
    destruct a, b; simpl in *; congruence.
  - intros ->. unfold eqb. rewrite !Z.eqb_refl. reflexivity.
Qed.

Lemma eqb_refl a : eqb a a = true.
Proof. unfold eqb. rewrite !Z.eqb_refl. reflexivity. Qed.

Lemma _is_subnet_of_bounds a b :
  _is_subnet_of a b = true <->
  network_address b <= network_address a
  /\ broadcast_address a <= broadcast_address b.
Proof.
  unfold _is_subnet_of. rewrite andb_true_iff, Z.leb_le, Z.geb_le. tauto.
Qed.

(** [a.subnet_of(b)] says that the addresses of [a] are addresses of [b]. *)
Lemma subnet_of_included a b :
  well_formed a = true -> well_formed b = true ->
  subnet_of a b = true <-> range_included a b.
Proof.
  intros Ha Hb. unfold subnet_of. rewrite _is_subnet_of_bounds. split.
  - intros [Hlo Hhi] x Hx Hin.
    apply (contains_range a Ha x Hx) in Hin.
    apply (contains_range b Hb x Hx). lia.
  - intros Hinc.
    pose proof (Hinc _ (network_address_range a Ha)
                  (contains_network_address a Ha)) as H1.
    pose proof (Hinc _ (broadcast_range a Ha)
                  (contains_broadcast_address a Ha)) as H2.
    apply (contains_range b Hb _ (network_address_range a Ha)) in H1.
    apply (contains_range b Hb _ (broadcast_range a Ha)) in H2.
    lia.
Qed.

Lemma supernet_of_included a b :
  well_formed a = true -> well_formed b = true ->
  supernet_of a b = true <-> range_included b a.
Proof. intros Ha Hb. apply (subnet_of_included b a Hb Ha). Qed.

(** A subnet has at least the prefix length of its supernet. *)
Lemma subnet_of_prefixlen a b :
  well_formed a = true -> well_formed b = true ->
  subnet_of a b = true -> prefixlen b <= prefixlen a.
Proof.
  intros Ha Hb. unfold subnet_of. rewrite _is_subnet_of_bounds.
  rewrite (broadcast_value a Ha), (broadcast_value b Hb).
  pose proof (host_bits_range a Ha). pose proof (host_bits_range b Hb).
  pose proof (network_address_aligned a Ha) as Ea.
  intros [Hlo Hhi].
  assert (Hpow : 2 ^ host_bits a <= 2 ^ host_bits b) by lia.
  apply Z.pow_le_mono_r_iff in Hpow; unfold host_bits in *; lia.
Qed.

(** Two networks that are subnets of each other are the same network. *)
Lemma subnet_of_antisym a b :
  well_formed a = true -> well_formed b = true ->
  subnet_of a b = true -> subnet_of b a = true -> a = b.
Proof.
  intros Ha Hb Hab Hba.
  pose proof (subnet_of_prefixlen a b Ha Hb Hab).
  pose proof (subnet_of_prefixlen b a Hb Ha Hba).
  unfold subnet_of in *. rewrite _is_subnet_of_bounds in *.
  apply (eqb_eq a b Ha Hb). unfold eqb.
  apply well_formed_spec in Ha. apply well_formed_spec in Hb.
  destruct Ha as (_ & Hma & _). destruct Hb as (_ & Hmb & _).
  rewrite Hma, Hmb.
  replace (prefixlen b) with (prefixlen a) by lia.
  rewrite Z.eqb_refl, andb_true_r. apply Z.eqb_eq. lia.
Qed.

(** [a.overlaps(b)] says that the two ranges share an address. *)
Lemma overlaps_intersect a b :
  well_formed a = true -> well_formed b = true ->
  overlaps a b = true <-> ranges_intersect a b.
Proof.
  intros Ha Hb. unfold overlaps, ranges_intersect.
  rewrite !orb_true_iff. split.
  - intros [H | [H | [H | H]]].
    + exists (network_address a).
      auto using network_address_range, contains_network_address.
    + exists (broadcast_address a).
      auto using broadcast_range, contains_broadcast_address.
    + exists (network_address b).
      auto using network_address_range, contains_network_address.
    + exists (broadcast_address b).
      auto using broadcast_range, contains_broadcast_address.
  - intros (x & Hx & Hxa & Hxb).
    apply (contains_range a Ha x Hx) in Hxa.
    apply (contains_range b Hb x Hx) in Hxb.
    destruct (Z.le_ge_cases (network_address b) (network_address a)) as [Hle | Hge].
    + left.
      apply (contains_range b Hb _ (network_address_range a Ha)). lia.
    + right. right. left.
      apply (contains_range a Ha _ (network_address_range b Hb)). lia.
Qed.

(** Two networks that share an address are nested: the one with the longer
    prefix lies inside the other. *)
Lemma intersect_nested a b :
  well_formed a = true -> well_formed b = true ->
  prefixlen b <= prefixlen a ->
  ranges_intersect a b -> subnet_of a b = true.
Proof.
  intros Ha Hb Hlen (x & Hx & Hxa & Hxb).
  apply subnet_of_included; try assumption.
  intros y Hy Hya.
  pose proof (host_bits_range a Ha) as Hka.
  pose proof (host_bits_range b Hb) as Hkb.
  pose proof Ha as Ha'. pose proof Hb as Hb'.
  apply well_formed_spec in Ha'. destruct Ha' as (Hpa & Hma & Hra & Hla).
  apply well_formed_spec in Hb'. destruct Hb' as (Hpb & Hmb & Hrb & Hlb).
  unfold contains in *. rewrite Z.eqb_eq in *.
  rewrite Hma, land_netmask in Hxa, Hya by assumption.
  rewrite Hmb, land_netmask in Hxb |- * by assumption.
  fold (host_bits a) in *. fold (host_bits b) in *.
  assert (Hpa' : 0 < 2 ^ host_bits a) by (apply Z.pow_pos_nonneg; lia).
  assert (Hd : host_bits b = host_bits a + (host_bits b - host_bits a)) by lia.
  assert (Hq : x / 2 ^ host_bits a = y / 2 ^ host_bits a) by nia.
  assert (Hdiv : forall z, z / 2 ^ host_bits b
                           = z / 2 ^ host_bits a / 2 ^ (host_bits b - host_bits a)).
  { intros z.
    assert (0 < 2 ^ (host_bits b - host_bits a))
      by (apply Z.pow_pos_nonneg; unfold host_bits in *; lia).
    rewrite Z.div_div by lia.
    rewrite <- Z.pow_add_r by (unfold host_bits in *; lia).
    rewrite <- Hd. reflexivity. }
  rewrite <- Hxb, (Hdiv x), (Hdiv y), Hq. reflexivity.
Qed.

(** *** The constructor builds well-formed networks *)

Lemma int_digits_nonneg s :
  PyStr.all_chars PyStr.is_decimal_digit s = true -> 0 <= PyStr.int_digits s.
Proof.
  unfold PyStr.int_digits.
  assert (Hacc : 0 <= 0) by lia. revert Hacc. generalize 0 at 2 4.
  induction s as [|c r IH]; intros acc Hacc Hall;
    cbn [PyStr.int_digits_from PyStr.all_chars] in *.
  - assumption.
  - apply andb_true_iff in Hall. destruct Hall as [Hc Hr].
    apply IH; [|assumption].
    unfold PyStr.is_decimal_digit in Hc.
    apply andb_true_iff in Hc. rewrite !Z.leb_le in Hc. lia.
Qed.

Lemma _parse_octet_range o b :
  _parse_octet o = Some b -> 0 <= b <= 255.
Proof.
  unfold _parse_octet.
  destruct (negb (PyStr.truthy o)); [discriminate|].
  destruct (PyStr.isascii_isdigit o) eqn:Hd; simpl; [|discriminate].
  destruct (3 <? Z.of_nat (String.length o)); [discriminate|].
  destruct (negb (String.eqb o "0") && _); [discriminate|].
  destruct (Z.ltb_spec 255 (PyStr.int_digits o)); [discriminate|].
  intros [= <-]. split; [|assumption].
  apply int_digits_nonneg.
  unfold PyStr.isascii_isdigit in Hd. apply andb_true_iff in Hd. tauto.
Qed.

Lemma parse_octets_range octets bs :
  parse_octets octets = Some bs ->
  List.length bs = List.length octets /\ Forall (fun b => 0 <= b <= 255) bs.
Proof.
  revert bs. induction octets as [|o rest IH]; intros bs; simpl.
  - intros [= <-]. split; [reflexivity|constructor].
  - destruct (_parse_octet o) as [b|] eqn:Ho; [|discriminate].
    destruct (parse_octets rest) as [bs'|]; [|discriminate].
    intros [= <-]. destruct (IH bs' eq_refl) as [Hlen Hall].
    split; [simpl; congruence|].
    constructor; [eapply _parse_octet_range; eassumption|assumption].
Qed.

Lemma _ip_int_from_string_range s ip :
  _ip_int_from_string s = Return ip -> 0 <= ip <= _ALL_ONES.
Proof.
  unfold _ip_int_from_string.
  destruct (negb (PyStr.truthy s)); [discriminate|].
  destruct (Nat.eqb_spec (List.length (PyStr.split "." s)) 4) as [Hlen|];
    simpl; [|discriminate].
  destruct (parse_octets (PyStr.split "." s)) as [bs|] eqn:Hp; [|discriminate].
  intros [= <-].
  apply parse_octets_range in Hp. destruct Hp as [Hl Hall].
  rewrite Hlen in Hl.
  destruct bs as [|b1 [|b2 [|b3 [|b4 [|? ?]]]]]; try discriminate.
  repeat match goal with H : Forall _ (_ :: _) |- _ => inversion_clear H end.
  unfold int_from_bytes_big, _ALL_ONES. cbn [fold_left].
  change (2 ^ 32) with 4294967296. lia.
Qed.

Lemma IPv4Address_range s ip :
  IPv4Address s = Return ip -> 0 <= ip <= _ALL_ONES.
Proof.
  unfold IPv4Address. destruct (PyStr.contains "/" s); [discriminate|].
  apply _ip_int_from_string_range.
Qed.

Lemma _prefix_from_ip_int_range ip p :
  _prefix_from_ip_int ip = Some p -> 0 <= p <= 32.
Proof.
  unfold _prefix_from_ip_int.
  set (tz := _count_righthand_zero_bits ip _max_prefixlen).
  assert (Htz : 0 <= tz <= 32).
  { subst tz. unfold _count_righthand_zero_bits, _max_prefixlen, bit_length.
    destruct (ip =? 0); [lia|].
    destruct (_ =? 0); [lia|].
    pose proof (Z.log2_nonneg (Z.abs (Z.land (Z.lnot ip) (ip - 1)))). lia. }
  destruct (negb _); [discriminate|]. intros H.
  assert (E : p = _max_prefixlen - tz) by congruence.
  unfold _max_prefixlen in E. lia.
Qed.

Lemma _make_netmask_spec arg m p :
  _make_netmask arg = Return (m, p) ->
  0 <= p <= 32 /\ m = _ip_int_from_prefix p.
Proof.
  unfold _make_netmask, bind.
  match goal with |- match ?c with _ => _ end = _ -> _ =>
    destruct c as [q|e] eqn:Hq end; [|discriminate].
  intros [= <- <-]. split; [|reflexivity].
  destruct arg as [z|s].
  - unfold _max_prefixlen in Hq.
    destruct (Z.leb_spec 0 z); destruct (Z.leb_spec z 32);
      simpl in Hq; try discriminate.
    injection Hq as <-. lia.
  - assert (Hstr : forall r, _prefix_from_prefix_string s = Return r -> 0 <= r <= 32).
    { unfold _prefix_from_prefix_string, _max_prefixlen. intros r.
      destruct (negb (PyStr.isascii_isdigit s)); [discriminate|].
      destruct (Z.leb_spec 0 (PyStr.int_digits s));
        destruct (Z.leb_spec (PyStr.int_digits s) 32); simpl; try discriminate.
      intros [= <-]. lia. }
    assert (Hip : forall r, _prefix_from_ip_string s = Return r -> 0 <= r <= 32).
    { unfold _prefix_from_ip_string. intros r.
      destruct (_ip_int_from_string s) as [ip|]; [|discriminate].
      destruct (_prefix_from_ip_int ip) as [p1|] eqn:H1.
      - intros [= <-]. eapply _prefix_from_ip_int_range; eassumption.
      - destruct (_prefix_from_ip_int (Z.lxor ip _ALL_ONES)) as [p2|] eqn:H2;
          [|discriminate].
        intros [= <-]. eapply _prefix_from_ip_int_range; eassumption. }
    destruct (_prefix_from_prefix_string s) as [r|[|]] eqn:Hs.
    + injection Hq as <-. auto.
    + discriminate.
    + auto.
Qed.

Theorem IPv4Network_nonstrict_well_formed s n :
  IPv4Network_nonstrict s = Return n -> well_formed n = true.
Proof.
  unfold IPv4Network_nonstrict, bind.
  destruct (_split_addr_prefix s) as [[addr mask]|]; [|discriminate].
  destruct (IPv4Address addr) as [ip|] eqn:Hip; [|discriminate].
  destruct (_make_netmask mask) as [[m p]|] eqn:Hm; [|discriminate].
  apply IPv4Address_range in Hip.
  apply _make_netmask_spec in Hm. destruct Hm as [Hp ->].
  intros [= <-]. apply well_formed_spec. simpl.
  pose proof (land_netmask ip p Hip Hp) as Hland.
  assert (Hpos : 0 < 2 ^ (32 - p)) by (apply Z.pow_pos_nonneg; lia).
  pose proof (Z.mul_div_le ip _ Hpos).
  assert (0 <= ip / 2 ^ (32 - p)) by (apply Z.div_pos; lia).
  destruct (Z.eqb_spec (Z.land ip (_ip_int_from_prefix p)) ip) as [E|E]; simpl.
  - tauto.
  - rewrite <- Z.land_assoc, Z.land_diag.
    repeat split; try reflexivity; try lia; nia.
Qed.

End NetworkFacts.

(** ** The pairwise classifier and the host check *)

Module ClassifierSpec.

Import ipaddress IPValidator NetworkFacts.

Local Open Scope string_scope.

Definition net_10_0_0_0_16 : IPv4Network := net 10 0 0 0 16.
Definition net_10_0_0_0_24 : IPv4Network := net 10 0 0 0 24.
Definition host_10_0_0_5 : IPv4Network := net 10 0 0 5 32.

(** The value of [is_subnet_overlap] is one of its five literals. *)
Lemma is_subnet_overlap_values a b :
  In (is_subnet_overlap a b) ["exact"; "contains"; "contained"; "overlap"; "none"].
Proof.
  unfold is_subnet_overlap.
  destruct (eqb a b), (supernet_of a b), (subnet_of a b), (overlaps a b);
    simpl; tauto.
Qed.

Lemma is_subnet_overlap_refl a : is_subnet_overlap a a = "exact".
Proof. unfold is_subnet_overlap. rewrite eqb_refl. reflexivity. Qed.

(** C1. [is_subnet_overlap] answers by the first check that holds, in the
    order exact, contains, contained, overlap, none: "exact" exactly for
    equal networks; otherwise "contains" exactly when every address of the
    second network is in the first; otherwise "contained" exactly when
    every address of the first is in the second; otherwise "overlap"
    exactly when the two ranges share an address; otherwise "none". Equal
    networks are never answered with "contains" or "contained". *)
Theorem is_subnet_overlap_first_match (a b : IPv4Network) :
  well_formed a = true -> well_formed b = true ->
  (is_subnet_overlap a b = "exact" <-> a = b)
  /\ (is_subnet_overlap a b = "contains" <->
      a <> b /\ range_included b a)
  /\ (is_subnet_overlap a b = "contained" <->
      a <> b /\ ~ range_included b a /\ range_included a b)
  /\ (is_subnet_overlap a b = "overlap" <->
      a <> b /\ ~ range_included b a /\ ~ range_included a b
      /\ ranges_intersect a b)
  /\ (is_subnet_overlap a b = "none" <->
      a <> b /\ ~ range_included b a /\ ~ range_included a b
      /\ ~ ranges_intersect a b)
  /\ (a = b -> is_subnet_overlap a b <> "contains"
               /\ is_subnet_overlap a b <> "contained").
Proof.
  intros Ha Hb.
  pose proof (eqb_eq a b Ha Hb) as Heq.
  pose proof (supernet_of_included a b Ha Hb) as Hsup.
  pose proof (subnet_of_included a b Ha Hb) as Hsub.
  pose proof (overlaps_intersect a b Ha Hb) as Hov.
  unfold is_subnet_overlap.
  destruct (eqb a b) eqn:E1.
  { assert (a = b) by (apply Heq; reflexivity).
    repeat split; intros; try discriminate; try tauto. }
  assert (Hne : a <> b).
  { intros E. apply Heq in E. discriminate. }
  destruct (supernet_of a b) eqn:E2.
  { assert (range_included b a) by (apply Hsup; reflexivity).
    repeat split; intros; try discriminate; try tauto. }
  assert (Hnsup : ~ range_included b a).
  { intros E. apply Hsup in E. discriminate. }
  destruct (subnet_of a b) eqn:E3.
  { assert (range_included a b) by (apply Hsub; reflexivity).
    repeat split; intros; try discriminate; try tauto. }
  assert (Hnsub : ~ range_included a b).
  { intros E. apply Hsub in E. discriminate. }
  destruct (overlaps a b) eqn:E4.
  { assert (ranges_intersect a b) by (apply Hov; reflexivity).
    repeat split; intros; try discriminate; try tauto. }
  assert (Hnov : ~ ranges_intersect a b).
  { intros E. apply Hov in E. discriminate. }
  repeat split; intros; try discriminate; try tauto.
Qed.

Lemma is_subnet_overlap_first_match_witness :
  well_formed net_10_0_0_0_16 = true
  /\ well_formed net_10_0_0_0_24 = true
  /\ (is_subnet_overlap net_10_0_0_0_16 net_10_0_0_0_24 = "contains" <->
      net_10_0_0_0_16 <> net_10_0_0_0_24
      /\ range_included net_10_0_0_0_24 net_10_0_0_0_16).
Proof.
  split; [reflexivity|]. split; [reflexivity|].
  apply (is_subnet_overlap_first_match net_10_0_0_0_16 net_10_0_0_0_24);
    reflexivity.
Defined.

(** On networks built by the constructor the fourth answer is never
    given: two ranges that share an address are nested. *)
Lemma is_subnet_overlap_never_overlap a b :
  well_formed a = true -> well_formed b = true ->
  is_subnet_overlap a b <> "overlap".
Proof.
  intros Ha Hb. unfold is_subnet_overlap.
  destruct (eqb a b); [discriminate|].
  destruct (supernet_of a b) eqn:E2; [discriminate|].
  destruct (subnet_of a b) eqn:E3; [discriminate|].
  destruct (overlaps a b) eqn:E4; [|discriminate].
  exfalso. apply (overlaps_intersect a b Ha Hb) in E4.
  destruct (Z.le_ge_cases (prefixlen b) (prefixlen a)) as [Hle | Hge].
  - rewrite (intersect_nested a b Ha Hb Hle E4) in E3. discriminate.
  - assert (E4' : ranges_intersect b a).
    { destruct E4 as (x & Hx & H1 & H2). exists x. tauto. }
    unfold supernet_of in E2. fold (subnet_of b a) in E2.
    rewrite (intersect_nested b a Hb Ha Hge E4') in E2. discriminate.
Qed.

(** C6. For two different networks, the first contains the second exactly
    when the second is contained in the first. *)
Theorem contains_contained_symmetry (a b : IPv4Network) :
  well_formed a = true -> well_formed b = true -> a <> b ->
  is_subnet_overlap a b = "contains" <-> is_subnet_overlap b a = "contained".
Proof.
  intros Ha Hb Hne.
  assert (Eab : eqb a b = false).
  { destruct (eqb a b) eqn:E; [|reflexivity].
    apply (eqb_eq a b Ha Hb) in E. contradiction. }
  assert (Eba : eqb b a = false).
  { destruct (eqb b a) eqn:E; [|reflexivity].
    apply (eqb_eq b a Hb Ha) in E. congruence. }
  unfold is_subnet_overlap. rewrite Eab, Eba.
  unfold supernet_of, subnet_of.
  destruct (_is_subnet_of b a) eqn:Hba, (_is_subnet_of a b) eqn:Hab.
  - exfalso. apply Hne. apply subnet_of_antisym; assumption.
  - tauto.
  - split; discriminate.
  - destruct (overlaps a b), (overlaps b a); split; discriminate.
Qed.

Lemma contains_contained_symmetry_witness :
  well_formed net_10_0_0_0_16 = true
  /\ well_formed net_10_0_0_0_24 = true
  /\ net_10_0_0_0_16 <> net_10_0_0_0_24
  /\ (is_subnet_overlap net_10_0_0_0_16 net_10_0_0_0_24 = "contains" <->
      is_subnet_overlap net_10_0_0_0_24 net_10_0_0_0_16 = "contained").
Proof.
  split; [reflexivity|]. split; [reflexivity|].
  split; [discriminate|].
  apply (contains_contained_symmetry net_10_0_0_0_16 net_10_0_0_0_24);
    [reflexivity | reflexivity | discriminate].
Defined.

(** C5. [check_host_in_network] is true exactly when the host argument has
    prefix length 32 and its address lies between the network address and
    the broadcast address of the subnet; it is a total boolean function,
    and for a host argument of any other prefix length it is false
    whatever the subnet. *)
Theorem check_host_in_network_spec (host subnet : IPv4Network) :
  well_formed host = true -> well_formed subnet = true ->
  (check_host_in_network host subnet = true <->
   prefixlen host = 32
   /\ network_address subnet <= network_address host <= broadcast_address subnet)
  /\ (prefixlen host <> 32 ->
      forall any_subnet, check_host_in_network host any_subnet = false).
Proof.
  intros Hh Hs. unfold check_host_in_network. split.
  - destruct (Z.eqb_spec (prefixlen host) 32) as [E | E].
    + rewrite (contains_range subnet Hs _ (network_address_range host Hh)).
      tauto.
    + split; [discriminate | tauto].
  - intros Hne any_subnet.
    destruct (Z.eqb_spec (prefixlen host) 32); [contradiction | reflexivity].
Qed.

Lemma check_host_in_network_spec_witness :
  well_formed host_10_0_0_5 = true
  /\ well_formed net_10_0_0_0_24 = true
  /\ (check_host_in_network host_10_0_0_5 net_10_0_0_0_24 = true <->
      prefixlen host_10_0_0_5 = 32
      /\ network_address net_10_0_0_0_24 <= network_address host_10_0_0_5
         <= broadcast_address net_10_0_0_0_24).
Proof.
  split; [reflexivity|]. split; [reflexivity|].
  apply (check_host_in_network_spec host_10_0_0_5 net_10_0_0_0_24);
    reflexivity.
Defined.

End ClassifierSpec.

(** ** Input validation *)

Module ValidatorSpec.

Import ipaddress IPValidator NetworkFacts.

Local Open Scope string_scope.

(** The text that [validate_input] hands to the network constructor: the
    trimmed input, with "/32" added when it has no slash. *)
Definition cidr_text (ip_input : string) : string :=
  let t := PyStr.strip ip_input in
  if PyStr.contains "/" t then t else append t "/32".

(** The user's answer counts as a confirmation. *)
Definition confirmed (answer : string) : bool :=
  PyStr.mem (PyStr.lower (PyStr.strip answer)) ["y"; "yes"].

Definition class_E_start : Z := int_from_bytes_big [240; 0; 0; 0].

(** *** Strings *)

Lemma contains_lstrip c s :
  PyStr.contains c s = false -> PyStr.contains c (PyStr.lstrip s) = false.
Proof.
  induction s as [|d r IH]; simpl; [reflexivity|].
  intros H. apply orb_false_iff in H. destruct H as [Hd Hr].
  destruct (PyStr.isspace d); [auto|].
  simpl. rewrite Hd, Hr. reflexivity.
Qed.

Lemma contains_rstrip c s :
  PyStr.contains c s = false -> PyStr.contains c (PyStr.rstrip s) = false.
Proof.
  induction s as [|d r IH]; simpl; [reflexivity|].
  intros H. apply orb_false_iff in H. destruct H as [Hd Hr].
  specialize (IH Hr).
  destruct (PyStr.rstrip r) as [|e r'].
  - destruct (PyStr.isspace d); simpl; [reflexivity|].
    rewrite Hd. reflexivity.
  - simpl in *. rewrite Hd, IH. reflexivity.
Qed.

Lemma contains_strip c s :
  PyStr.contains c s = false -> PyStr.contains c (PyStr.strip s) = false.
Proof. intros H. apply contains_rstrip, contains_lstrip, H. Qed.

Lemma split_append c t u :
  PyStr.contains c t = false ->
  PyStr.split c (append t (String c u)) = t :: PyStr.split c u.
Proof.
  induction t as [|d r IH]; simpl.
  - intros _. rewrite Ascii.eqb_refl. reflexivity.
  - intros H. apply orb_false_iff in H. destruct H as [Hd Hr].
    rewrite Hd, (IH Hr). reflexivity.
Qed.

(** *** The constructor on a host address with "/32" added *)

Lemma IPv4Address_only_raises_AddressValueError s e :
  IPv4Address s = Raise e -> e = AddressValueError.
Proof.
  unfold IPv4Address, _ip_int_from_string.
  destruct (PyStr.contains "/" s); [congruence|].
  destruct (negb (PyStr.truthy s)); [congruence|].
  destruct (negb _); [congruence|].
  destruct (parse_octets _); congruence.
Qed.

Lemma IPv4Network_nonstrict_host t :
  PyStr.contains "/" t = false ->
  IPv4Network_nonstrict (append t "/32") =
  match IPv4Address t with
  | Return ip => Return (mkIPv4Network ip _ALL_ONES 32)
  | Raise e => Raise e
  end.
Proof.
  intros Hno.
  unfold IPv4Network_nonstrict, _split_addr_prefix, _split_optional_netmask.
  rewrite (split_append "/" t "32" Hno).
  change (PyStr.split "/" "32") with ["32"].
  change (2 <? Z.of_nat (List.length [t; "32"]))%Z with false.
  cbn [bind].
  destruct (IPv4Address t) as [ip|e] eqn:Hip; [|reflexivity].
  change (_make_netmask (MaskStr "32")) with (Return (_ALL_ONES, 32)).
  cbn [bind].
  apply IPv4Address_range in Hip.
  assert (E : Z.land ip _ALL_ONES = ip).
  { change _ALL_ONES with (Z.ones 32). rewrite Z.land_ones by lia.
    apply Z.mod_small. unfold _ALL_ONES in Hip. lia. }
  rewrite E, Z.eqb_refl. reflexivity.
Qed.

(** *** The path through [validate_input] *)

(** What [validate_input] answers once the constructor has built [n]. *)
Lemma validate_input_cases s answer :
  match IPv4Network_nonstrict (cidr_text s) with
  | Return n =>
      validate_input s answer =
      Return (if is_multicast n then Invalid Multicast_not_supported
              else if network_address n >=? class_E_start
                   then Invalid Class_E_not_supported
              else if is_global n
                   then if confirmed answer then Valid n
                        else Invalid Operation_cancelled_by_user
              else Valid n)
  | Raise e =>
      exists message, validate_input s answer = Return (Invalid message)
  end.
Proof.
  unfold validate_input, cidr_text, confirmed, class_E_start.
  destruct (PyStr.strip s) as [|c r] eqn:Hs.
  { cbn. eexists. reflexivity. }
  cbn [PyStr.truthy negb].
  destruct (PyStr.contains "/" (String c r)) eqn:Hslash; cbn [negb bind].
  - destruct (IPv4Network_nonstrict (String c r)) as [n|e].
    + destruct (is_multicast n); [reflexivity|].
      destruct (_ >=? _); [reflexivity|].
      destruct (is_global n); [|reflexivity].
      destruct (PyStr.mem _ _); reflexivity.
    + eexists. reflexivity.
  - rewrite (IPv4Network_nonstrict_host _ Hslash).
    destruct (IPv4Address (String c r)) as [ip|e] eqn:Hip.
    + cbn [bind]. rewrite (IPv4Network_nonstrict_host _ Hslash), Hip.
      destruct (is_multicast _); [reflexivity|].
      destruct (_ >=? _); [reflexivity|].
      destruct (is_global _); [|reflexivity].
      destruct (PyStr.mem _ _); reflexivity.
    + rewrite (IPv4Address_only_raises_AddressValueError _ _ Hip).
      eexists. reflexivity.
Qed.

(** [validate_input] returns a pair for every input: it never raises. *)
Lemma validate_input_returns s answer :
  exists v, validate_input s answer = Return v.
Proof.
  pose proof (validate_input_cases s answer) as H.
  destruct (IPv4Network_nonstrict (cidr_text s)).
  - eexists. eassumption.
  - destruct H as [message H]. eexists. eassumption.
Qed.

Lemma validate_input_valid s answer m :
  validate_input s answer = Return (Valid m) ->
  IPv4Network_nonstrict (cidr_text s) = Return m
  /\ is_multicast m = false
  /\ (network_address m >=? class_E_start) = false.
Proof.
  pose proof (validate_input_cases s answer) as H.
  destruct (IPv4Network_nonstrict (cidr_text s)) as [n|e].
  - rewrite H.
    destruct (is_multicast n) eqn:Hm; [discriminate|].
    destruct (_ >=? _) eqn:He; [discriminate|].
    destruct (is_global n); [destruct (confirmed answer)|];
      intros Hv; try discriminate; injection Hv as <-; auto.
  - destruct H as [message H]. rewrite H. discriminate.
Qed.

(** *** Multicast and class E *)

Lemma multicast_network_well_formed : well_formed _multicast_network = true.
Proof. reflexivity. Qed.

(** A network is multicast when it lies in 224.0.0.0/4. *)
Lemma is_multicast_included n :
  well_formed n = true ->
  is_multicast n = true <-> range_included n _multicast_network.
Proof.
  intros Hn. unfold is_multicast, address_is_multicast.
  rewrite andb_true_iff. split.
  - intros [Hlo Hhi] x Hx Hin.
    apply (contains_range n Hn x Hx) in Hin.
    apply (contains_range _ multicast_network_well_formed _
             (network_address_range n Hn)) in Hlo.
    apply (contains_range _ multicast_network_well_formed _
             (broadcast_range n Hn)) in Hhi.
    apply (contains_range _ multicast_network_well_formed x Hx). lia.
  - intros Hinc. split; apply Hinc;
      auto using network_address_range, broadcast_range,
        contains_network_address, contains_broadcast_address.
Qed.

Lemma class_E_not_multicast n :
  well_formed n = true ->
  class_E_start <= network_address n -> is_multicast n = false.
Proof.
  intros Hn Hge. unfold is_multicast, address_is_multicast.
  destruct (contains _multicast_network (network_address n)) eqn:E;
    [|reflexivity].
  apply (contains_range _ multicast_network_well_formed _
           (network_address_range n Hn)) in E.
  change (broadcast_address _multicast_network) with 4026531839 in E.
  change class_E_start with 4026531840 in Hge. lia.
Qed.

(** C8. Whenever the input is syntactically valid, so that the constructor
    builds a network [n]: if [n] lies in 224.0.0.0/4 the answer is the
    multicast rejection, and if the network address of [n] is at or above
    240.0.0.0 the answer is the class E rejection; and whatever the input,
    a network returned as valid neither lies in 224.0.0.0/4 nor starts at
    or above 240.0.0.0. *)
Theorem validate_input_rejects_multicast_and_class_E
        (s answer : string) (n : IPv4Network) :
  IPv4Network_nonstrict (cidr_text s) = Return n ->
  (range_included n _multicast_network ->
   validate_input s answer = Return (Invalid Multicast_not_supported))
  /\ (class_E_start <= network_address n ->
      validate_input s answer = Return (Invalid Class_E_not_supported))
  /\ (forall s' answer' m,
        validate_input s' answer' = Return (Valid m) ->
        ~ range_included m _multicast_network
        /\ network_address m < class_E_start).
Proof.
  intros Hparse.
  pose proof (IPv4Network_nonstrict_well_formed _ _ Hparse) as Hwf.
  pose proof (validate_input_cases s answer) as Hcases.
  rewrite Hparse in Hcases.
  split; [|split].
  - intros Hinc. apply (is_multicast_included n Hwf) in Hinc.
    rewrite Hcases, Hinc. reflexivity.
  - intros Hge. rewrite Hcases, (class_E_not_multicast n Hwf Hge).
    replace (network_address n >=? class_E_start) with true; [reflexivity|].
    symmetry. apply Z.geb_le. assumption.
  - intros s' answer' m Hvalid.
    apply validate_input_valid in Hvalid.
    destruct Hvalid as (Hp & Hm & He).
    pose proof (IPv4Network_nonstrict_well_formed _ _ Hp) as Hwfm.
    split.
    + intros Hinc. apply (is_multicast_included m Hwfm) in Hinc. congruence.
    + destruct (Z.geb_spec (network_address m) class_E_start);
        [discriminate | lia].
Qed.

Lemma validate_input_rejects_multicast_and_class_E_witness :
  IPv4Network_nonstrict (cidr_text "224.0.0.5/32") = Return (net 224 0 0 5 32)
  /\ validate_input "224.0.0.5/32" "y" = Return (Invalid Multicast_not_supported).
Proof.
  split; [reflexivity|].
  apply (validate_input_rejects_multicast_and_class_E
           "224.0.0.5/32" "y" (net 224 0 0 5 32)); [reflexivity|].
  apply is_multicast_included; reflexivity.
Defined.

(** *** Input without a mask *)

Lemma geb_false x y : (x < y)%Z -> (x >=? y)%Z = false.
Proof. intros H. rewrite Z.geb_leb. apply Z.leb_gt. assumption. Qed.

Lemma cidr_text_host s :
  PyStr.contains "/" s = false ->
  cidr_text s = append (PyStr.strip s) "/32".
Proof.
  intros H. unfold cidr_text. rewrite (contains_strip _ _ H). reflexivity.
Qed.

Lemma host_network_broadcast ip :
  broadcast_address (mkIPv4Network ip _ALL_ONES 32) = ip.
Proof.
  unfold broadcast_address, hostmask. cbn [netmask network_address].
  rewrite Z.lxor_nilpotent. apply Z.lor_0_r.
Qed.

Lemma host_network_is_multicast ip :
  is_multicast (mkIPv4Network ip _ALL_ONES 32) = address_is_multicast ip.
Proof.
  unfold is_multicast. rewrite host_network_broadcast.
  cbn [network_address]. apply andb_diag.
Qed.

(** The claim C7 as it is written fails on the code: "224.0.0.5" has no
    slash and is a valid dotted quad, yet it is rejected as multicast; and
    the empty input, which has no slash and is no dotted quad, is rejected
    as empty input, not as a malformed address. *)
Lemma validate_input_host_counterexample :
  (PyStr.contains "/" "224.0.0.5" = false
   /\ IPv4Address (PyStr.strip "224.0.0.5") = Return 3758096389%Z
   /\ validate_input "224.0.0.5" "y" = Return (Invalid Multicast_not_supported))
  /\ (PyStr.contains "/" "" = false
      /\ IPv4Address (PyStr.strip "") = Raise AddressValueError
      /\ validate_input "" "y" = Return (Invalid Empty_input_provided)).
Proof. repeat split; reflexivity. Qed.

(** C7, amended. For an input without a slash, with [t] the trimmed input:
    an empty [t] is rejected as empty input; a non-empty [t] that is no
    valid dotted quad is rejected with the invalid-address message; and a
    [t] that is the dotted quad of the address [ip] is handled as the
    network [ip]/32: rejected as multicast when [ip] is in 224.0.0.0/4,
    rejected as class E when [ip] is at or above 240.0.0.0, and otherwise
    returned as the valid network [ip]/32 when it is not public or the
    user confirms, and rejected as cancelled when it is public and the
    user does not confirm. *)
Theorem validate_input_host (s answer : string) :
  PyStr.contains "/" s = false ->
  (PyStr.strip s = "" ->
   validate_input s answer = Return (Invalid Empty_input_provided))
  /\ (PyStr.strip s <> "" ->
      forall e, IPv4Address (PyStr.strip s) = Raise e ->
      validate_input s answer =
      Return (Invalid (Invalid_IP_address_format (PyStr.strip s))))
  /\ (forall ip, IPv4Address (PyStr.strip s) = Return ip ->
      (address_is_multicast ip = true ->
       validate_input s answer = Return (Invalid Multicast_not_supported))
      /\ ((class_E_start <= ip)%Z ->
          validate_input s answer = Return (Invalid Class_E_not_supported))
      /\ (address_is_multicast ip = false -> (ip < class_E_start)%Z ->
          is_global (mkIPv4Network ip _ALL_ONES 32) = false ->
          validate_input s answer = Return (Valid (mkIPv4Network ip _ALL_ONES 32)))
      /\ (address_is_multicast ip = false -> (ip < class_E_start)%Z ->
          is_global (mkIPv4Network ip _ALL_ONES 32) = true ->
          confirmed answer = true ->
          validate_input s answer = Return (Valid (mkIPv4Network ip _ALL_ONES 32)))
      /\ (address_is_multicast ip = false -> (ip < class_E_start)%Z ->
          is_global (mkIPv4Network ip _ALL_ONES 32) = true ->
          confirmed answer = false ->
          validate_input s answer = Return (Invalid Operation_cancelled_by_user))).
Proof.
  intros Hno.
  pose proof (contains_strip _ _ Hno) as Hno'.
  split; [|split].
  - intros Ht. unfold validate_input. rewrite Ht. reflexivity.
  - intros Ht e Hip. unfold validate_input.
    destruct (PyStr.strip s) as [|c r]; [contradiction|].
    cbn [PyStr.truthy negb].
    rewrite Hno'. cbn [negb].
    rewrite Hip, (IPv4Address_only_raises_AddressValueError _ _ Hip).
    reflexivity.
  - intros ip Hip.
    pose proof (validate_input_cases s answer) as Hcases.
    rewrite (cidr_text_host s Hno), (IPv4Network_nonstrict_host _ Hno'), Hip
      in Hcases.
    rewrite host_network_is_multicast in Hcases.
    cbn [network_address] in Hcases.
    rewrite Hcases. clear Hcases.
    repeat split.
    + intros ->. reflexivity.
    + intros Hge.
      assert (Hnm : address_is_multicast ip = false).
      { pose proof (class_E_not_multicast (mkIPv4Network ip _ALL_ONES 32)) as H.
        rewrite host_network_is_multicast in H. apply H; [|assumption].
        apply (IPv4Network_nonstrict_well_formed (append (PyStr.strip s) "/32")).
        rewrite (IPv4Network_nonstrict_host _ Hno'), Hip. reflexivity. }
      rewrite Hnm.
      replace (ip >=? class_E_start)%Z with true; [reflexivity|].
      symmetry. apply Z.geb_le. assumption.
    + intros -> Hlt ->.
      rewrite (geb_false _ _ Hlt). reflexivity.
    + intros -> Hlt -> ->.
      rewrite (geb_false _ _ Hlt). reflexivity.
    + intros -> Hlt -> ->.
      rewrite (geb_false _ _ Hlt). reflexivity.
Qed.

Lemma validate_input_host_witness :
  PyStr.contains "/" "10.0.0.1" = false
  /\ validate_input "10.0.0.1" "" = Return (Valid (net 10 0 0 1 32)).
Proof.
  split; [reflexivity|].
  destruct (validate_input_host "10.0.0.1" "" eq_refl) as (_ & _ & H).
  destruct (H 167772161%Z eq_refl) as (_ & _ & Hprivate & _).
  apply Hprivate; reflexivity.
Defined.

End ValidatorSpec.

(** ** The analysis over discovered networks *)

Module AnalyzerSpec.

Import ipaddress IPValidator SubnetAnalyzer NetworkFacts.

Local Open Scope string_scope.

(** The keys of [results['matches']]. *)
Definition bucket_keys : list string :=
  ["exact"; "contains"; "contained"; "overlap"; "host_in_subnet"].

(** [matches[key]]; any other key has no bucket. *)
Definition bucket (key : string) (m : Matches) : list MatchInfo :=
  if key =? "exact" then m_exact m
  else if key =? "contains" then m_contains m
  else if key =? "contained" then m_contained m
  else if key =? "overlap" then m_overlap m
  else if key =? "host_in_subnet" then m_host_in_subnet m
  else [].

(** The buckets after [matches[key].append(mi)]. *)
Definition record (key : string) (mi : MatchInfo) (m : Matches) : Matches :=
  if key =? "exact" then
    mkMatches (m_exact m ++ [mi]) (m_contains m) (m_contained m)
      (m_overlap m) (m_host_in_subnet m)
  else if key =? "contains" then
    mkMatches (m_exact m) (m_contains m ++ [mi]) (m_contained m)
      (m_overlap m) (m_host_in_subnet m)
  else if key =? "contained" then
    mkMatches (m_exact m) (m_contains m) (m_contained m ++ [mi])
      (m_overlap m) (m_host_in_subnet m)
  else if key =? "overlap" then
    mkMatches (m_exact m) (m_contains m) (m_contained m)
      (m_overlap m ++ [mi]) (m_host_in_subnet m)
  else if key =? "host_in_subnet" then
    mkMatches (m_exact m) (m_contains m) (m_contained m)
      (m_overlap m) (m_host_in_subnet m ++ [mi])
  else m.

(** The buckets after the general classification of [n] against the
    target: nothing for "none", else one Match in the bucket of the
    relationship. [info r] is the Match for relationship [r]. *)
Definition classified (target n : IPv4Network) (info : string -> MatchInfo)
           (m : Matches) : Matches :=
  let r := is_subnet_overlap target n in
  if r =? "none" then m else record r (info r) m.

Definition vnet_match (vnet_name resource_group : string) (n : IPv4Network)
           (r : string) : MatchInfo :=
  mkMatchInfo vnet_name resource_group None "vnet_address_space" (str n) r.

Definition subnet_match (vnet_name resource_group : string) (subnet : Subnet)
           (n : IPv4Network) (r : string) : MatchInfo :=
  mkMatchInfo vnet_name resource_group (Some (subnet_name_of subnet)) "subnet"
    (str n) r.

(** Everything in [results] but the buckets is the same in both states. *)
Definition same_frame (w w' : World) : Prop :=
  target_network (results w') = target_network (results w)
  /\ is_host (results w') = is_host (results w)
  /\ total_vnets_checked (results w') = total_vnets_checked (results w)
  /\ total_subnets_checked (results w') = total_subnets_checked (results w).

Definition total_matches (m : Matches) : nat :=
  (List.length (m_exact m) + List.length (m_contains m)
   + List.length (m_contained m) + List.length (m_overlap m)
   + List.length (m_host_in_subnet m))%nat.

(** The text of a prefix makes the constructor raise [NetmaskValueError]. *)
Definition bad_mask (prefix : string) : bool :=
  match IPv4Network_nonstrict prefix with
  | Raise NetmaskValueError => true
  | _ => false
  end.

(** All prefix texts of the discovered networks. *)
Definition prefix_texts (vnets : list VNet) : list string :=
  flat_map (fun v => (address_prefixes v ++ map address_prefix (subnets v))%list)
    vnets.

(** *** One step of each loop *)

Ltac by_relationship target n :=
  unfold classified;
  destruct (ClassifierSpec.is_subnet_overlap_values target n)
    as [E|[E|[E|[E|[E|[]]]]]];
  rewrite <- E; cbn;
  (eexists; split; [reflexivity | split; [reflexivity | repeat split]]).

Lemma _analyze_vnet_prefix_step target vnet_name resource_group prefix w :
  match IPv4Network_nonstrict prefix with
  | Return n =>
      exists w',
      _analyze_vnet_prefix target vnet_name resource_group prefix w = Return w'
      /\ matches (results w')
         = classified target n (vnet_match vnet_name resource_group n)
             (matches (results w))
      /\ same_frame w w'
  | Raise AddressValueError =>
      _analyze_vnet_prefix target vnet_name resource_group prefix w
      = Return (print ("  " +++ Fore.RED +++ "Invalid address prefix in VNet: "
                       +++ prefix +++ Style.RESET_ALL) w)
  | Raise NetmaskValueError =>
      _analyze_vnet_prefix target vnet_name resource_group prefix w
      = Raise NetmaskValueError
  end.
Proof.
  unfold _analyze_vnet_prefix.
  destruct (IPv4Network_nonstrict prefix) as [n|[|]]; cbn [bind];
    [|reflexivity|reflexivity].
  unfold vnet_match.
  by_relationship target n.
Qed.

Lemma _analyze_subnet_step target subnet vnet_name resource_group w :
  match IPv4Network_nonstrict (address_prefix subnet) with
  | Return n =>
      exists w',
      _analyze_subnet target subnet vnet_name resource_group w = Return w'
      /\ matches (results w')
         = (if (prefixlen target =? 32)%Z && check_host_in_network target n
            then record "host_in_subnet"
                   (subnet_match vnet_name resource_group subnet n "host_in_subnet")
                   (matches (results w))
            else classified target n
                   (subnet_match vnet_name resource_group subnet n)
                   (matches (results w)))
      /\ same_frame w w'
  | Raise AddressValueError =>
      _analyze_subnet target subnet vnet_name resource_group w
      = Return (print ("    " +++ Fore.RED +++ "Invalid subnet address prefix: "
                       +++ address_prefix subnet +++ Style.RESET_ALL) w)
  | Raise NetmaskValueError =>
      _analyze_subnet target subnet vnet_name resource_group w
      = Raise NetmaskValueError
  end.
Proof.
  unfold _analyze_subnet.
  destruct (IPv4Network_nonstrict (address_prefix subnet)) as [n|[|]];
    cbn [bind]; [|reflexivity|reflexivity].
  unfold subnet_match.
  destruct (prefixlen target =? 32)%Z; cbn [andb].
  - destruct (check_host_in_network target n).
    + cbn. eexists. split; [reflexivity|]. split; [reflexivity|].
      repeat split.
    + by_relationship target n.
  - by_relationship target n.
Qed.

(** *** The loops *)

Lemma for_each_invariant {A : Type} (P : World -> Prop)
      (body : A -> World -> outcome World) (xs : list A) :
  (forall x w w', In x xs -> P w -> body x w = Return w' -> P w') ->
  forall w w', P w -> for_each xs body w = Return w' -> P w'.
Proof.
  induction xs as [|x rest IH]; intros Hstep w w' Hw; cbn [for_each].
  - intros [= <-]. assumption.
  - destruct (body x w) as [w1|e] eqn:Hx; cbn [bind]; [|discriminate].
    apply IH.
    + intros y u u' Hy. apply Hstep. right. assumption.
    + apply (Hstep x w w1); [left; reflexivity | assumption | assumption].
Qed.

Lemma for_each_returns {A : Type} (body : A -> World -> outcome World)
      (xs : list A) :
  (forall x w, In x xs -> exists w', body x w = Return w') ->
  forall w, exists w', for_each xs body w = Return w'.
Proof.
  induction xs as [|x rest IH]; intros Hstep w; cbn [for_each].
  - eexists. reflexivity.
  - destruct (Hstep x w (or_introl eq_refl)) as [w1 ->]. cbn [bind].
    apply IH. intros y u Hy. apply Hstep. right. assumption.
Qed.

(** A counter that every iteration moves by [d] has moved by [d] times the
    length of the list when the loop returns. *)
Lemma for_each_counts {A : Type} (count : World -> Z) (d : Z)
      (body : A -> World -> outcome World) (xs : list A) :
  (forall x w w', body x w = Return w' -> count w' = count w + d)%Z ->
  forall w w', for_each xs body w = Return w' ->
               (count w' = count w + d * Z.of_nat (List.length xs))%Z.
Proof.
  intros Hstep. induction xs as [|x rest IH]; intros w w'; cbn [for_each].
  - intros [= <-]. cbn [List.length]. lia.
  - destruct (body x w) as [w1|e] eqn:Hx; cbn [bind]; [|discriminate].
    intros Hrest. apply IH in Hrest. apply Hstep in Hx.
    cbn [List.length]. lia.
Qed.

Lemma _analyze_vnet_prefix_frame target vnet_name resource_group prefix w w' :
  _analyze_vnet_prefix target vnet_name resource_group prefix w = Return w' ->
  same_frame w w'.
Proof.
  pose proof (_analyze_vnet_prefix_step target vnet_name resource_group prefix w)
    as H.
  destruct (IPv4Network_nonstrict prefix) as [n|[|]].
  - destruct H as (w1 & -> & _ & Hf). intros [= <-]. assumption.
  - rewrite H. intros [= <-]. repeat split.
  - rewrite H. discriminate.
Qed.

Lemma _analyze_subnet_frame target subnet vnet_name resource_group w w' :
  _analyze_subnet target subnet vnet_name resource_group w = Return w' ->
  same_frame w w'.
Proof.
  pose proof (_analyze_subnet_step target subnet vnet_name resource_group w) as H.
  destruct (IPv4Network_nonstrict (address_prefix subnet)) as [n|[|]].
  - destruct H as (w1 & -> & _ & Hf). intros [= <-]. assumption.
  - rewrite H. intros [= <-]. repeat split.
  - rewrite H. discriminate.
Qed.

(** The loop body of [_analyze_vnet] over subnets. *)
Definition subnet_iteration (target : IPv4Network)
           (vnet_name resource_group : string) (subnet : Subnet) (w : World)
  : outcome World :=
  w <- _analyze_subnet target subnet vnet_name resource_group w ;;
  Return (incr_total_subnets_checked w).

Lemma _analyze_vnet_unfold target vnet w :
  _analyze_vnet target vnet w =
  (w1 <- for_each (address_prefixes vnet)
           (_analyze_vnet_prefix target (name vnet) (resource_group_of vnet))
           (print (Fore.YELLOW +++ "Checking VNet: " +++ name vnet +++ " (RG: "
                   +++ resource_group_of vnet +++ ")" +++ Style.RESET_ALL) w) ;;
   for_each (subnets vnet)
     (subnet_iteration target (name vnet) (resource_group_of vnet)) w1).
Proof. reflexivity. Qed.

(** A property of the buckets that every step keeps holds of the report. *)
Lemma analyze_ip_usage_invariant target (P : Matches -> Prop) :
  (forall vnet_name resource_group prefix w w',
      P (matches (results w)) ->
      _analyze_vnet_prefix target vnet_name resource_group prefix w = Return w' ->
      P (matches (results w'))) ->
  (forall subnet vnet_name resource_group w w',
      P (matches (results w)) ->
      _analyze_subnet target subnet vnet_name resource_group w = Return w' ->
      P (matches (results w'))) ->
  P empty_matches ->
  forall vnets w, analyze_ip_usage target vnets = Return w ->
                  P (matches (results w)).
Proof.
  intros Hprefix Hsubnet Hempty vnets w.
  unfold analyze_ip_usage, analyze_ip_usage_from.
  apply (for_each_invariant (fun w => P (matches (results w)))); [|exact Hempty].
  clear w. intros vnet w w' _ Hw. rewrite _analyze_vnet_unfold.
  destruct (for_each (address_prefixes vnet) _ _) as [w1|e] eqn:H1;
    cbn [bind]; [|discriminate].
  assert (Hw1 : P (matches (results w1))).
  { revert H1.
    apply (for_each_invariant (fun w => P (matches (results w)))); [|exact Hw].
    intros prefix u u' _ Hu. apply Hprefix. assumption. }
  apply (for_each_invariant (fun w => P (matches (results w)))); [|exact Hw1].
  intros subnet u u' _ Hu. unfold subnet_iteration.
  destruct (_analyze_subnet target subnet _ _ u) as [u1|e] eqn:Hs;
    cbn [bind]; [|discriminate].
  intros [= <-]. apply (Hsubnet _ _ _ _ _ Hu Hs).
Qed.

(** *** The counters *)

Lemma _analyze_vnet_counts target vnet w w' :
  _analyze_vnet target vnet w = Return w' ->
  total_vnets_checked (results w') = total_vnets_checked (results w)
  /\ (total_subnets_checked (results w')
      = total_subnets_checked (results w)
        + Z.of_nat (List.length (subnets vnet)))%Z.
Proof.
  rewrite _analyze_vnet_unfold.
  destruct (for_each (address_prefixes vnet) _ _) as [w1|e] eqn:H1;
    cbn [bind]; [|discriminate].
  intros H2.
  assert (F1 : same_frame w w1).
  { revert H1.
    apply (for_each_invariant (fun u => same_frame w u)).
    - intros prefix u u' _ Hu Hstep.
      apply _analyze_vnet_prefix_frame in Hstep.
      unfold same_frame in *. intuition congruence.
    - repeat split. }
  assert (Hsub : forall (subnet : Subnet) (u u' : World),
             subnet_iteration target (name vnet) (resource_group_of vnet) subnet u
             = Return u' ->
             total_vnets_checked (results u') = total_vnets_checked (results u)
             /\ (total_subnets_checked (results u')
                 = total_subnets_checked (results u) + 1)%Z).
  { intros subnet u u'. unfold subnet_iteration.
    destruct (_analyze_subnet _ _ _ _ u) as [u1|e] eqn:Hs; cbn [bind];
      [|discriminate].
    intros [= <-]. apply _analyze_subnet_frame in Hs.
    destruct Hs as (_ & _ & Hv & Hs). cbn. rewrite Hv, Hs. split; reflexivity. }
  split.
  - transitivity (total_vnets_checked (results w1)); [|apply F1].
    revert H2.
    apply (for_each_invariant
             (fun u => total_vnets_checked (results u)
                       = total_vnets_checked (results w1))); [|reflexivity].
    intros subnet u u' _ Hu Hstep. apply Hsub in Hstep.
    destruct Hstep as [Hv _]. congruence.
  - replace (total_subnets_checked (results w))
      with (total_subnets_checked (results w1)) by apply F1.
    pose proof (for_each_counts (fun u => total_subnets_checked (results u)) 1
                  (subnet_iteration target (name vnet) (resource_group_of vnet))
                  (subnets vnet)) as Hc.
    cbv beta in Hc. rewrite (Hc (fun x u u' H => proj2 (Hsub x u u' H)) w1 w' H2).
    lia.
Qed.

Lemma analyze_vnets_counts target vnets w w' :
  for_each vnets (_analyze_vnet target) w = Return w' ->
  total_vnets_checked (results w') = total_vnets_checked (results w)
  /\ (total_subnets_checked (results w')
      = total_subnets_checked (results w)
        + Z.of_nat (List.length (flat_map subnets vnets)))%Z.
Proof.
  revert w. induction vnets as [|v rest IH]; intros w; cbn [for_each flat_map].
  - intros [= <-]. cbn [List.length]. split; [reflexivity | lia].
  - destruct (_analyze_vnet target v w) as [w1|e] eqn:Hv; cbn [bind];
      [|discriminate].
    intros Hrest. apply IH in Hrest. apply _analyze_vnet_counts in Hv.
    rewrite length_app. split; [intuition congruence | lia].
Qed.

Lemma _analyze_vnet_returns target vnet w :
  forallb (fun p => negb (bad_mask p))
    (address_prefixes vnet ++ map address_prefix (subnets vnet))%list = true ->
  exists w', _analyze_vnet target vnet w = Return w'.
Proof.
  intros Hok. rewrite forallb_forall in Hok.
  rewrite _analyze_vnet_unfold.
  match goal with |- context [for_each (address_prefixes vnet) ?b ?w0] =>
    destruct (for_each_returns b (address_prefixes vnet)) with (w := w0)
      as [w1 H1] end.
  { intros prefix u Hin.
    pose proof (_analyze_vnet_prefix_step target (name vnet)
                  (resource_group_of vnet) prefix u) as Hstep.
    specialize (Hok prefix (in_or_app _ _ _ (or_introl Hin))).
    unfold bad_mask in Hok.
    destruct (IPv4Network_nonstrict prefix) as [n|[|]].
    - destruct Hstep as (u' & Hu' & _). eexists. eassumption.
    - eexists. eassumption.
    - discriminate. }
  rewrite H1. cbn [bind].
  apply for_each_returns. intros subnet u Hin. unfold subnet_iteration.
  pose proof (_analyze_subnet_step target subnet (name vnet)
                (resource_group_of vnet) u) as Hstep.
  specialize (Hok (address_prefix subnet)
                (in_or_app _ _ _ (or_intror (in_map address_prefix _ _ Hin)))).
  unfold bad_mask in Hok.
  destruct (IPv4Network_nonstrict (address_prefix subnet)) as [n|[|]].
  - destruct Hstep as (u' & -> & _). eexists. reflexivity.
  - rewrite Hstep. eexists. reflexivity.
  - discriminate.
Qed.

Definition two_vnets : list VNet :=
  [ mkVNet "vnet-a" "rg-1" ["10.0.0.0/16"; "fd00::/48"]
      [mkSubnet "front" "10.0.0.0/24"; mkSubnet "back" "10.0.1.0/24"];
    mkVNet "vnet-b" "rg-1" ["192.168.0.0/16"] [mkSubnet "default" "192.168.1.0/24"] ].

(** C9. The report counts every discovered network and every subnet
    record, whether or not it gave a match: when the analysis returns,
    [total_vnets_checked] is the number of discovered networks and
    [total_subnets_checked] the number of their subnet records; it does
    return whenever no prefix text has a malformed mask; and on an empty
    list of networks it returns five empty buckets and both counts zero. *)
Theorem analyze_ip_usage_counts (target : IPv4Network) (vnets : list VNet) :
  (forall w, analyze_ip_usage target vnets = Return w ->
             total_vnets_checked (results w) = Z.of_nat (List.length vnets)
             /\ total_subnets_checked (results w)
                = Z.of_nat (List.length (flat_map subnets vnets)))
  /\ (forallb (fun p => negb (bad_mask p)) (prefix_texts vnets) = true ->
      exists w, analyze_ip_usage target vnets = Return w)
  /\ (exists w, analyze_ip_usage target [] = Return w
                /\ matches (results w) = empty_matches
                /\ total_vnets_checked (results w) = 0%Z
                /\ total_subnets_checked (results w) = 0%Z).
Proof.
  split; [|split].
  - intros w. unfold analyze_ip_usage, analyze_ip_usage_from.
    intros H. apply analyze_vnets_counts in H. cbn in H.
    destruct H as [Hv Hs]. split; assumption.
  - intros Hok. unfold analyze_ip_usage, analyze_ip_usage_from.
    apply for_each_returns. intros vnet u Hin.
    apply _analyze_vnet_returns.
    rewrite forallb_forall in *. intros p Hp. apply Hok.
    unfold prefix_texts. apply in_flat_map. exists vnet. split; assumption.
  - eexists. split; [reflexivity|]. repeat split.
Qed.

Lemma analyze_ip_usage_counts_witness :
  forallb (fun p => negb (bad_mask p)) (prefix_texts two_vnets) = true
  /\ exists w, analyze_ip_usage ClassifierSpec.net_10_0_0_0_24 two_vnets = Return w
               /\ total_vnets_checked (results w) = 2%Z
               /\ total_subnets_checked (results w) = 3%Z.
Proof.
  split; [reflexivity|].
  destruct (analyze_ip_usage_counts ClassifierSpec.net_10_0_0_0_24 two_vnets)
    as (Hcount & Hreturns & _).
  destruct (Hreturns eq_refl) as [w Hw].
  exists w. split; [exact Hw|]. exact (Hcount w Hw).
Defined.

(** C2. The analysis does not survive every malformed prefix: a prefix
    text whose mask is out of range makes the network constructor raise
    [NetmaskValueError], which neither loop handles, so the whole analysis
    ends with that exception, for an address-space prefix and for a subnet
    prefix alike. [validate_input] handles the same text and answers with
    the invalid-CIDR message. *)
Theorem analyze_ip_usage_bad_mask_aborts :
  IPv4Network_nonstrict "10.0.0.0/33" = Raise NetmaskValueError
  /\ analyze_ip_usage ClassifierSpec.net_10_0_0_0_24
       [mkVNet "vnet-a" "rg-1" ["10.0.0.0/33"; "10.0.0.0/16"] []]
     = Raise NetmaskValueError
  /\ analyze_ip_usage ClassifierSpec.net_10_0_0_0_24
       [mkVNet "vnet-a" "rg-1" ["10.0.0.0/16"] [mkSubnet "front" "10.0.0.0/33"]]
     = Raise NetmaskValueError
  /\ validate_input "10.0.0.0/33" ""
     = Return (Invalid (Invalid_CIDR_notation NetmaskValueError)).
Proof. repeat split; vm_compute; reflexivity. Qed.

(** A prefix text with a malformed address is skipped with a warning
    line, and the loop goes on with the next prefix. *)
Lemma bad_address_is_skipped target vnet_name resource_group prefix rest w :
  IPv4Network_nonstrict prefix = Raise AddressValueError ->
  for_each (prefix :: rest)
    (_analyze_vnet_prefix target vnet_name resource_group) w
  = for_each rest (_analyze_vnet_prefix target vnet_name resource_group)
      (print ("  " +++ Fore.RED +++ "Invalid address prefix in VNet: "
              +++ prefix +++ Style.RESET_ALL) w).
Proof.
  intros Hbad. cbn [for_each].
  pose proof (_analyze_vnet_prefix_step target vnet_name resource_group prefix w)
    as Hstep.
  rewrite Hbad in Hstep. rewrite Hstep. reflexivity.
Qed.

(** *** Buckets *)

Lemma classified_host_bucket target n info m :
  m_host_in_subnet (classified target n info m) = m_host_in_subnet m.
Proof.
  unfold classified.
  destruct (ClassifierSpec.is_subnet_overlap_values target n)
    as [E|[E|[E|[E|[E|[]]]]]];
    rewrite <- E; reflexivity.
Qed.

Lemma classified_none target n info m :
  is_subnet_overlap target n = "none" -> classified target n info m = m.
Proof. unfold classified. intros ->. reflexivity. Qed.

Lemma classified_total target n info m :
  (total_matches (classified target n info m) <= total_matches m + 1)%nat.
Proof.
  unfold classified.
  destruct (ClassifierSpec.is_subnet_overlap_values target n)
    as [E|[E|[E|[E|[E|[]]]]]];
    rewrite <- E; unfold total_matches; cbn;
    rewrite ?length_app; cbn; lia.
Qed.

Ltac each_key H :=
  repeat (destruct H as [H | H]; [subst|]); [..|destruct H].

(** A Match found in a bucket after [record] was there before, or is the
    recorded one, and then the bucket is the one recorded to. *)
Lemma in_bucket_record key k mi m x :
  In key bucket_keys ->
  In x (bucket key (record k mi m)) ->
  In x (bucket key m) \/ (key = k /\ x = mi).
Proof.
  intros Hkey. unfold record.
  destruct (String.eqb_spec k "exact");
    [|destruct (String.eqb_spec k "contains");
      [|destruct (String.eqb_spec k "contained");
        [|destruct (String.eqb_spec k "overlap");
          [|destruct (String.eqb_spec k "host_in_subnet")]]]];
    subst; unfold bucket_keys in Hkey; each_key Hkey; cbn;
    rewrite ?in_app_iff; cbn; intuition auto.
Qed.

Lemma in_bucket_classified target n info key m x :
  In key bucket_keys ->
  In x (bucket key (classified target n info m)) ->
  In x (bucket key m)
  \/ (key = is_subnet_overlap target n /\ key <> "host_in_subnet"
      /\ x = info key).
Proof.
  intros Hkey. unfold classified.
  destruct (String.eqb_spec (is_subnet_overlap target n) "none") as [E|E].
  - auto.
  - intros Hin. apply in_bucket_record in Hin; [|assumption].
    destruct Hin as [Hin | [-> ->]]; [auto|]. right.
    repeat split.
    destruct (ClassifierSpec.is_subnet_overlap_values target n)
      as [V|[V|[V|[V|[V|[]]]]]];
      rewrite <- V; discriminate.
Qed.

(** What a step leaves in the buckets, read off the step lemmas. *)
Lemma _analyze_vnet_prefix_buckets target vnet_name resource_group prefix w w' :
  _analyze_vnet_prefix target vnet_name resource_group prefix w = Return w' ->
  matches (results w') = matches (results w)
  \/ exists n, IPv4Network_nonstrict prefix = Return n
               /\ matches (results w')
                  = classified target n (vnet_match vnet_name resource_group n)
                      (matches (results w)).
Proof.
  pose proof (_analyze_vnet_prefix_step target vnet_name resource_group prefix w)
    as H.
  destruct (IPv4Network_nonstrict prefix) as [n|[|]].
  - destruct H as (w1 & -> & Hm & _). intros [= <-]. right. eauto.
  - rewrite H. intros [= <-]. left. reflexivity.
  - rewrite H. discriminate.
Qed.

Lemma _analyze_subnet_buckets target subnet vnet_name resource_group w w' :
  _analyze_subnet target subnet vnet_name resource_group w = Return w' ->
  matches (results w') = matches (results w)
  \/ exists n,
      IPv4Network_nonstrict (address_prefix subnet) = Return n
      /\ matches (results w')
         = (if (prefixlen target =? 32)%Z && check_host_in_network target n
            then record "host_in_subnet"
                   (subnet_match vnet_name resource_group subnet n "host_in_subnet")
                   (matches (results w))
            else classified target n
                   (subnet_match vnet_name resource_group subnet n)
                   (matches (results w))).
Proof.
  pose proof (_analyze_subnet_step target subnet vnet_name resource_group w) as H.
  destruct (IPv4Network_nonstrict (address_prefix subnet)) as [n|[|]].
  - destruct H as (w1 & -> & Hm & _). intros [= <-]. right. eauto.
  - rewrite H. intros [= <-]. left. reflexivity.
  - rewrite H. discriminate.
Qed.

(** *** The host check against the general classification *)

(** A host inside a subnet never classifies as "none" against it. *)
Lemma host_inside_not_none target n :
  check_host_in_network target n = true ->
  is_subnet_overlap target n <> "none".
Proof.
  unfold check_host_in_network, is_subnet_overlap, overlaps.
  destruct (prefixlen target =? 32)%Z; [|discriminate].
  intros ->.
  destruct (eqb target n); [discriminate|].
  destruct (supernet_of target n); [discriminate|].
  destruct (subnet_of target n); discriminate.
Qed.

(** A host outside a subnet classifies as "none" against it. *)
Lemma host_outside_is_none target n :
  well_formed target = true -> prefixlen target = 32%Z ->
  well_formed n = true ->
  check_host_in_network target n = false ->
  is_subnet_overlap target n = "none".
Proof.
  intros Ht H32 Hn Hout.
  unfold check_host_in_network in Hout. rewrite H32 in Hout. cbn in Hout.
  pose proof (network_address_range target Ht) as Hr.
  pose proof (broadcast_value target Ht) as Hbt.
  unfold host_bits in Hbt. rewrite H32 in Hbt. cbn in Hbt.
  assert (Hnot : ~ (network_address n <= network_address target
                    <= broadcast_address n)%Z).
  { intros Hin. apply (contains_range n Hn _ Hr) in Hin. congruence. }
  pose proof (network_le_broadcast n Hn) as Hle.
  unfold is_subnet_overlap.
  destruct (eqb target n) eqn:E1.
  { apply (eqb_eq target n Ht Hn) in E1. subst n.
    rewrite (contains_network_address target Ht) in Hout. discriminate. }
  destruct (supernet_of target n) eqn:E2.
  { unfold supernet_of in E2. apply _is_subnet_of_bounds in E2. lia. }
  destruct (subnet_of target n) eqn:E3.
  { unfold subnet_of in E3. apply _is_subnet_of_bounds in E3. lia. }
  destruct (overlaps target n) eqn:E4; [|reflexivity].
  apply (overlaps_intersect target n Ht Hn) in E4.
  destruct E4 as (x & Hx & Hxt & Hxn).
  apply (contains_range target Ht x Hx) in Hxt.
  apply (contains_range n Hn x Hx) in Hxn. lia.
Qed.

(** *** Bucket membership of the report *)

Definition front_subnet : Subnet := mkSubnet "front" "10.0.0.0/24".

Definition empty_world : World :=
  mkWorld (mkResults "10.0.0.5/32" true empty_matches 0 0) [].

(** One call of [_analyze_subnet] with a target of prefix length 32 and a
    subnet record whose prefix parses to [sn], and one call of the body of
    the loop over address-space prefixes: a host hit appends one Match to
    the host_in_subnet bucket and leaves the four other buckets as they
    were; without a host hit, and for every address-space prefix, the
    buckets are those of the general classification. *)
Lemma host_check_step
        (target : IPv4Network) (subnet : Subnet)
        (vnet_name resource_group : string) (w : World) (sn : IPv4Network) :
  prefixlen target = 32%Z ->
  IPv4Network_nonstrict (address_prefix subnet) = Return sn ->
  (check_host_in_network target sn = true ->
   is_subnet_overlap target sn <> "none"
   /\ exists w',
       _analyze_subnet target subnet vnet_name resource_group w = Return w'
       /\ m_host_in_subnet (matches (results w'))
          = (m_host_in_subnet (matches (results w))
             ++ [subnet_match vnet_name resource_group subnet sn "host_in_subnet"])%list
       /\ m_exact (matches (results w')) = m_exact (matches (results w))
       /\ m_contains (matches (results w')) = m_contains (matches (results w))
       /\ m_contained (matches (results w')) = m_contained (matches (results w))
       /\ m_overlap (matches (results w')) = m_overlap (matches (results w)))
  /\ (check_host_in_network target sn = false ->
      exists w',
        _analyze_subnet target subnet vnet_name resource_group w = Return w'
        /\ matches (results w')
           = classified target sn
               (subnet_match vnet_name resource_group subnet sn)
               (matches (results w)))
  /\ (forall prefix vn,
        IPv4Network_nonstrict prefix = Return vn ->
        exists w',
          _analyze_vnet_prefix target vnet_name resource_group prefix w = Return w'
          /\ matches (results w')
             = classified target vn (vnet_match vnet_name resource_group vn)
                 (matches (results w))
          /\ m_host_in_subnet (matches (results w'))
             = m_host_in_subnet (matches (results w))).
Proof.
  intros H32 Hparse.
  pose proof (_analyze_subnet_step target subnet vnet_name resource_group w)
    as Hstep.
  rewrite Hparse, H32 in Hstep. cbn [Z.eqb Pos.eqb andb] in Hstep.
  destruct Hstep as (w' & Hw' & Hm & _).
  split; [|split].
  - intros Hhost. rewrite Hhost in Hm.
    split; [apply host_inside_not_none; assumption|].
    exists w'. split; [assumption|]. rewrite Hm. repeat split.
  - intros Hhost. rewrite Hhost in Hm. exists w'. split; assumption.
  - intros prefix vn Hvn.
    pose proof (_analyze_vnet_prefix_step target vnet_name resource_group prefix w)
      as Hv.
    rewrite Hvn in Hv. destruct Hv as (u & Hu & Hmu & _).
    exists u. split; [assumption|]. split; [assumption|].
    rewrite Hmu. apply classified_host_bucket.
Qed.

(** Every Match of a bucket carries the key of that bucket. *)
Definition keyed (m : Matches) : Prop :=
  forall key mi, In key bucket_keys -> In mi (bucket key m) ->
                 relationship mi = key.

Lemma keyed_empty : keyed empty_matches.
Proof.
  intros key mi Hkey. unfold bucket_keys in Hkey. each_key Hkey; cbn; tauto.
Qed.

Lemma keyed_classified target n info m :
  (forall r, relationship (info r) = r) ->
  keyed m -> keyed (classified target n info m).
Proof.
  intros Hinfo Hm key mi Hkey Hin.
  apply in_bucket_classified in Hin; [|assumption].
  destruct Hin as [Hin | (_ & _ & ->)]; [apply Hm; assumption | apply Hinfo].
Qed.

Lemma keyed_record key mi m :
  relationship mi = key -> keyed m -> keyed (record key mi m).
Proof.
  intros Hmi Hm k x Hk Hin.
  apply in_bucket_record in Hin; [|assumption].
  destruct Hin as [Hin | [-> ->]]; [apply Hm; assumption | assumption].
Qed.

(** C4. In the report of an analysis every Match lies in the bucket named
    by its own relationship, so no Match lies in two buckets; a prefix
    whose classification against the target is "none" leaves all buckets
    as they were, for address-space prefixes and for subnet prefixes; and
    no step adds more than one Match. *)
Theorem matches_in_one_bucket
        (target : IPv4Network) (vnets : list VNet) (w : World) :
  analyze_ip_usage target vnets = Return w ->
  (forall key mi, In key bucket_keys ->
                  In mi (bucket key (matches (results w))) ->
                  relationship mi = key)
  /\ (forall k1 k2 mi, In k1 bucket_keys -> In k2 bucket_keys ->
                       In mi (bucket k1 (matches (results w))) ->
                       In mi (bucket k2 (matches (results w))) ->
                       k1 = k2)
  /\ (forall vnet_name resource_group prefix n u,
        IPv4Network_nonstrict prefix = Return n ->
        is_subnet_overlap target n = "none" ->
        exists u',
          _analyze_vnet_prefix target vnet_name resource_group prefix u = Return u'
          /\ matches (results u') = matches (results u))
  /\ (forall subnet vnet_name resource_group n u,
        IPv4Network_nonstrict (address_prefix subnet) = Return n ->
        is_subnet_overlap target n = "none" ->
        exists u',
          _analyze_subnet target subnet vnet_name resource_group u = Return u'
          /\ matches (results u') = matches (results u))
  /\ (forall vnet_name resource_group prefix u u',
        _analyze_vnet_prefix target vnet_name resource_group prefix u = Return u' ->
        (total_matches (matches (results u'))
         <= total_matches (matches (results u)) + 1)%nat)
  /\ (forall subnet vnet_name resource_group u u',
        _analyze_subnet target subnet vnet_name resource_group u = Return u' ->
        (total_matches (matches (results u'))
         <= total_matches (matches (results u)) + 1)%nat).
Proof.
  intros Hrun.
  assert (Hkeyed : keyed (matches (results w))).
  { revert vnets w Hrun. apply analyze_ip_usage_invariant.
    - intros vn rg prefix u u' Hu Hstep.
      apply _analyze_vnet_prefix_buckets in Hstep.
      destruct Hstep as [-> | (n & _ & ->)]; [assumption|].
      apply keyed_classified; [reflexivity | assumption].
    - intros subnet vn rg u u' Hu Hstep.
      apply _analyze_subnet_buckets in Hstep.
      destruct Hstep as [-> | (n & _ & ->)]; [assumption|].
      destruct (_ && _).
      + apply keyed_record; [reflexivity | assumption].
      + apply keyed_classified; [reflexivity | assumption].
    - apply keyed_empty. }
  split; [exact Hkeyed|].
  split.
  { intros k1 k2 mi H1 H2 Hin1 Hin2.
    rewrite <- (Hkeyed k1 mi H1 Hin1). apply (Hkeyed k2 mi H2 Hin2). }
  split.
  { intros vn rg prefix n u Hparse Hnone.
    pose proof (_analyze_vnet_prefix_step target vn rg prefix u) as Hstep.
    rewrite Hparse in Hstep. destruct Hstep as (u' & Hu' & Hm & _).
    exists u'. split; [assumption|].
    rewrite Hm. apply classified_none. assumption. }
  split.
  { intros subnet vn rg n u Hparse Hnone.
    pose proof (_analyze_subnet_step target subnet vn rg u) as Hstep.
    rewrite Hparse in Hstep. destruct Hstep as (u' & Hu' & Hm & _).
    exists u'. split; [assumption|]. rewrite Hm.
    destruct (check_host_in_network target n) eqn:Hhost.
    - exfalso. apply (host_inside_not_none target n Hhost). assumption.
    - rewrite andb_false_r. apply classified_none. assumption. }
  split.
  { intros vn rg prefix u u' Hstep.
    apply _analyze_vnet_prefix_buckets in Hstep.
    destruct Hstep as [-> | (n & _ & ->)]; [lia | apply classified_total]. }
  intros subnet vn rg u u' Hstep.
  apply _analyze_subnet_buckets in Hstep.
  destruct Hstep as [-> | (n & _ & ->)]; [lia|].
  destruct (_ && _); [|apply classified_total].
  unfold total_matches. cbn. rewrite length_app. cbn. lia.
Qed.

Definition report_10_0_0_0_24 : World :=
  match analyze_ip_usage ClassifierSpec.net_10_0_0_0_24 two_vnets with
  | Return w => w
  | Raise _ => empty_world
  end.

Lemma matches_in_one_bucket_witness :
  analyze_ip_usage ClassifierSpec.net_10_0_0_0_24 two_vnets
  = Return report_10_0_0_0_24
  /\ forall key mi, In key bucket_keys ->
                    In mi (bucket key (matches (results report_10_0_0_0_24))) ->
                    relationship mi = key.
Proof.
  split; [reflexivity|].
  apply (matches_in_one_bucket ClassifierSpec.net_10_0_0_0_24 two_vnets
           report_10_0_0_0_24 eq_refl).
Defined.

(** The four buckets of the general classification hold Matches of
    address spaces only. *)
Definition subnets_only_as_hosts (m : Matches) : Prop :=
  forall key mi, In key ["exact"; "contains"; "contained"; "overlap"] ->
                 In mi (bucket key m) -> type mi = "vnet_address_space".

(** C10. With a well-formed target of prefix length 32, a subnet record
    never changes the exact, contains, contained or overlap bucket: when
    the host lies in the subnet its Match goes to host_in_subnet, also
    when the subnet is the very same /32 network; when it does not, the
    classification is "none" and no Match is made. So in the report of
    the analysis the four general buckets hold address-space Matches
    only. *)
Theorem host_target_subnet_matches (target : IPv4Network) :
  well_formed target = true -> prefixlen target = 32%Z ->
  (forall subnet vnet_name resource_group u n,
      IPv4Network_nonstrict (address_prefix subnet) = Return n ->
      exists u',
        _analyze_subnet target subnet vnet_name resource_group u = Return u'
        /\ m_exact (matches (results u')) = m_exact (matches (results u))
        /\ m_contains (matches (results u')) = m_contains (matches (results u))
        /\ m_contained (matches (results u')) = m_contained (matches (results u))
        /\ m_overlap (matches (results u')) = m_overlap (matches (results u))
        /\ (check_host_in_network target n = true ->
            m_host_in_subnet (matches (results u'))
            = (m_host_in_subnet (matches (results u))
               ++ [subnet_match vnet_name resource_group subnet n
                     "host_in_subnet"])%list)
        /\ (check_host_in_network target n = false ->
            is_subnet_overlap target n = "none"
            /\ matches (results u') = matches (results u))
        /\ (n = target -> check_host_in_network target n = true))
  /\ (forall vnets w,
        analyze_ip_usage target vnets = Return w ->
        forall key mi, In key ["exact"; "contains"; "contained"; "overlap"] ->
                       In mi (bucket key (matches (results w))) ->
                       type mi = "vnet_address_space").
Proof.
  intros Hwf H32.
  assert (Hstep : forall subnet vnet_name resource_group u n,
             IPv4Network_nonstrict (address_prefix subnet) = Return n ->
             exists u',
               _analyze_subnet target subnet vnet_name resource_group u = Return u'
               /\ matches (results u')
                  = if check_host_in_network target n
                    then record "host_in_subnet"
                           (subnet_match vnet_name resource_group subnet n
                              "host_in_subnet")
                           (matches (results u))
                    else matches (results u)).
  { intros subnet vn rg u n Hparse.
    pose proof (_analyze_subnet_step target subnet vn rg u) as Hs.
    rewrite Hparse, H32 in Hs. cbn [Z.eqb Pos.eqb andb] in Hs.
    destruct Hs as (u' & Hu' & Hm & _).
    exists u'. split; [assumption|]. rewrite Hm.
    destruct (check_host_in_network target n) eqn:Hhost; [reflexivity|].
    apply classified_none, host_outside_is_none; try assumption.
    apply (IPv4Network_nonstrict_well_formed _ _ Hparse). }
  split.
  - intros subnet vn rg u n Hparse.
    destruct (Hstep subnet vn rg u n Hparse) as (u' & Hu' & Hm).
    exists u'. split; [assumption|]. rewrite Hm.
    destruct (check_host_in_network target n) eqn:Hhost.
    + repeat split; try discriminate. 
    + repeat split; try discriminate.
      * apply host_outside_is_none; try assumption.
        apply (IPv4Network_nonstrict_well_formed _ _ Hparse).
      * intros ->. unfold check_host_in_network in Hhost.
        rewrite H32, (contains_network_address target Hwf) in Hhost.
        discriminate.
  - intros vnets w Hrun.
    change (subnets_only_as_hosts (matches (results w))).
    revert vnets w Hrun. apply analyze_ip_usage_invariant.
    + intros vn rg prefix u u' Hu Hs.
      apply _analyze_vnet_prefix_buckets in Hs.
      destruct Hs as [-> | (n & _ & ->)]; [assumption|].
      intros key mi Hkey Hin.
      assert (Hkey' : In key bucket_keys).
      { unfold bucket_keys. cbn in *. tauto. }
      apply in_bucket_classified in Hin; [|assumption].
      destruct Hin as [Hin | (_ & _ & ->)]; [|reflexivity].
      apply (Hu key mi Hkey Hin).
    + intros subnet vn rg u u' Hu Hs.
      pose proof (_analyze_subnet_step target subnet vn rg u) as Hcase.
      destruct (IPv4Network_nonstrict (address_prefix subnet)) as [n|[|]] eqn:Hp.
      * destruct (Hstep subnet vn rg u n Hp) as (u1 & Hu1 & Hm).
        assert (u1 = u') by congruence. subst u1.
        rewrite Hm. destruct (check_host_in_network target n); [|assumption].
        intros key mi Hkey Hin.
        assert (Hkey' : In key bucket_keys).
        { unfold bucket_keys. cbn in *. tauto. }
        apply in_bucket_record in Hin; [|assumption].
        destruct Hin as [Hin | [-> _]]; [apply (Hu key mi Hkey Hin)|].
        cbn in Hkey. intuition discriminate.
      * rewrite Hcase in Hs. injection Hs as <-. assumption.
      * rewrite Hcase in Hs. discriminate.
    + intros key mi Hkey. cbn in Hkey.
      repeat (destruct Hkey as [<- | Hkey]; [cbn; tauto|]). destruct Hkey.
Qed.

Definition same_host_subnet : Subnet := mkSubnet "single" "10.0.0.5/32".

Lemma host_target_subnet_matches_witness :
  well_formed ClassifierSpec.host_10_0_0_5 = true
  /\ prefixlen ClassifierSpec.host_10_0_0_5 = 32%Z
  /\ IPv4Network_nonstrict (address_prefix same_host_subnet)
     = Return ClassifierSpec.host_10_0_0_5
  /\ exists u',
      _analyze_subnet ClassifierSpec.host_10_0_0_5 same_host_subnet
        "vnet-a" "rg-1" empty_world = Return u'
      /\ m_exact (matches (results u')) = []
      /\ m_host_in_subnet (matches (results u'))
         = [subnet_match "vnet-a" "rg-1" same_host_subnet
              ClassifierSpec.host_10_0_0_5 "host_in_subnet"].
Proof.
  split; [reflexivity|]. split; [reflexivity|]. split; [reflexivity|].
  destruct (host_target_subnet_matches ClassifierSpec.host_10_0_0_5
              eq_refl eq_refl) as [Hstep _].
  destruct (Hstep same_host_subnet "vnet-a" "rg-1" empty_world
              ClassifierSpec.host_10_0_0_5 eq_refl)
    as (u' & Hu' & Hexact & _ & _ & _ & Hhost & _ & Hsame).
  exists u'. split; [exact Hu'|]. split; [exact Hexact|].
  exact (Hhost (Hsame eq_refl)).
Defined.

End AnalyzerSpec.


(** * Further properties of the classifier *)

Module ClassifierMore.

Import ipaddress IPValidator NetworkFacts.

Local Open Scope string_scope.

(** The relationship seen from the other network. *)
Definition mirror (relationship : string) : string :=
  if relationship =? "contains" then "contained"
  else if relationship =? "contained" then "contains"
  else relationship.

Lemma overlaps_sym a b : overlaps a b = overlaps b a.
Proof.
  unfold overlaps.
  destruct (contains b (network_address a)), (contains b (broadcast_address a)),
    (contains a (network_address b)), (contains a (broadcast_address b));
    reflexivity.
Qed.

Lemma eqb_sym a b : eqb a b = eqb b a.
Proof.
  unfold eqb.
  rewrite (Z.eqb_sym (network_address a)), (Z.eqb_sym (netmask a)).
  reflexivity.
Qed.

Lemma eqb_false_neq a b :
  well_formed a = true -> well_formed b = true -> a <> b -> eqb a b = false.
Proof.
  intros Ha Hb Hne. destruct (eqb a b) eqn:E; [|reflexivity].
  apply (eqb_eq a b Ha Hb) in E. contradiction.
Qed.

Lemma ranges_intersect_sym a b : ranges_intersect a b -> ranges_intersect b a.
Proof. intros (x & Hx & H1 & H2). exists x. tauto. Qed.

Lemma included_intersect a b :
  well_formed a = true -> range_included a b -> ranges_intersect a b.
Proof.
  intros Ha Hinc. exists (network_address a).
  pose proof (network_address_range a Ha).
  pose proof (contains_network_address a Ha).
  auto.
Qed.

(** X1. On networks as the constructor builds them the answer "overlap" is
    never given: two such networks that share an address are nested, so one
    of the three earlier checks has already answered. *)
Theorem is_subnet_overlap_overlap_unreachable (a b : IPv4Network) :
  well_formed a = true -> well_formed b = true ->
  is_subnet_overlap a b <> "overlap"
  /\ In (is_subnet_overlap a b) ["exact"; "contains"; "contained"; "none"].
Proof.
  intros Ha Hb.
  assert (Hnever : eqb a b = false -> supernet_of a b = false ->
                   subnet_of a b = false -> overlaps a b = false).
  { intros _ E2 E3. destruct (overlaps a b) eqn:E4; [|reflexivity]. exfalso.
    apply (overlaps_intersect a b Ha Hb) in E4.
    destruct (Z.le_ge_cases (prefixlen b) (prefixlen a)) as [Hle | Hge].
    - rewrite (intersect_nested a b Ha Hb Hle E4) in E3. discriminate.
    - unfold supernet_of in E2. fold (subnet_of b a) in E2.
      rewrite (intersect_nested b a Hb Ha Hge (ranges_intersect_sym _ _ E4)) in E2.
      discriminate. }
  unfold is_subnet_overlap.
  destruct (eqb a b); [split; [discriminate | cbn; tauto]|].
  destruct (supernet_of a b); [split; [discriminate | cbn; tauto]|].
  destruct (subnet_of a b); [split; [discriminate | cbn; tauto]|].
  rewrite Hnever by reflexivity. split; [discriminate | cbn; tauto].
Qed.

Lemma is_subnet_overlap_overlap_unreachable_witness :
  well_formed ClassifierSpec.net_10_0_0_0_16 = true
  /\ well_formed ClassifierSpec.net_10_0_0_0_24 = true
  /\ is_subnet_overlap ClassifierSpec.net_10_0_0_0_16 ClassifierSpec.net_10_0_0_0_24
     <> "overlap".
Proof.
  split; [reflexivity|]. split; [reflexivity|].
  apply (is_subnet_overlap_overlap_unreachable
           ClassifierSpec.net_10_0_0_0_16 ClassifierSpec.net_10_0_0_0_24);
    reflexivity.
Defined.

(** X2. The answer is "none" exactly when the two networks share no
    address. *)
Theorem is_subnet_overlap_none_iff_disjoint (a b : IPv4Network) :
  well_formed a = true -> well_formed b = true ->
  is_subnet_overlap a b = "none" <-> ~ ranges_intersect a b.
Proof.
  intros Ha Hb. unfold is_subnet_overlap. split.
  - destruct (eqb a b); [discriminate|].
    destruct (supernet_of a b); [discriminate|].
    destruct (subnet_of a b); [discriminate|].
    destruct (overlaps a b) eqn:E; [discriminate|].
    intros _ Hint. apply (overlaps_intersect a b Ha Hb) in Hint. congruence.
  - intros Hdis.
    destruct (eqb a b) eqn:E1.
    { exfalso. apply Hdis. apply (eqb_eq a b Ha Hb) in E1. subst b.
      apply included_intersect; [assumption|]. intros x _ H. exact H. }
    destruct (supernet_of a b) eqn:E2.
    { exfalso. apply Hdis, ranges_intersect_sym.
      apply included_intersect; [assumption|].
      apply (supernet_of_included a b Ha Hb). assumption. }
    destruct (subnet_of a b) eqn:E3.
    { exfalso. apply Hdis. apply included_intersect; [assumption|].
      apply (subnet_of_included a b Ha Hb). assumption. }
    destruct (overlaps a b) eqn:E4; [|reflexivity].
    exfalso. apply Hdis. apply (overlaps_intersect a b Ha Hb). assumption.
Qed.

Lemma is_subnet_overlap_none_iff_disjoint_witness :
  well_formed ClassifierSpec.net_10_0_0_0_24 = true
  /\ well_formed (net 192 168 0 0 16) = true
  /\ (is_subnet_overlap ClassifierSpec.net_10_0_0_0_24 (net 192 168 0 0 16) = "none"
      <-> ~ ranges_intersect ClassifierSpec.net_10_0_0_0_24 (net 192 168 0 0 16)).
Proof.
  split; [reflexivity|]. split; [reflexivity|].
  apply (is_subnet_overlap_none_iff_disjoint
           ClassifierSpec.net_10_0_0_0_24 (net 192 168 0 0 16)); reflexivity.
Defined.

(** X3. For two networks that share an address the answer is decided by
    the prefix lengths alone: "exact" for equal lengths, "contains" when
    the first network has the shorter prefix, "contained" when it has the
    longer one. *)
Theorem is_subnet_overlap_by_prefixlen (a b : IPv4Network) :
  well_formed a = true -> well_formed b = true -> ranges_intersect a b ->
  (prefixlen a = prefixlen b -> is_subnet_overlap a b = "exact")
  /\ ((prefixlen a < prefixlen b)%Z -> is_subnet_overlap a b = "contains")
  /\ ((prefixlen b < prefixlen a)%Z -> is_subnet_overlap a b = "contained").
Proof.
  intros Ha Hb Hint.
  pose proof (ranges_intersect_sym _ _ Hint) as Hint'.
  unfold is_subnet_overlap. split; [|split].
  - intros Hlen.
    assert (a = b).
    { apply subnet_of_antisym; try assumption;
        apply intersect_nested; try assumption; lia. }
    subst b. rewrite eqb_refl. reflexivity.
  - intros Hlen.
    rewrite eqb_false_neq by (try assumption; intros ->; lia).
    unfold supernet_of. fold (subnet_of b a).
    rewrite (intersect_nested b a Hb Ha) by (try assumption; lia).
    reflexivity.
  - intros Hlen.
    rewrite eqb_false_neq by (try assumption; intros ->; lia).
    destruct (supernet_of a b) eqn:E.
    { unfold supernet_of in E. fold (subnet_of b a) in E.
      apply (subnet_of_prefixlen b a Hb Ha) in E. lia. }
    rewrite (intersect_nested a b Ha Hb) by (try assumption; lia).
    reflexivity.
Qed.

Lemma ranges_intersect_16_24 :
  ranges_intersect ClassifierSpec.net_10_0_0_0_16 ClassifierSpec.net_10_0_0_0_24.
Proof.
  exists (network_address ClassifierSpec.net_10_0_0_0_24).
  split; [|split]; [|reflexivity|reflexivity].
  unfold _ALL_ONES. cbn. lia.
Qed.

Lemma is_subnet_overlap_by_prefixlen_witness :
  well_formed ClassifierSpec.net_10_0_0_0_16 = true
  /\ well_formed ClassifierSpec.net_10_0_0_0_24 = true
  /\ ranges_intersect ClassifierSpec.net_10_0_0_0_16 ClassifierSpec.net_10_0_0_0_24
  /\ is_subnet_overlap ClassifierSpec.net_10_0_0_0_16 ClassifierSpec.net_10_0_0_0_24
     = "contains".
Proof.
  split; [reflexivity|]. split; [reflexivity|].
  split; [exact ranges_intersect_16_24|].
  destruct (is_subnet_overlap_by_prefixlen
              ClassifierSpec.net_10_0_0_0_16 ClassifierSpec.net_10_0_0_0_24
              eq_refl eq_refl ranges_intersect_16_24) as (_ & Hshorter & _).
  apply Hshorter. cbn. lia.
Defined.

(** X4. Swapping the two arguments swaps "contains" and "contained" and
    keeps every other answer. *)
Theorem is_subnet_overlap_swap (a b : IPv4Network) :
  well_formed a = true -> well_formed b = true ->
  is_subnet_overlap b a = mirror (is_subnet_overlap a b).
Proof.
  intros Ha Hb. unfold is_subnet_overlap.
  rewrite (eqb_sym b a), (overlaps_sym b a).
  destruct (eqb a b) eqn:E1; [reflexivity|].
  unfold supernet_of, subnet_of.
  destruct (_is_subnet_of b a) eqn:Hba, (_is_subnet_of a b) eqn:Hab;
    try reflexivity.
  - exfalso.
    assert (a = b) by (apply subnet_of_antisym; assumption).
    subst b. rewrite eqb_refl in E1. discriminate.
  - destruct (overlaps a b); reflexivity.
Qed.

Lemma is_subnet_overlap_swap_witness :
  well_formed ClassifierSpec.net_10_0_0_0_16 = true
  /\ well_formed ClassifierSpec.net_10_0_0_0_24 = true
  /\ is_subnet_overlap ClassifierSpec.net_10_0_0_0_24 ClassifierSpec.net_10_0_0_0_16
     = mirror (is_subnet_overlap ClassifierSpec.net_10_0_0_0_16
                 ClassifierSpec.net_10_0_0_0_24).
Proof.
  split; [reflexivity|]. split; [reflexivity|].
  apply (is_subnet_overlap_swap
           ClassifierSpec.net_10_0_0_0_16 ClassifierSpec.net_10_0_0_0_24);
    reflexivity.
Defined.

(** X5. For a host network of prefix length 32 the host check agrees with
    the classification: it holds exactly when the classification is not
    "none", and then the classification is "exact" for the subnet that is
    this very host network and "contained" for every other subnet. *)
Theorem check_host_in_network_classification (host subnet : IPv4Network) :
  well_formed host = true -> prefixlen host = 32%Z ->
  well_formed subnet = true ->
  (check_host_in_network host subnet = true <->
   is_subnet_overlap host subnet <> "none")
  /\ (check_host_in_network host subnet = true ->
      (subnet = host -> is_subnet_overlap host subnet = "exact")
      /\ (subnet <> host -> is_subnet_overlap host subnet = "contained")).
Proof.
  intros Hh H32 Hs. split.
  - split.
    + apply AnalyzerSpec.host_inside_not_none.
    + intros Hnot. destruct (check_host_in_network host subnet) eqn:E;
        [reflexivity|].
      exfalso. apply Hnot.
      apply AnalyzerSpec.host_outside_is_none; assumption.
  - intros Hin. split.
    + intros ->. unfold is_subnet_overlap. rewrite eqb_refl. reflexivity.
    + intros Hne.
      assert (Hint : ranges_intersect host subnet).
      { exists (network_address host).
        unfold check_host_in_network in Hin. rewrite H32 in Hin. cbn in Hin.
        pose proof (network_address_range host Hh).
        pose proof (contains_network_address host Hh). auto. }
      assert (Hp : (0 <= prefixlen subnet <= 32)%Z).
      { apply well_formed_spec in Hs. tauto. }
      assert (Hsub : subnet_of host subnet = true).
      { apply intersect_nested; try assumption. lia. }
      unfold is_subnet_overlap.
      rewrite eqb_false_neq by (try assumption; congruence).
      destruct (supernet_of host subnet) eqn:E.
      { exfalso. apply Hne. symmetry.
        apply subnet_of_antisym; assumption. }
      rewrite Hsub. reflexivity.
Qed.

Lemma check_host_in_network_classification_witness :
  well_formed ClassifierSpec.host_10_0_0_5 = true
  /\ prefixlen ClassifierSpec.host_10_0_0_5 = 32%Z
  /\ well_formed ClassifierSpec.net_10_0_0_0_24 = true
  /\ (check_host_in_network ClassifierSpec.host_10_0_0_5
        ClassifierSpec.net_10_0_0_0_24 = true
      <-> is_subnet_overlap ClassifierSpec.host_10_0_0_5
            ClassifierSpec.net_10_0_0_0_24 <> "none").
Proof.
  split; [reflexivity|]. split; [reflexivity|]. split; [reflexivity|].
  apply (check_host_in_network_classification ClassifierSpec.host_10_0_0_5
           ClassifierSpec.net_10_0_0_0_24); reflexivity.
Defined.

End ClassifierMore.

(** * Further properties of the input validation *)

Module ValidatorMore.

Import ipaddress IPValidator NetworkFacts ValidatorSpec.

Local Open Scope string_scope.

(** *** Trimming *)

Lemma rstrip_cons c r :
  PyStr.rstrip (String c r) =
  match PyStr.rstrip r with
  | EmptyString => if PyStr.isspace c then EmptyString else String c EmptyString
  | String d r' => String c (String d r')
  end.
Proof. reflexivity. Qed.

Lemma rstrip_idempotent s : PyStr.rstrip (PyStr.rstrip s) = PyStr.rstrip s.
Proof.
  induction s as [|c r IH]; [reflexivity|].
  rewrite rstrip_cons.
  destruct (PyStr.rstrip r) as [|d r'] eqn:Hr.
  - destruct (PyStr.isspace c) eqn:Hc; [reflexivity|].
    rewrite rstrip_cons. cbn [PyStr.rstrip]. rewrite Hc. reflexivity.
  - rewrite rstrip_cons, IH. reflexivity.
Qed.

Lemma lstrip_rstrip_lstrip s :
  PyStr.lstrip (PyStr.rstrip (PyStr.lstrip s)) = PyStr.rstrip (PyStr.lstrip s).
Proof.
  induction s as [|c r IH]; [reflexivity|].
  cbn [PyStr.lstrip].
  destruct (PyStr.isspace c) eqn:Hc; [exact IH|].
  cbn [PyStr.rstrip].
  destruct (PyStr.rstrip r); rewrite ?Hc; cbn [PyStr.lstrip]; rewrite Hc;
    reflexivity.
Qed.

Lemma strip_idempotent s : PyStr.strip (PyStr.strip s) = PyStr.strip s.
Proof.
  unfold PyStr.strip. rewrite lstrip_rstrip_lstrip. apply rstrip_idempotent.
Qed.

Lemma lstrip_empty s :
  PyStr.lstrip s = "" <-> PyStr.all_chars PyStr.isspace s = true.
Proof.
  induction s as [|c r IH]; cbn [PyStr.lstrip PyStr.all_chars].
  - tauto.
  - destruct (PyStr.isspace c); cbn [andb]; [exact IH|].
    split; discriminate.
Qed.

Lemma rstrip_empty s :
  PyStr.rstrip s = "" <-> PyStr.all_chars PyStr.isspace s = true.
Proof.
  induction s as [|c r IH]; cbn [PyStr.rstrip PyStr.all_chars].
  - tauto.
  - destruct (PyStr.rstrip r) as [|d r'] eqn:Hr.
    + destruct (PyStr.isspace c); cbn [andb].
      * split; [intros _; apply IH; reflexivity | reflexivity].
      * split; discriminate.
    + split; [discriminate|]. intros H. apply andb_true_iff in H.
      destruct H as [_ H]. apply IH in H. discriminate.
Qed.

Lemma all_chars_lstrip p s :
  PyStr.all_chars p s = true -> PyStr.all_chars p (PyStr.lstrip s) = true.
Proof.
  induction s as [|c r IH]; cbn [PyStr.lstrip PyStr.all_chars]; [tauto|].
  intros H. destruct (PyStr.isspace c); [|exact H].
  apply andb_true_iff in H. tauto.
Qed.

Lemma strip_empty s :
  PyStr.strip s = "" <-> PyStr.all_chars PyStr.isspace s = true.
Proof.
  unfold PyStr.strip. rewrite rstrip_empty. split.
  - intros H. destruct (PyStr.lstrip s) as [|c r] eqn:Hl.
    + apply lstrip_empty. assumption.
    + exfalso.
      assert (Hc : PyStr.isspace c = false).
      { clear H. induction s as [|d t IH]; cbn [PyStr.lstrip] in Hl;
          [discriminate|].
        destruct (PyStr.isspace d) eqn:Hd; [auto|]. congruence. }
      cbn [PyStr.all_chars] in H. rewrite Hc in H. discriminate.
  - apply all_chars_lstrip.
Qed.

(** X7. A network that [validate_input] returns as valid is the network
    that the constructor builds, in non-strict mode, from the trimmed input
    (with "/32" added when there is no slash); it has a prefix length from
    0 to 32 and no host bits; and when it is public, the user has answered
    the prompt with y or yes. *)
Theorem validate_input_valid_network (ip_input answer : string) (m : IPv4Network) :
  validate_input ip_input answer = Return (Valid m) ->
  IPv4Network_nonstrict (cidr_text ip_input) = Return m
  /\ well_formed m = true
  /\ (is_global m = true -> confirmed answer = true).
Proof.
  pose proof (validate_input_cases ip_input answer) as H.
  destruct (IPv4Network_nonstrict (cidr_text ip_input)) as [n|e] eqn:Hparse.
  - rewrite H.
    destruct (is_multicast n); [discriminate|].
    destruct (_ >=? _)%Z; [discriminate|].
    destruct (is_global n) eqn:Hg; [destruct (confirmed answer) eqn:Hc|];
      intros Hv; try discriminate; injection Hv as <-;
      (split; [reflexivity|]);
      (split; [apply (IPv4Network_nonstrict_well_formed _ _ Hparse)|]);
      congruence.
  - destruct H as [message H]. rewrite H. discriminate.
Qed.

Lemma validate_input_valid_network_witness :
  validate_input " 8.8.8.8/24 " "Yes" = Return (Valid (net 8 8 8 0 24))
  /\ IPv4Network_nonstrict (cidr_text " 8.8.8.8/24 ") = Return (net 8 8 8 0 24)
  /\ well_formed (net 8 8 8 0 24) = true
  /\ (is_global (net 8 8 8 0 24) = true -> confirmed "Yes" = true).
Proof.
  split; [reflexivity|].
  apply (validate_input_valid_network " 8.8.8.8/24 " "Yes" (net 8 8 8 0 24)).
  reflexivity.
Defined.

(** X8. White space around the input never changes the answer. *)
Theorem validate_input_ignores_surrounding_space (ip_input answer : string) :
  validate_input (PyStr.strip ip_input) answer = validate_input ip_input answer.
Proof.
  unfold validate_input. rewrite strip_idempotent. reflexivity.
Qed.

(** X9. The answer is the empty-input rejection exactly for the inputs that
    consist of white space only (the empty input among them). *)
Theorem validate_input_empty_iff_blank (ip_input answer : string) :
  validate_input ip_input answer = Return (Invalid Empty_input_provided)
  <-> PyStr.all_chars PyStr.isspace ip_input = true.
Proof.
  rewrite <- strip_empty. unfold validate_input.
  destruct (PyStr.strip ip_input) as [|c r] eqn:Hs.
  - cbn. tauto.
  - cbn [PyStr.truthy negb]. split; [|discriminate].
    destruct (PyStr.contains "/" (String c r)); cbn [negb bind].
    + destruct (IPv4Network_nonstrict _) as [n|e]; [|discriminate].
      destruct (is_multicast n); [discriminate|].
      destruct (_ >=? _)%Z; [discriminate|].
      destruct (is_global n); [|discriminate].
      destruct (negb _); discriminate.
    + destruct (IPv4Address (String c r)) as [ip|[|]]; cbn [bind];
        try discriminate.
      destruct (IPv4Network_nonstrict _) as [n|e]; [|discriminate].
      destruct (is_multicast n); [discriminate|].
      destruct (_ >=? _)%Z; [discriminate|].
      destruct (is_global n); [|discriminate].
      destruct (negb _); discriminate.
Qed.

(** X10. The two syntax rejections: the invalid-CIDR message is given
    exactly for a trimmed input with a slash that the network constructor
    rejects, with the exception it raised; the invalid-address message is
    given exactly for a non-empty trimmed input without a slash that is not
    a dotted quad, and it carries the trimmed input. *)
Theorem validate_input_syntax_errors (ip_input answer : string) :
  (forall e,
      validate_input ip_input answer = Return (Invalid (Invalid_CIDR_notation e))
      <-> PyStr.contains "/" (PyStr.strip ip_input) = true
          /\ IPv4Network_nonstrict (PyStr.strip ip_input) = Raise e)
  /\ (forall t,
        validate_input ip_input answer = Return (Invalid (Invalid_IP_address_format t))
        <-> t = PyStr.strip ip_input /\ t <> ""
            /\ PyStr.contains "/" t = false
            /\ exists e, IPv4Address t = Raise e).
Proof.
  unfold validate_input.
  destruct (PyStr.strip ip_input) as [|c r] eqn:Hs.
  { cbn. split.
    - intros e. split; [discriminate | intros [H _]; discriminate].
    - intros t. split; [discriminate | intros (-> & H & _); contradiction]. }
  cbn [PyStr.truthy negb].
  destruct (PyStr.contains "/" (String c r)) eqn:Hslash; cbn [negb bind].
  - destruct (IPv4Network_nonstrict (String c r)) as [n|e0] eqn:Hparse.
    + assert (Hkind : forall msg,
                 (exists e, msg = Invalid_CIDR_notation e)
                 \/ (exists t, msg = Invalid_IP_address_format t) ->
                 (if is_multicast n then Return (Invalid Multicast_not_supported)
                  else if (network_address n >=? int_from_bytes_big [240; 0; 0; 0])%Z
                       then Return (Invalid Class_E_not_supported)
                  else if is_global n
                       then if negb (PyStr.mem (PyStr.lower (PyStr.strip answer))
                                       ["y"; "yes"])
                            then Return (Invalid Operation_cancelled_by_user)
                            else Return (Valid n)
                  else Return (Valid n)) <> Return (Invalid msg)).
      { intros msg Hmsg.
        destruct (is_multicast n);
          [|destruct (_ >=? _)%Z; [|destruct (is_global n);
                                     [destruct (negb _)|]]];
          destruct Hmsg as [[e ->] | [t ->]]; discriminate. }
      split.
      * intros e. split.
        -- intros H. exfalso. apply (Hkind (Invalid_CIDR_notation e)); eauto.
        -- intros [_ H]. congruence.
      * intros t. split.
        -- intros H. exfalso. apply (Hkind (Invalid_IP_address_format t)); eauto.
        -- intros (-> & _ & H & _). congruence.
    + split.
      * intros e. split.
        -- intros [= ->]. auto.
        -- intros [_ [= ->]]. reflexivity.
      * intros t. split; [discriminate|].
        intros (-> & _ & H & _). congruence.
  - pose proof (IPv4Network_nonstrict_host (String c r) Hslash) as Hhost.
    destruct (IPv4Address (String c r)) as [ip|e0] eqn:Hip.
    + cbn [bind]. rewrite Hhost.
      set (n := mkIPv4Network ip _ALL_ONES 32).
      assert (Hkind : forall msg,
                 (exists e, msg = Invalid_CIDR_notation e)
                 \/ (exists t, msg = Invalid_IP_address_format t) ->
                 (if is_multicast n then Return (Invalid Multicast_not_supported)
                  else if (network_address n >=? int_from_bytes_big [240; 0; 0; 0])%Z
                       then Return (Invalid Class_E_not_supported)
                  else if is_global n
                       then if negb (PyStr.mem (PyStr.lower (PyStr.strip answer))
                                       ["y"; "yes"])
                            then Return (Invalid Operation_cancelled_by_user)
                            else Return (Valid n)
                  else Return (Valid n)) <> Return (Invalid msg)).
      { intros msg Hmsg.
        destruct (is_multicast n);
          [|destruct (_ >=? _)%Z; [|destruct (is_global n);
                                     [destruct (negb _)|]]];
          destruct Hmsg as [[e ->] | [t ->]]; discriminate. }
      split.
      * intros e. split.
        -- intros H. exfalso. apply (Hkind (Invalid_CIDR_notation e)); eauto.
        -- intros [H _]. congruence.
      * intros t. split.
        -- intros H. exfalso. apply (Hkind (Invalid_IP_address_format t)); eauto.
        -- intros (-> & _ & _ & e & H). congruence.
    + rewrite (IPv4Address_only_raises_AddressValueError _ _ Hip). cbn [bind].
      split.
      * intros e. split; [discriminate | intros [H _]; congruence].
      * intros t. split.
        -- intros [= <-].
           split; [reflexivity|]. split; [discriminate|].
           split; [assumption|]. exists e0. assumption.
        -- intros (-> & _). reflexivity.
Qed.

End ValidatorMore.

(** * Further properties of the analysis *)

Module AnalyzerMore.

Import ipaddress IPValidator SubnetAnalyzer NetworkFacts AnalyzerSpec.

Local Open Scope string_scope.

(** ** The report, record by record *)

(** Bucket by bucket, the Matches of [m] followed by those of [d]. *)
Definition matches_app (m d : Matches) : Matches :=
  mkMatches (m_exact m ++ m_exact d) (m_contains m ++ m_contains d)
    (m_contained m ++ m_contained d) (m_overlap m ++ m_overlap d)
    (m_host_in_subnet m ++ m_host_in_subnet d).

Definition has_relationship (key : string) (mi : MatchInfo) : bool :=
  relationship mi =? key.

(** A list of Matches sorted into the five buckets by their relationship,
    each bucket in the order of the list. *)
Definition bucketed (l : list MatchInfo) : Matches :=
  mkMatches (filter (has_relationship "exact") l)
    (filter (has_relationship "contains") l)
    (filter (has_relationship "contained") l)
    (filter (has_relationship "overlap") l)
    (filter (has_relationship "host_in_subnet") l).

(** The Match that one address-space prefix stands for: none when the text
    does not parse or the relationship is "none". *)
Definition vnet_record_match (target : IPv4Network)
           (vnet_name resource_group prefix : string) : list MatchInfo :=
  match IPv4Network_nonstrict prefix with
  | Return n =>
      let r := is_subnet_overlap target n in
      if r =? "none" then [] else [vnet_match vnet_name resource_group n r]
  | Raise _ => []
  end.

(** The Match that one subnet record stands for. *)
Definition subnet_record_match (target : IPv4Network)
           (vnet_name resource_group : string) (subnet : Subnet) : list MatchInfo :=
  match IPv4Network_nonstrict (address_prefix subnet) with
  | Return n =>
      if (prefixlen target =? 32)%Z && check_host_in_network target n
      then [subnet_match vnet_name resource_group subnet n "host_in_subnet"]
      else
        let r := is_subnet_overlap target n in
        if r =? "none" then []
        else [subnet_match vnet_name resource_group subnet n r]
  | Raise _ => []
  end.

(** The Matches of one discovered network, address spaces first, and of a
    list of discovered networks, in the order of discovery. *)
Definition vnet_matches (target : IPv4Network) (v : VNet) : list MatchInfo :=
  (flat_map (vnet_record_match target (name v) (resource_group_of v))
     (address_prefixes v)
   ++ flat_map (subnet_record_match target (name v) (resource_group_of v))
        (subnets v))%list.

Definition record_matches (target : IPv4Network) (vnets : list VNet)
  : list MatchInfo :=
  flat_map (vnet_matches target) vnets.

(** Every address-space prefix whose address part is malformed is removed. *)
Definition bad_address (prefix : string) : bool :=
  match IPv4Network_nonstrict prefix with
  | Raise AddressValueError => true
  | _ => false
  end.

Definition without_bad_addresses (v : VNet) : VNet :=
  mkVNet (name v) (resource_group_of v)
    (filter (fun p => negb (bad_address p)) (address_prefixes v)) (subnets v).

(** *** Bucket algebra *)

Lemma matches_app_nil m : matches_app m (bucketed []) = m.
Proof.
  unfold matches_app, bucketed. cbn. rewrite !app_nil_r. destruct m. reflexivity.
Qed.

Lemma matches_app_empty d : matches_app empty_matches d = d.
Proof. destruct d. reflexivity. Qed.

Lemma bucketed_app l1 l2 :
  bucketed (l1 ++ l2) = matches_app (bucketed l1) (bucketed l2).
Proof. unfold bucketed, matches_app. rewrite !filter_app. reflexivity. Qed.

Lemma matches_app_assoc m d1 d2 :
  matches_app (matches_app m d1) d2 = matches_app m (matches_app d1 d2).
Proof. unfold matches_app. cbn. rewrite <- !app_assoc. reflexivity. Qed.

Lemma classified_bucketed target n info m :
  (forall r, relationship (info r) = r) ->
  classified target n info m
  = matches_app m
      (bucketed (if is_subnet_overlap target n =? "none" then []
                 else [info (is_subnet_overlap target n)])).
Proof.
  intros Hinfo. unfold classified.
  destruct (ClassifierSpec.is_subnet_overlap_values target n)
    as [E|[E|[E|[E|[E|[]]]]]];
    rewrite <- E; cbn [String.eqb Ascii.eqb Bool.eqb];
    try (symmetry; apply matches_app_nil);
    unfold matches_app, bucketed, has_relationship; cbn [filter];
    rewrite Hinfo; cbn; rewrite !app_nil_r; reflexivity.
Qed.

Lemma record_host_bucketed mi m :
  relationship mi = "host_in_subnet" ->
  record "host_in_subnet" mi m = matches_app m (bucketed [mi]).
Proof.
  intros Hmi. unfold matches_app, bucketed, has_relationship. cbn [filter].
  rewrite Hmi. cbn. rewrite !app_nil_r. reflexivity.
Qed.

(** *** The effect of a step and of a loop *)

Lemma _analyze_vnet_prefix_effect target vnet_name resource_group prefix w w' :
  _analyze_vnet_prefix target vnet_name resource_group prefix w = Return w' ->
  matches (results w')
  = matches_app (matches (results w))
      (bucketed (vnet_record_match target vnet_name resource_group prefix)).
Proof.
  pose proof (_analyze_vnet_prefix_step target vnet_name resource_group prefix w)
    as H.
  unfold vnet_record_match.
  destruct (IPv4Network_nonstrict prefix) as [n|[|]].
  - destruct H as (w1 & -> & Hm & _). intros [= <-]. rewrite Hm.
    apply classified_bucketed. reflexivity.
  - rewrite H. intros [= <-]. symmetry. apply matches_app_nil.
  - rewrite H. discriminate.
Qed.

Lemma _analyze_subnet_effect target subnet vnet_name resource_group w w' :
  _analyze_subnet target subnet vnet_name resource_group w = Return w' ->
  matches (results w')
  = matches_app (matches (results w))
      (bucketed (subnet_record_match target vnet_name resource_group subnet)).
Proof.
  pose proof (_analyze_subnet_step target subnet vnet_name resource_group w) as H.
  unfold subnet_record_match.
  destruct (IPv4Network_nonstrict (address_prefix subnet)) as [n|[|]].
  - destruct H as (w1 & -> & Hm & _). intros [= <-]. rewrite Hm.
    destruct (_ && _).
    + apply record_host_bucketed. reflexivity.
    + apply classified_bucketed. reflexivity.
  - rewrite H. intros [= <-]. symmetry. apply matches_app_nil.
  - rewrite H. discriminate.
Qed.

Lemma for_each_effect {A : Type} (body : A -> World -> outcome World)
      (found : A -> list MatchInfo) (xs : list A) :
  (forall x w w', body x w = Return w' ->
                  matches (results w')
                  = matches_app (matches (results w)) (bucketed (found x))) ->
  forall w w', for_each xs body w = Return w' ->
               matches (results w')
               = matches_app (matches (results w)) (bucketed (flat_map found xs)).
Proof.
  intros Hstep. induction xs as [|x rest IH]; intros w w'; cbn [for_each flat_map].
  - intros [= <-]. symmetry. apply matches_app_nil.
  - destruct (body x w) as [w1|e] eqn:Hx; cbn [bind]; [|discriminate].
    intros Hrest. rewrite (IH _ _ Hrest), (Hstep _ _ _ Hx).
    rewrite bucketed_app. apply matches_app_assoc.
Qed.

Lemma _analyze_vnet_effect target v w w' :
  _analyze_vnet target v w = Return w' ->
  matches (results w')
  = matches_app (matches (results w)) (bucketed (vnet_matches target v)).
Proof.
  rewrite _analyze_vnet_unfold.
  destruct (for_each (address_prefixes v) _ _) as [w1|e] eqn:H1;
    cbn [bind]; [|discriminate].
  intros H2.
  apply (for_each_effect _
           (vnet_record_match target (name v) (resource_group_of v))) in H1;
    [|intros; eapply _analyze_vnet_prefix_effect; eassumption].
  apply (for_each_effect _
           (subnet_record_match target (name v) (resource_group_of v))) in H2.
  - rewrite H2, H1. unfold vnet_matches.
    rewrite bucketed_app, matches_app_assoc. reflexivity.
  - intros subnet u u'. unfold subnet_iteration.
    destruct (_analyze_subnet target subnet _ _ u) as [u1|e] eqn:Hs;
      cbn [bind]; [|discriminate].
    intros [= <-]. apply (_analyze_subnet_effect _ _ _ _ _ _ Hs).
Qed.

Lemma analyze_ip_usage_matches target vnets w :
  analyze_ip_usage target vnets = Return w ->
  matches (results w) = bucketed (record_matches target vnets).
Proof.
  unfold analyze_ip_usage, analyze_ip_usage_from. intros H.
  apply (for_each_effect _ (vnet_matches target)) in H.
  - rewrite H. apply matches_app_empty.
  - intros v u u'. apply _analyze_vnet_effect.
Qed.

(** *** When the analysis returns *)

Lemma for_each_raise {A : Type} (body : A -> World -> outcome World)
      (xs : list A) w e :
  for_each xs body w = Raise e ->
  exists x u, In x xs /\ body x u = Raise e.
Proof.
  revert w. induction xs as [|x rest IH]; intros w; cbn [for_each];
    [discriminate|].
  destruct (body x w) as [w1|e1] eqn:Hx; cbn [bind].
  - intros H. destruct (IH _ H) as (y & u & Hy & Hu).
    exists y, u. split; [right; assumption | assumption].
  - intros [= <-]. exists x, w. split; [left; reflexivity | assumption].
Qed.

Lemma for_each_return_all {A : Type} (body : A -> World -> outcome World)
      (xs : list A) w w' :
  for_each xs body w = Return w' ->
  forall x, In x xs -> exists u u', body x u = Return u'.
Proof.
  revert w. induction xs as [|x rest IH]; intros w; cbn [for_each].
  - intros _ y [].
  - destruct (body x w) as [w1|e1] eqn:Hx; cbn [bind]; [|discriminate].
    intros H y [<- | Hy]; [eauto | eapply IH; eassumption].
Qed.

Lemma _analyze_vnet_prefix_raise target vnet_name resource_group prefix w e :
  _analyze_vnet_prefix target vnet_name resource_group prefix w = Raise e ->
  e = NetmaskValueError /\ IPv4Network_nonstrict prefix = Raise NetmaskValueError.
Proof.
  pose proof (_analyze_vnet_prefix_step target vnet_name resource_group prefix w)
    as H.
  destruct (IPv4Network_nonstrict prefix) as [n|[|]].
  - destruct H as (w1 & -> & _). discriminate.
  - rewrite H. discriminate.
  - rewrite H. intros [= <-]. split; reflexivity.
Qed.

Lemma _analyze_subnet_raise target subnet vnet_name resource_group w e :
  _analyze_subnet target subnet vnet_name resource_group w = Raise e ->
  e = NetmaskValueError
  /\ IPv4Network_nonstrict (address_prefix subnet) = Raise NetmaskValueError.
Proof.
  pose proof (_analyze_subnet_step target subnet vnet_name resource_group w) as H.
  destruct (IPv4Network_nonstrict (address_prefix subnet)) as [n|[|]].
  - destruct H as (w1 & -> & _). discriminate.
  - rewrite H. discriminate.
  - rewrite H. intros [= <-]. split; reflexivity.
Qed.

Lemma _analyze_vnet_prefix_return target vnet_name resource_group prefix w w' :
  _analyze_vnet_prefix target vnet_name resource_group prefix w = Return w' ->
  bad_mask prefix = false.
Proof.
  pose proof (_analyze_vnet_prefix_step target vnet_name resource_group prefix w)
    as H.
  unfold bad_mask.
  destruct (IPv4Network_nonstrict prefix) as [n|[|]]; try reflexivity.
  rewrite H. discriminate.
Qed.

Lemma _analyze_subnet_return target subnet vnet_name resource_group w w' :
  _analyze_subnet target subnet vnet_name resource_group w = Return w' ->
  bad_mask (address_prefix subnet) = false.
Proof.
  pose proof (_analyze_subnet_step target subnet vnet_name resource_group w) as H.
  unfold bad_mask.
  destruct (IPv4Network_nonstrict (address_prefix subnet)) as [n|[|]];
    try reflexivity.
  rewrite H. discriminate.
Qed.

Lemma in_prefix_texts_vnet vnets v p :
  In v vnets -> In p (address_prefixes v) -> In p (prefix_texts vnets).
Proof.
  intros Hv Hp. unfold prefix_texts. apply in_flat_map. exists v.
  split; [assumption | apply in_or_app; left; assumption].
Qed.

Lemma in_prefix_texts_subnet vnets v subnet :
  In v vnets -> In subnet (subnets v) ->
  In (address_prefix subnet) (prefix_texts vnets).
Proof.
  intros Hv Hs. unfold prefix_texts. apply in_flat_map. exists v.
  split; [assumption | apply in_or_app; right; apply in_map; assumption].
Qed.

Lemma _analyze_vnet_raise target v w e :
  _analyze_vnet target v w = Raise e ->
  e = NetmaskValueError
  /\ exists p, In p (address_prefixes v ++ map address_prefix (subnets v))%list
               /\ IPv4Network_nonstrict p = Raise NetmaskValueError.
Proof.
  rewrite _analyze_vnet_unfold.
  destruct (for_each (address_prefixes v) _ _) as [w1|e1] eqn:H1; cbn [bind].
  - intros H2. apply for_each_raise in H2. destruct H2 as (subnet & u & Hin & Hu).
    unfold subnet_iteration in Hu.
    destruct (_analyze_subnet target subnet _ _ u) as [u1|e2] eqn:Hs;
      cbn [bind] in Hu; [discriminate|].
    injection Hu as <-. apply _analyze_subnet_raise in Hs.
    destruct Hs as [-> Hp]. split; [reflexivity|].
    exists (address_prefix subnet).
    split; [apply in_or_app; right; apply in_map; assumption | assumption].
  - intros [= <-]. apply for_each_raise in H1.
    destruct H1 as (p & u & Hin & Hu). apply _analyze_vnet_prefix_raise in Hu.
    destruct Hu as [-> Hp]. split; [reflexivity|].
    exists p. split; [apply in_or_app; left; assumption | assumption].
Qed.

Lemma _analyze_vnet_return target v w w' :
  _analyze_vnet target v w = Return w' ->
  forall p, In p (address_prefixes v ++ map address_prefix (subnets v))%list ->
            bad_mask p = false.
Proof.
  rewrite _analyze_vnet_unfold.
  destruct (for_each (address_prefixes v) _ _) as [w1|e1] eqn:H1; cbn [bind];
    [|discriminate].
  intros H2 p Hp. apply in_app_or in Hp. destruct Hp as [Hp | Hp].
  - destruct (for_each_return_all _ _ _ _ H1 p Hp) as (u & u' & Hu).
    apply (_analyze_vnet_prefix_return _ _ _ _ _ _ Hu).
  - apply in_map_iff in Hp. destruct Hp as (subnet & <- & Hs).
    destruct (for_each_return_all _ _ _ _ H2 subnet Hs) as (u & u' & Hu).
    unfold subnet_iteration in Hu.
    destruct (_analyze_subnet target subnet _ _ u) as [u1|e2] eqn:Hsub;
      cbn [bind] in Hu; [|discriminate].
    apply (_analyze_subnet_return _ _ _ _ _ _ Hsub).
Qed.

Lemma analyze_ip_usage_return_no_bad_mask target vnets w :
  analyze_ip_usage target vnets = Return w ->
  forall p, In p (prefix_texts vnets) -> bad_mask p = false.
Proof.
  unfold analyze_ip_usage, analyze_ip_usage_from. intros H p Hp.
  unfold prefix_texts in Hp. apply in_flat_map in Hp.
  destruct Hp as (v & Hv & Hp).
  destruct (for_each_return_all _ _ _ _ H v Hv) as (u & u' & Hu).
  apply (_analyze_vnet_return _ _ _ _ Hu p Hp).
Qed.

Lemma analyze_ip_usage_no_bad_mask_return target vnets :
  (forall p, In p (prefix_texts vnets) -> bad_mask p = false) ->
  exists w, analyze_ip_usage target vnets = Return w.
Proof.
  intros Hok. unfold analyze_ip_usage, analyze_ip_usage_from.
  apply for_each_returns. intros v u Hv. apply _analyze_vnet_returns.
  apply forallb_forall. intros p Hp. apply negb_true_iff, Hok.
  unfold prefix_texts. apply in_flat_map. exists v. split; assumption.
Qed.

(** X11. The analysis ends with an exception exactly when the text of some
    address-space prefix or subnet prefix has a well-formed address part and
    a malformed mask, and the exception is then [NetmaskValueError]; with
    all other discovered records, malformed addresses included, it returns
    a report. *)
Theorem analyze_ip_usage_raises_iff_bad_mask
        (target : IPv4Network) (vnets : list VNet) :
  (forall e, analyze_ip_usage target vnets = Raise e -> e = NetmaskValueError)
  /\ ((exists e, analyze_ip_usage target vnets = Raise e)
      <-> exists p, In p (prefix_texts vnets)
                    /\ IPv4Network_nonstrict p = Raise NetmaskValueError)
  /\ ((exists w, analyze_ip_usage target vnets = Return w)
      <-> forall p, In p (prefix_texts vnets) ->
                    IPv4Network_nonstrict p <> Raise NetmaskValueError).
Proof.
  assert (Hraise : forall e, analyze_ip_usage target vnets = Raise e ->
                             e = NetmaskValueError
                             /\ exists p, In p (prefix_texts vnets)
                                          /\ IPv4Network_nonstrict p
                                             = Raise NetmaskValueError).
  { intros e H. unfold analyze_ip_usage, analyze_ip_usage_from in H.
    apply for_each_raise in H. destruct H as (v & u & Hv & Hu).
    apply _analyze_vnet_raise in Hu. destruct Hu as (-> & p & Hp & Hbad).
    split; [reflexivity|]. exists p. split; [|assumption].
    unfold prefix_texts. apply in_flat_map. exists v. split; assumption. }
  assert (Hbad : forall p, bad_mask p = false <->
                           IPv4Network_nonstrict p <> Raise NetmaskValueError).
  { intros p. unfold bad_mask.
    destruct (IPv4Network_nonstrict p) as [n|[|]]; split; congruence. }
  split; [|split].
  - intros e H. apply (Hraise e H).
  - split.
    + intros [e H]. apply (Hraise e H).
    + intros (p & Hp & Hmask).
      destruct (analyze_ip_usage target vnets) as [w|e] eqn:H; [|eauto].
      exfalso.
      pose proof (analyze_ip_usage_return_no_bad_mask _ _ _ H p Hp) as Hno.
      apply Hbad in Hno. contradiction.
  - split.
    + intros [w H] p Hp. apply Hbad.
      apply (analyze_ip_usage_return_no_bad_mask _ _ _ H p Hp).
    + intros Hok. apply analyze_ip_usage_no_bad_mask_return.
      intros p Hp. apply Hbad, Hok, Hp.
Qed.

(** X12. Each bucket of the report lists, in the order of discovery (every
    network's address spaces before its subnets), exactly the Matches of
    the discovered records whose relationship is the key of the bucket:
    one Match for every prefix that parses and does not classify as "none",
    and none for any other record. *)
Theorem analyze_ip_usage_report_content
        (target : IPv4Network) (vnets : list VNet) (w : World) :
  analyze_ip_usage target vnets = Return w ->
  matches (results w) = bucketed (record_matches target vnets)
  /\ forall key, In key bucket_keys ->
                 bucket key (matches (results w))
                 = filter (has_relationship key) (record_matches target vnets).
Proof.
  intros H. apply analyze_ip_usage_matches in H. split; [assumption|].
  intros key Hkey. rewrite H. unfold bucket_keys in Hkey.
  repeat (destruct Hkey as [<- | Hkey]; [reflexivity|]). destruct Hkey.
Qed.

Lemma analyze_ip_usage_report_content_witness :
  analyze_ip_usage ClassifierSpec.net_10_0_0_0_24 two_vnets
  = Return report_10_0_0_0_24
  /\ matches (results report_10_0_0_0_24)
     = bucketed (record_matches ClassifierSpec.net_10_0_0_0_24 two_vnets).
Proof.
  split; [reflexivity|].
  apply (analyze_ip_usage_report_content ClassifierSpec.net_10_0_0_0_24
           two_vnets report_10_0_0_0_24 eq_refl).
Defined.

(** X13. Analysing two lists of discovered networks one after the other
    gives the report of the joined list: when both analyses return, so does
    the analysis of the joined list, each of its buckets is the bucket of
    the first report followed by the bucket of the second, and its two
    counters are the sums of theirs. *)
Theorem analyze_ip_usage_app
        (target : IPv4Network) (vnets1 vnets2 : list VNet) (w1 w2 : World) :
  analyze_ip_usage target vnets1 = Return w1 ->
  analyze_ip_usage target vnets2 = Return w2 ->
  exists w,
    analyze_ip_usage target (vnets1 ++ vnets2) = Return w
    /\ matches (results w)
       = matches_app (matches (results w1)) (matches (results w2))
    /\ (total_vnets_checked (results w)
        = total_vnets_checked (results w1) + total_vnets_checked (results w2))%Z
    /\ (total_subnets_checked (results w)
        = total_subnets_checked (results w1)
          + total_subnets_checked (results w2))%Z.
Proof.
  intros H1 H2.
  destruct (analyze_ip_usage_no_bad_mask_return target (vnets1 ++ vnets2))
    as [w Hw].
  { intros p Hp. unfold prefix_texts in Hp. rewrite flat_map_app in Hp.
    apply in_app_or in Hp. destruct Hp as [Hp | Hp].
    - apply (analyze_ip_usage_return_no_bad_mask _ _ _ H1 p Hp).
    - apply (analyze_ip_usage_return_no_bad_mask _ _ _ H2 p Hp). }
  exists w. split; [assumption|].
  rewrite (analyze_ip_usage_matches _ _ _ Hw),
    (analyze_ip_usage_matches _ _ _ H1), (analyze_ip_usage_matches _ _ _ H2).
  unfold record_matches. rewrite flat_map_app, bucketed_app.
  split; [reflexivity|].
  unfold analyze_ip_usage, analyze_ip_usage_from in Hw, H1, H2.
  apply analyze_vnets_counts in Hw, H1, H2. cbn in Hw, H1, H2.
  rewrite flat_map_app, !length_app in Hw. lia.
Qed.

Lemma analyze_ip_usage_app_witness :
  analyze_ip_usage ClassifierSpec.net_10_0_0_0_24 two_vnets
  = Return report_10_0_0_0_24
  /\ exists w,
      analyze_ip_usage ClassifierSpec.net_10_0_0_0_24 (two_vnets ++ two_vnets)
      = Return w
      /\ matches (results w)
         = matches_app (matches (results report_10_0_0_0_24))
             (matches (results report_10_0_0_0_24)).
Proof.
  split; [reflexivity|].
  destruct (analyze_ip_usage_app ClassifierSpec.net_10_0_0_0_24 two_vnets two_vnets
              report_10_0_0_0_24 report_10_0_0_0_24 eq_refl eq_refl)
    as (w & Hw & Hm & _).
  exists w. split; [exact Hw | exact Hm].
Defined.

(** *** Buckets that stay empty *)

Lemma filter_none {A : Type} (f : A -> bool) (l : list A) :
  (forall x, In x l -> f x = false) -> filter f l = [].
Proof.
  induction l as [|x rest IH]; intros H; cbn [filter]; [reflexivity|].
  rewrite (H x (or_introl eq_refl)). apply IH.
  intros y Hy. apply H. right. assumption.
Qed.

(** Where the relationship of a recorded Match comes from. *)
Lemma record_matches_relationship target vnets mi :
  In mi (record_matches target vnets) ->
  (prefixlen target = 32%Z /\ relationship mi = "host_in_subnet")
  \/ exists n, well_formed n = true
               /\ relationship mi = is_subnet_overlap target n.
Proof.
  unfold record_matches. rewrite in_flat_map. intros (v & _ & Hin).
  unfold vnet_matches in Hin. apply in_app_or in Hin.
  destruct Hin as [Hin | Hin]; apply in_flat_map in Hin.
  - destruct Hin as (p & _ & Hin). unfold vnet_record_match in Hin.
    destruct (IPv4Network_nonstrict p) as [n|e] eqn:Hp; [|destruct Hin].
    destruct (_ =? "none"); [destruct Hin|].
    destruct Hin as [<- | []]. right. exists n.
    split; [apply (IPv4Network_nonstrict_well_formed _ _ Hp) | reflexivity].
  - destruct Hin as (subnet & _ & Hin). unfold subnet_record_match in Hin.
    destruct (IPv4Network_nonstrict (address_prefix subnet)) as [n|e] eqn:Hp;
      [|destruct Hin].
    destruct (Z.eqb_spec (prefixlen target) 32) as [H32 | H32]; cbn [andb] in Hin.
    + destruct (check_host_in_network target n).
      * destruct Hin as [<- | []]. left. split; [assumption | reflexivity].
      * destruct (_ =? "none"); [destruct Hin|].
        destruct Hin as [<- | []]. right. exists n.
        split; [apply (IPv4Network_nonstrict_well_formed _ _ Hp) | reflexivity].
    + destruct (_ =? "none"); [destruct Hin|].
      destruct Hin as [<- | []]. right. exists n.
      split; [apply (IPv4Network_nonstrict_well_formed _ _ Hp) | reflexivity].
Qed.

Lemma never_overlap target n :
  well_formed target = true -> well_formed n = true ->
  is_subnet_overlap target n <> "overlap".
Proof. apply ClassifierSpec.is_subnet_overlap_never_overlap. Qed.

Lemma host_never_contains target n :
  well_formed target = true -> prefixlen target = 32%Z ->
  well_formed n = true ->
  is_subnet_overlap target n <> "contains".
Proof.
  intros Ht H32 Hn. unfold is_subnet_overlap.
  destruct (eqb target n) eqn:E1; [discriminate|].
  destruct (supernet_of target n) eqn:E2.
  - exfalso. unfold supernet_of in E2. fold (subnet_of n target) in E2.
    pose proof (subnet_of_prefixlen n target Hn Ht E2) as Hlen.
    assert (Hp : (0 <= prefixlen n <= 32)%Z).
    { apply well_formed_spec in Hn. tauto. }
    assert (Hint : ranges_intersect target n).
    { exists (network_address n).
      pose proof (network_address_range n Hn).
      pose proof (contains_network_address n Hn).
      apply (subnet_of_included n target Hn Ht) in E2.
      split; [assumption|]. split; [apply E2; assumption | assumption]. }
    assert (target = n).
    { apply subnet_of_antisym; try assumption.
      apply intersect_nested; try assumption. lia. }
    subst n. rewrite eqb_refl in E1. discriminate.
  - destruct (subnet_of target n); [discriminate|].
    destruct (overlaps target n); discriminate.
Qed.

(** X14. In every report for a well-formed target the overlap bucket is
    empty; the host_in_subnet bucket is empty unless the target has prefix
    length 32; and for a target of prefix length 32 the contains bucket is
    empty. *)
Theorem analyze_ip_usage_empty_buckets
        (target : IPv4Network) (vnets : list VNet) (w : World) :
  well_formed target = true ->
  analyze_ip_usage target vnets = Return w ->
  m_overlap (matches (results w)) = []
  /\ (prefixlen target <> 32%Z -> m_host_in_subnet (matches (results w)) = [])
  /\ (prefixlen target = 32%Z -> m_contains (matches (results w)) = []).
Proof.
  intros Ht H. rewrite (analyze_ip_usage_matches _ _ _ H). cbn.
  split; [|split].
  - apply filter_none. intros mi Hmi. unfold has_relationship.
    apply record_matches_relationship in Hmi.
    destruct Hmi as [[_ ->] | (n & Hn & ->)]; [reflexivity|].
    apply String.eqb_neq. apply never_overlap; assumption.
  - intros H32. apply filter_none. intros mi Hmi. unfold has_relationship.
    apply record_matches_relationship in Hmi.
    destruct Hmi as [[Hc _] | (n & Hn & ->)]; [contradiction|].
    apply String.eqb_neq.
    destruct (ClassifierSpec.is_subnet_overlap_values target n)
      as [E|[E|[E|[E|[E|[]]]]]]; rewrite <- E; discriminate.
  - intros H32. apply filter_none. intros mi Hmi. unfold has_relationship.
    apply record_matches_relationship in Hmi.
    destruct Hmi as [[_ ->] | (n & Hn & ->)]; [reflexivity|].
    apply String.eqb_neq. apply host_never_contains; assumption.
Qed.

Lemma analyze_ip_usage_empty_buckets_witness :
  well_formed ClassifierSpec.net_10_0_0_0_24 = true
  /\ analyze_ip_usage ClassifierSpec.net_10_0_0_0_24 two_vnets
     = Return report_10_0_0_0_24
  /\ m_overlap (matches (results report_10_0_0_0_24)) = [].
Proof.
  split; [reflexivity|]. split; [reflexivity|].
  exact (proj1 (analyze_ip_usage_empty_buckets ClassifierSpec.net_10_0_0_0_24
                  two_vnets report_10_0_0_0_24 eq_refl eq_refl)).
Defined.

(** *** Records that leave no trace *)

Lemma for_each_vnets_header target vnets w w' :
  for_each vnets (_analyze_vnet target) w = Return w' ->
  target_network (results w') = target_network (results w)
  /\ is_host (results w') = is_host (results w).
Proof.
  apply (for_each_invariant
           (fun u => target_network (results u) = target_network (results w)
                     /\ is_host (results u) = is_host (results w)));
    [|split; reflexivity].
  intros v u u' _ [Ht Hh]. rewrite _analyze_vnet_unfold.
  destruct (for_each (address_prefixes v) _ _) as [u1|e] eqn:H1;
    cbn [bind]; [|discriminate].
  assert (F1 : target_network (results u1) = target_network (results w)
               /\ is_host (results u1) = is_host (results w)).
  { revert H1.
    apply (for_each_invariant
             (fun x => target_network (results x) = target_network (results w)
                       /\ is_host (results x) = is_host (results w)));
      [|cbn; split; assumption].
    intros p x x' _ [Hxt Hxh] Hstep.
    apply _analyze_vnet_prefix_frame in Hstep.
    destruct Hstep as (Ft & Fh & _). split; congruence. }
  apply (for_each_invariant
           (fun x => target_network (results x) = target_network (results w)
                     /\ is_host (results x) = is_host (results w)));
    [|exact F1].
  intros subnet x x' _ [Hxt Hxh]. unfold subnet_iteration.
  destruct (_analyze_subnet target subnet _ _ x) as [x1|e] eqn:Hs;
    cbn [bind]; [|discriminate].
  intros [= <-]. apply _analyze_subnet_frame in Hs.
  destruct Hs as (Ft & Fh & _). cbn. split; congruence.
Qed.

Lemma flat_map_filter_nil {A B : Type} (f : A -> list B) (keep : A -> bool)
      (l : list A) :
  (forall x, keep x = false -> f x = []) ->
  flat_map f (filter keep l) = flat_map f l.
Proof.
  intros H. induction l as [|x rest IH]; cbn [filter flat_map]; [reflexivity|].
  destruct (keep x) eqn:E; cbn [flat_map]; rewrite IH; [reflexivity|].
  rewrite (H x E). reflexivity.
Qed.

Lemma vnet_matches_without_bad_addresses target v :
  vnet_matches target (without_bad_addresses v) = vnet_matches target v.
Proof.
  unfold vnet_matches, without_bad_addresses.
  cbn [name resource_group_of address_prefixes subnets].
  rewrite flat_map_filter_nil; [reflexivity|].
  intros p Hp. apply negb_false_iff in Hp.
  unfold bad_address in Hp. unfold vnet_record_match.
  destruct (IPv4Network_nonstrict p) as [n|[|]]; try discriminate. reflexivity.
Qed.

(** X15. Address-space prefixes whose address part is malformed leave no
    trace in the returned dictionary: the analysis of the discovered
    networks without those prefixes returns as well, with the same target
    text, host flag, buckets and counters. *)
Theorem analyze_ip_usage_ignores_bad_addresses
        (target : IPv4Network) (vnets : list VNet) (w : World) :
  analyze_ip_usage target vnets = Return w ->
  exists w',
    analyze_ip_usage target (map without_bad_addresses vnets) = Return w'
    /\ results w' = results w.
Proof.
  intros H.
  destruct (analyze_ip_usage_no_bad_mask_return target
              (map without_bad_addresses vnets)) as [w' Hw'].
  { intros p Hp.
    apply (analyze_ip_usage_return_no_bad_mask _ _ _ H).
    unfold prefix_texts in *. apply in_flat_map in Hp.
    destruct Hp as (v' & Hv' & Hp). apply in_map_iff in Hv'.
    destruct Hv' as (v & <- & Hv). apply in_flat_map. exists v.
    split; [assumption|].
    cbn [without_bad_addresses address_prefixes subnets] in Hp.
    apply in_app_or in Hp. apply in_or_app.
    destruct Hp as [Hp | Hp]; [left | right; assumption].
    apply filter_In in Hp. tauto. }
  exists w'. split; [assumption|].
  pose proof (analyze_ip_usage_matches _ _ _ H) as Hm.
  pose proof (analyze_ip_usage_matches _ _ _ Hw') as Hm'.
  assert (Hrec : record_matches target (map without_bad_addresses vnets)
                 = record_matches target vnets).
  { unfold record_matches. clear.
    induction vnets as [|v rest IH]; cbn [map flat_map]; [reflexivity|].
    rewrite IH, vnet_matches_without_bad_addresses. reflexivity. }
  rewrite Hrec in Hm'.
  unfold analyze_ip_usage, analyze_ip_usage_from in H, Hw'.
  pose proof (for_each_vnets_header _ _ _ _ H) as [Ht Hh].
  pose proof (for_each_vnets_header _ _ _ _ Hw') as [Ht' Hh'].
  apply analyze_vnets_counts in H, Hw'. cbn in H, Hw', Ht, Hh, Ht', Hh'.
  assert (Hsub : flat_map subnets (map without_bad_addresses vnets)
                 = flat_map subnets vnets).
  { clear. induction vnets as [|v rest IH]; cbn [map flat_map]; [reflexivity|].
    rewrite IH. reflexivity. }
  rewrite Hsub, length_map in Hw'.
  destruct H as [Hv Hs]. destruct Hw' as [Hv' Hs'].
  destruct (results w') as [t' h' m' v' s'], (results w) as [t0 h0 m0 v0 s0].
  cbn in *. congruence.
Qed.

Definition noisy_vnets : list VNet :=
  [ mkVNet "vnet-a" "rg-1" ["fd00::/48"; "10.0.0.0/16"; "10.0.0/16"]
      [mkSubnet "front" "10.0.0.0/24"] ].

Definition noisy_report : World :=
  match analyze_ip_usage ClassifierSpec.net_10_0_0_0_24 noisy_vnets with
  | Return w => w
  | Raise _ => empty_world
  end.

Lemma analyze_ip_usage_ignores_bad_addresses_witness :
  analyze_ip_usage ClassifierSpec.net_10_0_0_0_24 noisy_vnets = Return noisy_report
  /\ exists w',
      analyze_ip_usage ClassifierSpec.net_10_0_0_0_24
        (map without_bad_addresses noisy_vnets) = Return w'
      /\ results w' = results noisy_report.
Proof.
  split; [reflexivity|].
  apply (analyze_ip_usage_ignores_bad_addresses ClassifierSpec.net_10_0_0_0_24
           noisy_vnets noisy_report eq_refl).
Defined.

End AnalyzerMore.

(** * [core/subnet_analyzer.py]: [print_summary] *)

Module SubnetAnalyzerSummary.

Import ipaddress IPValidator SubnetAnalyzer.

Local Open Scope string_scope.

Definition WHITE : string := Fore.ESC +++ "[37m".

(** The bullet U+2022 of the detail lines, as its three UTF-8 bytes. *)
Definition BULLET : string :=
  String (ascii_of_nat 226) (String (ascii_of_nat 128)
    (String (ascii_of_nat 162) EmptyString)).

(** [s * n]. *)
Fixpoint repeat_string (s : string) (n : nat) : string :=
  match n with
  | O => EmptyString
  | S k => s +++ repeat_string s k
  end.

(** [str(n)] for any integer. *)
Definition str_int (n : Z) : string :=
  if (n <? 0)%Z then "-" +++ PyStr.str_of_int (- n) else PyStr.str_of_int n.

(** [s.replace(old, new)] for one-character strings [old] and [new]. *)
Fixpoint replace_char (old new : ascii) (s : string) : string :=
  match s with
  | EmptyString => EmptyString
  | String c r =>
      String (if Ascii.eqb c old then new else c) (replace_char old new r)
  end.

Definition is_ascii_lower (c : ascii) : bool :=
  let n := PyStr.code c in ((97 <=? n) && (n <=? 122))%Z.

Definition is_ascii_upper (c : ascii) : bool :=
  let n := PyStr.code c in ((65 <=? n) && (n <=? 90))%Z.

Definition ascii_upper (c : ascii) : ascii :=
  ascii_of_N (Z.to_N (PyStr.code c - 32)).

(** [s.title()] on ASCII text, as the bucket keys are: a letter that follows
    a letter is made lower case, any other letter upper case. *)
Fixpoint title_from (previous_is_cased : bool) (s : string) : string :=
  match s with
  | EmptyString => EmptyString
  | String c r =>
      if is_ascii_lower c then
        String (if previous_is_cased then c else ascii_upper c) (title_from true r)
      else if is_ascii_upper c then
        String (if previous_is_cased then PyStr.lower_char c else c)
          (title_from true r)
      else String c (title_from false r)
  end.

Definition title (s : string) : string := title_from false s.

(** [results['matches'].items()], in the order the keys were inserted. *)
Definition items (m : Matches) : list (string * list MatchInfo) :=
  [ ("exact", m_exact m); ("contains", m_contains m);
    ("contained", m_contained m); ("overlap", m_overlap m);
    ("host_in_subnet", m_host_in_subnet m) ].

(** The line printed for one Match. *)
Definition match_line (mi : MatchInfo) : string :=
  let location := resource_group mi +++ "/" +++ vnet_name mi in
  let location :=
    match subnet_name mi with
    | Some subnet_name => location +++ "/" +++ subnet_name
    | None => location
    end in
  "  " +++ BULLET +++ " " +++ network mi +++ " in " +++ location.

(** The lines printed for one bucket: nothing for an empty one. *)
Definition bucket_lines (item : string * list MatchInfo) : list string :=
  let '(match_type, matches) := item in
  match matches with
  | [] => []
  | _ :: _ =>
      let type_name := title (replace_char "_" " " match_type) in
      (NL +++ Fore.YELLOW +++ type_name +++ " ("
       +++ str_int (Z.of_nat (List.length matches)) +++ "):" +++ Style.RESET_ALL)
      :: map match_line matches
  end.

Definition rule : string :=
  Fore.CYAN +++ repeat_string "=" 60 +++ Style.RESET_ALL.

Definition available_line : string :=
  NL +++ Fore.GREEN +++ "No matches found - Address space is available"
  +++ Style.RESET_ALL.

(** [print_summary(results)]: the lines it prints, in order. *)
Definition print_summary (results : Results) : list string :=
  let head :=
    [ NL +++ rule;
      Fore.CYAN +++ "ANALYSIS SUMMARY" +++ Style.RESET_ALL;
      rule;
      "Target network: " +++ WHITE +++ target_network results +++ Style.RESET_ALL;
      "Type: " +++ WHITE
      +++ (if is_host results then "Single host" else "Network range")
      +++ Style.RESET_ALL;
      "VNets checked: " +++ WHITE +++ str_int (total_vnets_checked results)
      +++ Style.RESET_ALL;
      "Subnets checked: " +++ WHITE +++ str_int (total_subnets_checked results)
      +++ Style.RESET_ALL ] in
  let total_matches :=
    fold_left (fun acc item => (acc + Z.of_nat (List.length (snd item)))%Z)
      (items (matches results)) 0%Z in
  let body :=
    if (total_matches =? 0)%Z then [available_line]
    else
      (NL +++ Fore.RED +++ "Found " +++ str_int total_matches +++ " match(es):"
       +++ Style.RESET_ALL)
      :: flat_map bucket_lines (items (matches results)) in
  (head ++ body ++ [NL +++ rule])%list.

End SubnetAnalyzerSummary.

(** ** What the summary shows *)

Module SummarySpec.

Import ipaddress IPValidator SubnetAnalyzer AnalyzerSpec AnalyzerMore.
Import SubnetAnalyzerSummary.

Local Open Scope string_scope.

(** All Matches of the report, bucket after bucket. *)
Definition all_matches (m : Matches) : list MatchInfo :=
  (m_exact m ++ m_contains m ++ m_contained m ++ m_overlap m
   ++ m_host_in_subnet m)%list.

(** A detail line starts with two spaces; no other line of the summary
    does. *)
Definition is_detail_line (line : string) : bool := String.prefix "  " line.

(** The line starts as the line of good news does. *)
Definition starts_green (line : string) : bool :=
  String.prefix (NL +++ Fore.GREEN) line.

Definition found_line (n : nat) : string :=
  NL +++ Fore.RED +++ "Found " +++ str_int (Z.of_nat n) +++ " match(es):"
  +++ Style.RESET_ALL.

Lemma is_detail_line_match_line mi : is_detail_line (match_line mi) = true.
Proof. reflexivity. Qed.

Lemma filter_detail_match_lines ms :
  filter is_detail_line (map match_line ms) = map match_line ms.
Proof.
  induction ms as [|mi rest IH]; cbn [map filter]; [reflexivity|].
  rewrite is_detail_line_match_line, IH. reflexivity.
Qed.

Lemma filter_detail_bucket_lines key ms :
  filter is_detail_line (bucket_lines (key, ms)) = map match_line ms.
Proof.
  destruct ms as [|mi rest]; [reflexivity|].
  unfold bucket_lines. cbn [filter].
  change (is_detail_line (NL +++ ?x)) with false.
  apply (filter_detail_match_lines (mi :: rest)).
Qed.

Lemma filter_green_bucket_lines key ms :
  filter starts_green (bucket_lines (key, ms)) = [].
Proof.
  destruct ms as [|mi rest]; [reflexivity|].
  unfold bucket_lines. cbn [filter].
  change (starts_green (NL +++ Fore.YELLOW +++ ?x)) with false.
  apply filter_none. intros line Hin. apply in_map_iff in Hin.
  destruct Hin as (x & <- & _). reflexivity.
Qed.

Lemma summary_total m :
  fold_left (fun acc item => (acc + Z.of_nat (List.length (snd item)))%Z)
    (items m) 0%Z
  = Z.of_nat (List.length (all_matches m)).
Proof.
  unfold items, all_matches. cbn [fold_left snd].
  rewrite !length_app. lia.
Qed.

Lemma all_matches_nil m :
  List.length (all_matches m) = 0%nat -> all_matches m = [].
Proof. destruct (all_matches m); [reflexivity | discriminate]. Qed.

Lemma flat_map_items_detail m :
  filter is_detail_line (flat_map bucket_lines (items m))
  = map match_line (all_matches m).
Proof.
  unfold items, all_matches. cbn [flat_map].
  rewrite !filter_app, !filter_detail_bucket_lines, !map_app.
  cbn [filter]. rewrite app_nil_r. reflexivity.
Qed.

Lemma flat_map_items_green m :
  filter starts_green (flat_map bucket_lines (items m)) = [].
Proof.
  unfold items. cbn [flat_map].
  rewrite !filter_app, !filter_green_bucket_lines. reflexivity.
Qed.

Lemma print_summary_green r :
  filter starts_green (print_summary r)
  = if Nat.eqb (List.length (all_matches (matches r))) 0
    then [available_line] else [].
Proof.
  unfold print_summary. rewrite summary_total.
  rewrite !filter_app.
  match goal with |- (filter starts_green ?h ++ _ ++ _)%list = _ =>
    change (filter starts_green h) with (@nil string) end.
  change (filter starts_green [NL +++ rule]) with (@nil string).
  destruct (List.length (all_matches (matches r))) as [|k] eqn:Hlen.
  - reflexivity.
  - replace (Z.of_nat (S k) =? 0)%Z with false
      by (symmetry; apply Z.eqb_neq; lia).
    cbn [filter Nat.eqb app].
    change (starts_green (NL +++ Fore.RED +++ ?x)) with false.
    rewrite flat_map_items_green. reflexivity.
Qed.

(** X16. The summary has one detail line for every Match of the report and
    no other: the detail lines are the lines of the Matches of the exact,
    contains, contained, overlap and host_in_subnet buckets, in this order
    and within a bucket in the order of the bucket. When there is a Match,
    the line "Found N match(es):" is printed with N the number of Matches;
    the line of good news is printed exactly when there is none. *)
Theorem print_summary_lists_every_match (r : Results) :
  filter is_detail_line (print_summary r)
  = map match_line (all_matches (matches r))
  /\ (all_matches (matches r) <> [] ->
      In (found_line (List.length (all_matches (matches r)))) (print_summary r))
  /\ (In available_line (print_summary r) <-> all_matches (matches r) = []).
Proof.
  split; [|split].
  - unfold print_summary. rewrite summary_total, !filter_app.
    match goal with |- (filter is_detail_line ?h ++ _ ++ _)%list = _ =>
      change (filter is_detail_line h) with (@nil string) end.
    change (filter is_detail_line [NL +++ rule]) with (@nil string).
    rewrite app_nil_r. cbn [app].
    destruct (List.length (all_matches (matches r))) as [|k] eqn:Hlen.
    + rewrite (all_matches_nil _ Hlen). reflexivity.
    + replace (Z.of_nat (S k) =? 0)%Z with false
        by (symmetry; apply Z.eqb_neq; lia).
      cbn [filter].
      change (is_detail_line (NL +++ ?x)) with false.
      apply flat_map_items_detail.
  - intros Hne. unfold print_summary. rewrite summary_total.
    destruct (List.length (all_matches (matches r))) as [|k] eqn:Hlen.
    + apply all_matches_nil in Hlen. contradiction.
    + replace (Z.of_nat (S k) =? 0)%Z with false
        by (symmetry; apply Z.eqb_neq; lia).
      apply in_or_app. right. apply in_or_app. left. left. reflexivity.
  - split.
    + intros Hin.
      assert (Hg : In available_line (filter starts_green (print_summary r))).
      { apply filter_In. split; [assumption | reflexivity]. }
      rewrite print_summary_green in Hg.
      destruct (List.length (all_matches (matches r))) as [|k] eqn:Hlen;
        [apply all_matches_nil; assumption | destruct Hg].
    + intros Hnil. unfold print_summary. rewrite summary_total, Hnil.
      apply in_or_app. right. left. reflexivity.
Qed.

Lemma print_summary_lists_every_match_witness :
  all_matches (matches (results report_10_0_0_0_24)) <> []
  /\ In (found_line 2) (print_summary (results report_10_0_0_0_24)).
Proof.
  split; [discriminate|].
  apply (print_summary_lists_every_match (results report_10_0_0_0_24)).
  discriminate.
Defined.

(** *** From the discovered records to the summary *)

Lemma classified_key target n :
  (is_subnet_overlap target n =? "none") = false ->
  In (is_subnet_overlap target n) bucket_keys.
Proof.
  destruct (ClassifierSpec.is_subnet_overlap_values target n)
    as [E|[E|[E|[E|[E|[]]]]]]; rewrite <- E; cbn; try tauto; discriminate.
Qed.

Lemma record_matches_keyed target vnets mi :
  In mi (record_matches target vnets) -> In (relationship mi) bucket_keys.
Proof.
  unfold record_matches. rewrite in_flat_map. intros (v & _ & Hin).
  unfold vnet_matches in Hin. apply in_app_or in Hin.
  destruct Hin as [Hin | Hin]; apply in_flat_map in Hin.
  - destruct Hin as (p & _ & Hin). unfold vnet_record_match in Hin.
    destruct (IPv4Network_nonstrict p) as [n|e]; [|destruct Hin].
    destruct (_ =? "none") eqn:E; [destruct Hin|].
    destruct Hin as [<- | []]. apply classified_key. assumption.
  - destruct Hin as (subnet & _ & Hin). unfold subnet_record_match in Hin.
    destruct (IPv4Network_nonstrict (address_prefix subnet)) as [n|e];
      [|destruct Hin].
    destruct (_ && _).
    + destruct Hin as [<- | []]. cbn. tauto.
    + destruct (_ =? "none") eqn:E; [destruct Hin|].
      destruct Hin as [<- | []]. apply classified_key. assumption.
Qed.

Lemma all_matches_bucketed_nil l :
  (forall mi, In mi l -> In (relationship mi) bucket_keys) ->
  all_matches (bucketed l) = [] -> l = [].
Proof.
  destruct l as [|mi rest]; [reflexivity|]. intros Hkeys Hnil. exfalso.
  specialize (Hkeys mi (or_introl eq_refl)).
  unfold all_matches, bucketed in Hnil. cbn [m_exact m_contains m_contained
    m_overlap m_host_in_subnet filter] in Hnil.
  unfold has_relationship in Hnil. unfold bucket_keys in Hkeys.
  repeat (destruct Hkeys as [E | Hkeys];
          [rewrite <- E in Hnil; cbn in Hnil;
           repeat (apply app_eq_nil in Hnil; destruct Hnil as [? Hnil]);
           discriminate|]).
  destruct Hkeys.
Qed.

Lemma flat_map_nil {A B : Type} (f : A -> list B) (l : list A) :
  flat_map f l = [] <-> forall x, In x l -> f x = [].
Proof.
  induction l as [|x rest IH]; cbn [flat_map].
  - split; [intros _ y [] | reflexivity].
  - split.
    + intros H. apply app_eq_nil in H. destruct H as [Hx Hr].
      intros y [<- | Hy]; [assumption | apply IH; assumption].
    + intros H. rewrite (H x (or_introl eq_refl)). cbn [app].
      apply IH. intros y Hy. apply H. right. assumption.
Qed.

Lemma vnet_record_match_nil target vnet_name resource_group prefix :
  vnet_record_match target vnet_name resource_group prefix = []
  <-> forall n, IPv4Network_nonstrict prefix = Return n ->
                is_subnet_overlap target n = "none".
Proof.
  unfold vnet_record_match.
  destruct (IPv4Network_nonstrict prefix) as [n|e].
  - destruct (String.eqb_spec (is_subnet_overlap target n) "none") as [E|E].
    + split; [intros _ m [= <-]; assumption | reflexivity].
    + split; [discriminate|]. intros H. exfalso. apply E, H. reflexivity.
  - split; [intros _ m; discriminate | reflexivity].
Qed.

Lemma subnet_record_match_nil target vnet_name resource_group subnet :
  subnet_record_match target vnet_name resource_group subnet = []
  <-> forall n, IPv4Network_nonstrict (address_prefix subnet) = Return n ->
                is_subnet_overlap target n = "none".
Proof.
  unfold subnet_record_match.
  destruct (IPv4Network_nonstrict (address_prefix subnet)) as [n|e].
  - destruct (check_host_in_network target n) eqn:Hhost.
    + pose proof (host_inside_not_none target n Hhost) as Hnot.
      assert (H32 : (prefixlen target =? 32)%Z = true).
      { unfold check_host_in_network in Hhost.
        destruct (prefixlen target =? 32)%Z; [reflexivity | discriminate]. }
      rewrite H32. cbn [andb].
      split; [discriminate|]. intros H. exfalso. apply Hnot, H. reflexivity.
    + rewrite andb_false_r.
      destruct (String.eqb_spec (is_subnet_overlap target n) "none") as [E|E].
      * split; [intros _ m [= <-]; assumption | reflexivity].
      * split; [discriminate|]. intros H. exfalso. apply E, H. reflexivity.
  - split; [intros _ m; discriminate | reflexivity].
Qed.

Lemma record_matches_nil target vnets :
  record_matches target vnets = []
  <-> forall p n, In p (prefix_texts vnets) ->
                  IPv4Network_nonstrict p = Return n ->
                  is_subnet_overlap target n = "none".
Proof.
  unfold record_matches. rewrite flat_map_nil. split.
  - intros H p n Hp Hparse. unfold prefix_texts in Hp.
    apply in_flat_map in Hp. destruct Hp as (v & Hv & Hp).
    specialize (H v Hv). unfold vnet_matches in H.
    apply app_eq_nil in H. destruct H as [H1 H2].
    apply in_app_or in Hp. destruct Hp as [Hp | Hp].
    + rewrite flat_map_nil in H1. specialize (H1 p Hp).
      exact (proj1 (vnet_record_match_nil _ _ _ _) H1 n Hparse).
    + apply in_map_iff in Hp. destruct Hp as (subnet & <- & Hs).
      rewrite flat_map_nil in H2. specialize (H2 subnet Hs).
      exact (proj1 (subnet_record_match_nil _ _ _ _) H2 n Hparse).
  - intros H v Hv. unfold vnet_matches.
    assert (H1 : flat_map (vnet_record_match target (name v) (resource_group_of v))
                   (address_prefixes v) = []).
    { apply flat_map_nil. intros p Hp. apply vnet_record_match_nil.
      intros n Hn. apply (H p n); [|assumption].
      apply (in_prefix_texts_vnet vnets v p Hv Hp). }
    assert (H2 : flat_map (subnet_record_match target (name v) (resource_group_of v))
                   (subnets v) = []).
    { apply flat_map_nil. intros subnet Hs. apply subnet_record_match_nil.
      intros n Hn. apply (H (address_prefix subnet) n); [|assumption].
      apply (in_prefix_texts_subnet vnets v subnet Hv Hs). }
    rewrite H1, H2. reflexivity.
Qed.

Lemma available_iff_no_match r :
  In available_line (print_summary r) <-> all_matches (matches r) = [].
Proof.
  split.
  - intros Hin.
    assert (Hg : In available_line (filter starts_green (print_summary r))).
    { apply filter_In. split; [assumption | reflexivity]. }
    rewrite print_summary_green in Hg.
    destruct (List.length (all_matches (matches r))) as [|k] eqn:Hlen;
      [apply all_matches_nil; assumption | destruct Hg].
  - intros Hnil. unfold print_summary. rewrite summary_total, Hnil.
    apply in_or_app. right. left. reflexivity.
Qed.

(** X17. From the discovered networks to the last screen: when the analysis
    returns, its summary shows the line "No matches found - Address space is
    available" exactly when every address-space prefix and every subnet
    prefix that parses classifies as "none" against the target. *)
Theorem summary_available_iff_all_none
        (target : IPv4Network) (vnets : list VNet) (w : World) :
  analyze_ip_usage target vnets = Return w ->
  In available_line (print_summary (results w))
  <-> forall p n, In p (prefix_texts vnets) ->
                  IPv4Network_nonstrict p = Return n ->
                  is_subnet_overlap target n = "none".
Proof.
  intros H. rewrite available_iff_no_match, <- record_matches_nil.
  rewrite (analyze_ip_usage_matches _ _ _ H). split.
  - apply all_matches_bucketed_nil. intros mi.
    apply record_matches_keyed.
  - intros ->. reflexivity.
Qed.

Definition far_vnets : list VNet :=
  [ mkVNet "vnet-b" "rg-1" ["192.168.0.0/16"; "not-a-prefix"]
      [mkSubnet "default" "192.168.1.0/24"] ].

Definition far_report : World :=
  match analyze_ip_usage ClassifierSpec.net_10_0_0_0_24 far_vnets with
  | Return w => w
  | Raise _ => empty_world
  end.

Lemma summary_available_iff_all_none_witness :
  analyze_ip_usage ClassifierSpec.net_10_0_0_0_24 far_vnets = Return far_report
  /\ (In available_line (print_summary (results far_report))
      <-> forall p n, In p (prefix_texts far_vnets) ->
                      IPv4Network_nonstrict p = Return n ->
                      is_subnet_overlap ClassifierSpec.net_10_0_0_0_24 n = "none").
Proof.
  split; [reflexivity|].
  apply (summary_available_iff_all_none ClassifierSpec.net_10_0_0_0_24
           far_vnets far_report eq_refl).
Defined.

End SummarySpec.

(** * The text of a network *)

Module NetworkText.

Import ipaddress IPValidator SubnetAnalyzer NetworkFacts AnalyzerSpec AnalyzerMore.

Local Open Scope string_scope.

(** What the decimal text of an octet has to satisfy to be read back. *)
Definition octet_text_ok (k : Z) : bool :=
  let s := PyStr.str_of_int k in
  negb (PyStr.contains "/" s) && negb (PyStr.contains "." s) && PyStr.truthy s
  && match _parse_octet s with
     | Some v => (v =? k)%Z
     | None => false
     end.

Definition prefix_text_ok (p : Z) : bool :=
  let s := PyStr.str_of_int p in
  negb (PyStr.contains "/" s)
  && match _make_netmask (MaskStr s) with
     | Return (m, q) => (q =? p)%Z && (m =? _ip_int_from_prefix p)%Z
     | Raise _ => false
     end.

Lemma below_cases (ok : Z -> bool) (bound : nat) :
  forallb (fun n => ok (Z.of_nat n)) (seq 0 bound) = true ->
  forall k, (0 <= k < Z.of_nat bound)%Z -> ok k = true.
Proof.
  intros Hall k Hk. rewrite forallb_forall in Hall.
  specialize (Hall (Z.to_nat k)). rewrite Z2Nat.id in Hall by lia.
  apply Hall, in_seq. lia.
Qed.

Lemma octet_text k :
  (0 <= k < 256)%Z ->
  PyStr.contains "/" (PyStr.str_of_int k) = false
  /\ PyStr.contains "." (PyStr.str_of_int k) = false
  /\ PyStr.truthy (PyStr.str_of_int k) = true
  /\ _parse_octet (PyStr.str_of_int k) = Some k.
Proof.
  intros Hk.
  assert (H : octet_text_ok k = true).
  { apply (below_cases octet_text_ok 256); [vm_compute; reflexivity | exact Hk]. }
  unfold octet_text_ok in H.
  apply andb_true_iff in H. destruct H as [H H4].
  apply andb_true_iff in H. destruct H as [H H3].
  apply andb_true_iff in H. destruct H as [H1 H2].
  apply negb_true_iff in H1. apply negb_true_iff in H2.
  repeat split; try assumption.
  destruct (_parse_octet (PyStr.str_of_int k)) as [v|]; [|discriminate].
  apply Z.eqb_eq in H4. congruence.
Qed.

Lemma prefix_text p :
  (0 <= p <= 32)%Z ->
  PyStr.contains "/" (PyStr.str_of_int p) = false
  /\ _make_netmask (MaskStr (PyStr.str_of_int p))
     = Return (_ip_int_from_prefix p, p).
Proof.
  intros Hp.
  assert (H : prefix_text_ok p = true).
  { apply (below_cases prefix_text_ok 33); [vm_compute; reflexivity | lia]. }
  unfold prefix_text_ok in H.
  apply andb_true_iff in H. destruct H as [H1 H2].
  apply negb_true_iff in H1. split; [assumption|].
  destruct (_make_netmask (MaskStr (PyStr.str_of_int p))) as [[m q]|];
    [|discriminate].
  apply andb_true_iff in H2. destruct H2 as [Hq Hm].
  apply Z.eqb_eq in Hq. apply Z.eqb_eq in Hm. congruence.
Qed.

Lemma contains_append c x y :
  PyStr.contains c (x +++ y) = PyStr.contains c x || PyStr.contains c y.
Proof.
  induction x as [|d r IH]; cbn [append PyStr.contains]; [reflexivity|].
  rewrite IH. apply orb_assoc.
Qed.

Lemma split_no_separator c s :
  PyStr.contains c s = false -> PyStr.split c s = [s].
Proof.
  induction s as [|d r IH]; cbn [PyStr.contains PyStr.split]; [reflexivity|].
  intros H. apply orb_false_iff in H. destruct H as [Hd Hr].
  rewrite Hd, (IH Hr). reflexivity.
Qed.

Lemma truthy_append x y : PyStr.truthy x = true -> PyStr.truthy (x +++ y) = true.
Proof. destruct x; [discriminate | reflexivity]. Qed.

(** The four octets of a 32-bit address put together again. *)
Lemma octets_value ip :
  (0 <= ip <= _ALL_ONES)%Z ->
  int_from_bytes_big
    [(Z.shiftr ip 24 mod 256)%Z; (Z.shiftr ip 16 mod 256)%Z;
     (Z.shiftr ip 8 mod 256)%Z; (ip mod 256)%Z] = ip.
Proof.
  intros Hip. unfold int_from_bytes_big, _ALL_ONES in *. cbn [fold_left].
  rewrite !Z.shiftr_div_pow2 by lia.
  change (2 ^ 24)%Z with 16777216%Z. change (2 ^ 16)%Z with 65536%Z.
  change (2 ^ 8)%Z with 256%Z. change (2 ^ 32)%Z with 4294967296%Z in Hip.
  Z.div_mod_to_equations. lia.
Qed.

Lemma join_dotted a b c d :
  PyStr.join "." [a; b; c; d]
  = a +++ String "." (b +++ String "." (c +++ String "." d)).
Proof. reflexivity. Qed.

Lemma IPv4Address_of_text ip :
  (0 <= ip <= _ALL_ONES)%Z ->
  PyStr.contains "/" (_string_from_ip_int ip) = false
  /\ IPv4Address (_string_from_ip_int ip) = Return ip.
Proof.
  intros Hip.
  assert (Hmod : forall z, (0 <= z mod 256 < 256)%Z).
  { intros z. apply Z.mod_pos_bound. lia. }
  destruct (octet_text _ (Hmod (Z.shiftr ip 24))) as (S3 & D3 & T3 & P3).
  destruct (octet_text _ (Hmod (Z.shiftr ip 16))) as (S2 & D2 & T2 & P2).
  destruct (octet_text _ (Hmod (Z.shiftr ip 8))) as (S1 & D1 & T1 & P1).
  destruct (octet_text _ (Hmod ip)) as (S0 & D0 & T0 & P0).
  unfold _string_from_ip_int. cbn [map]. rewrite join_dotted.
  set (t3 := PyStr.str_of_int (Z.shiftr ip 24 mod 256)) in *.
  set (t2 := PyStr.str_of_int (Z.shiftr ip 16 mod 256)) in *.
  set (t1 := PyStr.str_of_int (Z.shiftr ip 8 mod 256)) in *.
  set (t0 := PyStr.str_of_int (ip mod 256)) in *.
  assert (Hslash : PyStr.contains "/"
                     (t3 +++ String "." (t2 +++ String "." (t1 +++ String "." t0)))
                   = false).
  { rewrite !contains_append. cbn [PyStr.contains].
    rewrite !contains_append. cbn [PyStr.contains].
    rewrite !contains_append. cbn [PyStr.contains].
    rewrite S3, S2, S1, S0. reflexivity. }
  split; [exact Hslash|].
  unfold IPv4Address. rewrite Hslash. unfold _ip_int_from_string.
  rewrite (truthy_append _ _ T3). cbn [negb].
  rewrite (ValidatorSpec.split_append "." t3 _ D3), (ValidatorSpec.split_append "." t2 _ D2),
    (ValidatorSpec.split_append "." t1 _ D1), (split_no_separator "." t0 D0).
  cbn [List.length Nat.eqb negb parse_octets].
  subst t3 t2 t1 t0. rewrite P3, P2, P1, P0.
  rewrite (octets_value ip Hip). reflexivity.
Qed.

Lemma IPv4Network_nonstrict_str n :
  well_formed n = true -> IPv4Network_nonstrict (str n) = Return n.
Proof.
  intros Hwf. apply well_formed_spec in Hwf.
  destruct Hwf as (Hp & Hm & Hr & Hl).
  destruct (IPv4Address_of_text _ Hr) as [Hslash Haddr].
  destruct (prefix_text _ Hp) as [Hpslash Hmask].
  unfold IPv4Network_nonstrict, _split_addr_prefix, _split_optional_netmask, str.
  change (append "/" ?x) with (String "/" x).
  rewrite (ValidatorSpec.split_append "/" _ _ Hslash),
    (split_no_separator "/" _ Hpslash).
  cbn [List.length Z.of_nat Pos.of_succ_nat Pos.succ Z.ltb Z.compare
       Pos.compare Pos.compare_cont bind].
  rewrite Haddr. cbn [bind]. rewrite Hmask. cbn [bind].
  rewrite <- Hm, Hl, Z.eqb_refl. cbn [negb].
  destruct n. reflexivity.
Qed.

(** X18. The text of a network is read back as that network: for every
    network as the constructor builds them, the constructor, in non-strict
    mode, turns [str(network)] into the same network again; so two
    different networks never have the same text, and reading a text and
    writing the network gives a text that reads as the same network. *)
Theorem str_round_trip (a b : IPv4Network) :
  well_formed a = true -> well_formed b = true ->
  IPv4Network_nonstrict (str a) = Return a
  /\ (str a = str b -> a = b)
  /\ (forall text n, IPv4Network_nonstrict text = Return n ->
                     IPv4Network_nonstrict (str n) = Return n).
Proof.
  intros Ha Hb. split; [|split].
  - apply IPv4Network_nonstrict_str. assumption.
  - intros Htext.
    pose proof (IPv4Network_nonstrict_str a Ha) as Hra.
    pose proof (IPv4Network_nonstrict_str b Hb) as Hrb.
    rewrite Htext in Hra. congruence.
  - intros text n Hparse. apply IPv4Network_nonstrict_str.
    apply (IPv4Network_nonstrict_well_formed _ _ Hparse).
Qed.

Lemma str_round_trip_witness :
  well_formed ClassifierSpec.net_10_0_0_0_24 = true
  /\ well_formed ClassifierSpec.net_10_0_0_0_16 = true
  /\ IPv4Network_nonstrict (str ClassifierSpec.net_10_0_0_0_24)
     = Return ClassifierSpec.net_10_0_0_0_24.
Proof.
  split; [reflexivity|]. split; [reflexivity|].
  apply (str_round_trip ClassifierSpec.net_10_0_0_0_24
           ClassifierSpec.net_10_0_0_0_16); reflexivity.
Defined.

(** Where a recorded Match comes from. *)
Lemma record_matches_origin target vnets mi :
  In mi (record_matches target vnets) ->
  exists n, well_formed n = true
            /\ network mi = str n
            /\ ((relationship mi = "host_in_subnet"
                 /\ check_host_in_network target n = true)
                \/ relationship mi = is_subnet_overlap target n).
Proof.
  unfold record_matches. rewrite in_flat_map. intros (v & _ & Hin).
  unfold vnet_matches in Hin. apply in_app_or in Hin.
  destruct Hin as [Hin | Hin]; apply in_flat_map in Hin.
  - destruct Hin as (p & _ & Hin). unfold vnet_record_match in Hin.
    destruct (IPv4Network_nonstrict p) as [n|e] eqn:Hp; [|destruct Hin].
    destruct (_ =? "none"); [destruct Hin|].
    destruct Hin as [<- | []]. exists n.
    split; [apply (IPv4Network_nonstrict_well_formed _ _ Hp)|].
    split; [reflexivity | right; reflexivity].
  - destruct Hin as (subnet & _ & Hin). unfold subnet_record_match in Hin.
    destruct (IPv4Network_nonstrict (address_prefix subnet)) as [n|e] eqn:Hp;
      [|destruct Hin].
    pose proof (IPv4Network_nonstrict_well_formed _ _ Hp) as Hwf.
    destruct (prefixlen target =? 32)%Z; cbn [andb] in Hin.
    + destruct (check_host_in_network target n) eqn:Hhost.
      * destruct Hin as [<- | []]. exists n.
        split; [assumption|].
        split; [reflexivity | left; split; [reflexivity | assumption]].
      * destruct (_ =? "none"); [destruct Hin|].
        destruct Hin as [<- | []]. exists n.
        split; [assumption|]. split; [reflexivity | right; reflexivity].
    + destruct (_ =? "none"); [destruct Hin|].
      destruct Hin as [<- | []]. exists n.
      split; [assumption|]. split; [reflexivity | right; reflexivity].
Qed.

(** X19. A returned report can be checked from its own texts: its
    [target_network] text reads back as the target, and the [network] text
    of every Match reads back as a network whose relationship to the target
    is the key of the bucket the Match lies in: the host check holds for a
    Match of the host_in_subnet bucket, and [is_subnet_overlap] gives the
    key of any other bucket. *)
Theorem report_texts_read_back
        (target : IPv4Network) (vnets : list VNet) (w : World) :
  well_formed target = true ->
  analyze_ip_usage target vnets = Return w ->
  IPv4Network_nonstrict (target_network (results w)) = Return target
  /\ forall key mi,
      In key bucket_keys -> In mi (bucket key (matches (results w))) ->
      exists n,
        IPv4Network_nonstrict (network mi) = Return n
        /\ ((key = "host_in_subnet" /\ check_host_in_network target n = true)
            \/ key = is_subnet_overlap target n).
Proof.
  intros Ht H. split.
  - unfold analyze_ip_usage, analyze_ip_usage_from in H.
    apply for_each_vnets_header in H. destruct H as [-> _]. cbn.
    apply IPv4Network_nonstrict_str. assumption.
  - intros key mi Hkey Hin.
    rewrite (analyze_ip_usage_matches _ _ _ H) in Hin.
    assert (Hrec : In mi (record_matches target vnets)
                   /\ relationship mi = key).
    { unfold bucket_keys in Hkey.
      repeat (destruct Hkey as [<- | Hkey];
              [cbn in Hin; apply filter_In in Hin; destruct Hin as [Hm Hr];
               unfold has_relationship in Hr; apply String.eqb_eq in Hr;
               split; assumption|]).
      destruct Hkey. }
    destruct Hrec as [Hm <-].
    destruct (record_matches_origin _ _ _ Hm) as (n & Hn & Htext & Hrel).
    exists n. rewrite Htext.
    split; [apply IPv4Network_nonstrict_str; assumption | exact Hrel].
Qed.

Lemma report_texts_read_back_witness :
  well_formed ClassifierSpec.net_10_0_0_0_24 = true
  /\ analyze_ip_usage ClassifierSpec.net_10_0_0_0_24 two_vnets
     = Return report_10_0_0_0_24
  /\ IPv4Network_nonstrict (target_network (results report_10_0_0_0_24))
     = Return ClassifierSpec.net_10_0_0_0_24.
Proof.
  split; [reflexivity|]. split; [reflexivity|].
  exact (proj1 (report_texts_read_back ClassifierSpec.net_10_0_0_0_24 two_vnets
                  report_10_0_0_0_24 eq_refl eq_refl)).
Defined.

End NetworkText.

(** * Host bits and private ranges *)

Module ValidatorNetworks.

Import ipaddress IPValidator SubnetAnalyzer NetworkFacts ValidatorSpec.

Local Open Scope string_scope.

(** The private ranges of RFC 1918. *)
Definition rfc1918 : list IPv4Network :=
  [net 10 0 0 0 8; net 172 16 0 0 12; net 192 168 0 0 16].

Lemma IPv4Address_no_slash text ip :
  IPv4Address text = Return ip -> PyStr.contains "/" text = false.
Proof.
  unfold IPv4Address. destruct (PyStr.contains "/" text); [discriminate|].
  reflexivity.
Qed.

(** X20. In non-strict mode host bits are cleared, never refused: for a
    text "address/mask" whose address part and mask part are each valid,
    the constructor returns the network whose address is the given address
    with the host bits set to zero, and this network contains the given
    address. *)
Theorem IPv4Network_nonstrict_clears_host_bits
        (address mask : string) (ip netmask prefixlen : Z) :
  IPv4Address address = Return ip ->
  PyStr.contains "/" mask = false ->
  _make_netmask (MaskStr mask) = Return (netmask, prefixlen) ->
  IPv4Network_nonstrict (address +++ "/" +++ mask)
  = Return (mkIPv4Network (Z.land ip netmask) netmask prefixlen)
  /\ contains (mkIPv4Network (Z.land ip netmask) netmask prefixlen) ip = true
  /\ well_formed (mkIPv4Network (Z.land ip netmask) netmask prefixlen) = true.
Proof.
  intros Haddr Hmask Hnet.
  assert (Hparse : IPv4Network_nonstrict (address +++ "/" +++ mask)
                   = Return (mkIPv4Network (Z.land ip netmask) netmask prefixlen)).
  { unfold IPv4Network_nonstrict, _split_addr_prefix, _split_optional_netmask.
    change (append "/" mask) with (String "/" mask).
    rewrite (split_append "/" address mask (IPv4Address_no_slash _ _ Haddr)),
      (NetworkText.split_no_separator "/" mask Hmask).
    cbn [List.length Z.of_nat Pos.of_succ_nat Pos.succ Z.ltb Z.compare
         Pos.compare Pos.compare_cont bind].
    rewrite Haddr. cbn [bind]. rewrite Hnet. cbn [bind].
    destruct (Z.eqb_spec (Z.land ip netmask) ip) as [E|E]; cbn [negb].
    - rewrite E. reflexivity.
    - reflexivity. }
  split; [exact Hparse|]. split.
  - unfold contains. cbn [ipaddress.netmask network_address].
    apply Z.eqb_refl.
  - apply (IPv4Network_nonstrict_well_formed _ _ Hparse).
Qed.

Lemma IPv4Network_nonstrict_clears_host_bits_witness :
  IPv4Address "10.0.0.5" = Return 167772165%Z
  /\ PyStr.contains "/" "24" = false
  /\ _make_netmask (MaskStr "24") = Return (4294967040%Z, 24%Z)
  /\ IPv4Network_nonstrict ("10.0.0.5" +++ "/" +++ "24")
     = Return (mkIPv4Network (Z.land 167772165 4294967040) 4294967040 24).
Proof.
  split; [reflexivity|]. split; [reflexivity|]. split; [reflexivity|].
  exact (proj1 (IPv4Network_nonstrict_clears_host_bits "10.0.0.5" "24"
                  167772165 4294967040 24 eq_refl eq_refl eq_refl)).
Defined.

(** Membership of an in-range address, as a boolean. *)
Lemma contains_false q x :
  well_formed q = true -> (0 <= x <= _ALL_ONES)%Z ->
  ~ (network_address q <= x <= broadcast_address q)%Z ->
  contains q x = false.
Proof.
  intros Hq Hx Hout. destruct (contains q x) eqn:E; [|reflexivity].
  apply (contains_range q Hq x Hx) in E. contradiction.
Qed.

(** The two ends of a network inside an RFC 1918 range. *)
Lemma rfc1918_ends n p :
  well_formed n = true -> In p rfc1918 -> range_included n p ->
  well_formed p = true
  /\ In p _private_networks
  /\ (network_address p <= network_address n <= broadcast_address p)%Z
  /\ (network_address p <= broadcast_address n <= broadcast_address p)%Z
  /\ (167772160 <= network_address p)%Z
  /\ (broadcast_address p <= 3232301055)%Z
  /\ ((broadcast_address p < 3221225481)%Z \/ (3221225482 < network_address p)%Z).
Proof.
  intros Hn Hp Hinc.
  assert (Hwf : well_formed p = true).
  { unfold rfc1918 in Hp.
    repeat (destruct Hp as [<- | Hp]; [reflexivity|]). destruct Hp. }
  pose proof (Hinc _ (network_address_range n Hn)
                (contains_network_address n Hn)) as Hlo.
  pose proof (Hinc _ (broadcast_range n Hn)
                (contains_broadcast_address n Hn)) as Hhi.
  apply (contains_range p Hwf _ (network_address_range n Hn)) in Hlo.
  apply (contains_range p Hwf _ (broadcast_range n Hn)) in Hhi.
  split; [assumption|].
  unfold rfc1918 in Hp.
  repeat (destruct Hp as [<- | Hp];
          [split; [cbn; tauto|]; split; [assumption|]; split; [assumption|];
           vm_compute; repeat split; try discriminate;
           first [left; reflexivity | right; reflexivity]|]).
  destruct Hp.
Qed.

(** X21. A network inside one of the RFC 1918 ranges 10.0.0.0/8,
    172.16.0.0/12 and 192.168.0.0/16 is returned as valid without regard to
    the answer at the prompt: it is neither multicast nor class E nor
    public, so the user is not asked. *)
Theorem validate_input_accepts_rfc1918
        (ip_input : string) (n p : IPv4Network) :
  IPv4Network_nonstrict (cidr_text ip_input) = Return n ->
  In p rfc1918 -> range_included n p ->
  is_global n = false
  /\ forall answer, validate_input ip_input answer = Return (Valid n).
Proof.
  intros Hparse Hp Hinc.
  pose proof (IPv4Network_nonstrict_well_formed _ _ Hparse) as Hn.
  destruct (rfc1918_ends n p Hn Hp Hinc)
    as (Hwf & Hpriv & Hlo & Hhi & Hmin & Hmax & Hexc).
  pose proof (network_address_range n Hn) as Rlo.
  pose proof (broadcast_range n Hn) as Rhi.
  assert (Hmc : is_multicast n = false).
  { unfold is_multicast, address_is_multicast.
    rewrite (contains_false _multicast_network (network_address n));
      [reflexivity | reflexivity | assumption |].
    change (network_address _multicast_network) with 3758096384%Z. lia. }
  assert (HE : (network_address n >=? class_E_start)%Z = false).
  { apply geb_false. change class_E_start with 4026531840%Z. lia. }
  assert (Hprivate : is_private n = true).
  { unfold is_private. apply andb_true_iff. split.
    - apply existsb_exists. exists p. split; [assumption|].
      apply andb_true_iff.
      split; apply (contains_range p Hwf); assumption.
    - unfold _private_networks_exceptions. cbn [forallb].
      rewrite !(contains_false (net 192 0 0 9 32)),
        !(contains_false (net 192 0 0 10 32));
        try reflexivity; try assumption;
        match goal with
        | |- ~ _ =>
            change (network_address (net 192 0 0 9 32)) with 3221225481%Z;
            change (broadcast_address (net 192 0 0 9 32)) with 3221225481%Z;
            change (network_address (net 192 0 0 10 32)) with 3221225482%Z;
            change (broadcast_address (net 192 0 0 10 32)) with 3221225482%Z;
            lia
        end. }
  assert (Hglobal : is_global n = false).
  { unfold is_global. rewrite Hprivate. apply andb_false_r. }
  split; [assumption|]. intros answer.
  pose proof (validate_input_cases ip_input answer) as Hcases.
  rewrite Hparse, Hmc, HE, Hglobal in Hcases. exact Hcases.
Qed.

Lemma range_included_10_24 :
  range_included ClassifierSpec.net_10_0_0_0_24 (net 10 0 0 0 8).
Proof.
  apply (subnet_of_included ClassifierSpec.net_10_0_0_0_24 (net 10 0 0 0 8));
    reflexivity.
Qed.

Lemma validate_input_accepts_rfc1918_witness :
  IPv4Network_nonstrict (cidr_text "10.0.0.7/24")
  = Return ClassifierSpec.net_10_0_0_0_24
  /\ In (net 10 0 0 0 8) rfc1918
  /\ range_included ClassifierSpec.net_10_0_0_0_24 (net 10 0 0 0 8)
  /\ forall answer,
      validate_input "10.0.0.7/24" answer
      = Return (Valid ClassifierSpec.net_10_0_0_0_24).
Proof.
  split; [reflexivity|]. split; [left; reflexivity|].
  split; [exact range_included_10_24|].
  exact (proj2 (validate_input_accepts_rfc1918 "10.0.0.7/24"
                  ClassifierSpec.net_10_0_0_0_24 (net 10 0 0 0 8)
                  eq_refl (or_introl eq_refl) range_included_10_24)).
Defined.

End ValidatorNetworks.

(** * Worked inputs *)

Module WorkedInputs.

Import ipaddress IPValidator SubnetAnalyzer AnalyzerSpec.

Local Open Scope string_scope.

Definition bad_mask_vnets : list VNet :=
  [ mkVNet "vnet-a" "rg-1" ["10.0.0.0/16"] [mkSubnet "front" "10.0.0.0/33"] ].

Lemma validate_input_empty_iff_blank_witness :
  PyStr.all_chars PyStr.isspace "   " = true
  /\ validate_input "   " "" = Return (Invalid Empty_input_provided).
Proof.
  split; [reflexivity|].
  apply (ValidatorMore.validate_input_empty_iff_blank "   " ""). reflexivity.
Defined.

Lemma validate_input_syntax_errors_witness :
  PyStr.contains "/" (PyStr.strip "10.0.0.0/33") = true
  /\ IPv4Network_nonstrict (PyStr.strip "10.0.0.0/33") = Raise NetmaskValueError
  /\ validate_input "10.0.0.0/33" ""
     = Return (Invalid (Invalid_CIDR_notation NetmaskValueError)).
Proof.
  split; [reflexivity|]. split; [reflexivity|].
  apply (proj1 (ValidatorMore.validate_input_syntax_errors "10.0.0.0/33" "")).
  split; reflexivity.
Defined.

Lemma analyze_ip_usage_raises_iff_bad_mask_witness :
  In "10.0.0.0/33" (prefix_texts bad_mask_vnets)
  /\ IPv4Network_nonstrict "10.0.0.0/33" = Raise NetmaskValueError
  /\ exists e,
      analyze_ip_usage ClassifierSpec.net_10_0_0_0_24 bad_mask_vnets = Raise e.
Proof.
  split; [right; left; reflexivity|]. split; [reflexivity|].
  apply (proj1 (proj2 (AnalyzerMore.analyze_ip_usage_raises_iff_bad_mask
                         ClassifierSpec.net_10_0_0_0_24 bad_mask_vnets))).
  exists "10.0.0.0/33". split; [right; left; reflexivity | reflexivity].
Defined.

End WorkedInputs.


(** * The host check in the whole analysis *)

Module HostShortCircuit.

Import ipaddress IPValidator SubnetAnalyzer NetworkFacts AnalyzerSpec AnalyzerMore.

Local Open Scope string_scope.

(** The keys of the four buckets of the general classification. *)
Definition general_keys : list string :=
  ["exact"; "contains"; "contained"; "overlap"].

(** The Match of the general classification of [n] against the target:
    none for "none". [info r] is the Match for relationship [r]. *)
Definition general_match (target n : IPv4Network) (info : string -> MatchInfo)
  : list MatchInfo :=
  let r := is_subnet_overlap target n in
  if r =? "none" then [] else [info r].

(** What one subnet record gives by the host check: one Match marked
    "host_in_subnet" when its prefix parses and the host check holds. *)
Definition host_hit (target : IPv4Network) (vnet_name resource_group : string)
           (subnet : Subnet) : list MatchInfo :=
  match IPv4Network_nonstrict (address_prefix subnet) with
  | Return sn =>
      if check_host_in_network target sn
      then [subnet_match vnet_name resource_group subnet sn "host_in_subnet"]
      else []
  | Raise _ => []
  end.

(** What one subnet record gives by the general classification: nothing
    when the host check holds, since the classification is then not run. *)
Definition subnet_general (target : IPv4Network)
           (vnet_name resource_group : string) (subnet : Subnet)
  : list MatchInfo :=
  match IPv4Network_nonstrict (address_prefix subnet) with
  | Return sn =>
      if check_host_in_network target sn then []
      else general_match target sn
             (subnet_match vnet_name resource_group subnet sn)
  | Raise _ => []
  end.

(** What one address-space prefix gives: always the general
    classification. *)
Definition address_space_general (target : IPv4Network)
           (vnet_name resource_group prefix : string) : list MatchInfo :=
  match IPv4Network_nonstrict prefix with
  | Return n => general_match target n (vnet_match vnet_name resource_group n)
  | Raise _ => []
  end.

(** Over all discovered networks, in the order of discovery. *)
Definition host_hits (target : IPv4Network) (vnets : list VNet) : list MatchInfo :=
  flat_map (fun v => flat_map (host_hit target (name v) (resource_group_of v))
                       (subnets v)) vnets.

Definition general_matches (target : IPv4Network) (vnets : list VNet)
  : list MatchInfo :=
  flat_map (fun v =>
              (flat_map (address_space_general target (name v) (resource_group_of v))
                 (address_prefixes v)
               ++ flat_map (subnet_general target (name v) (resource_group_of v))
                    (subnets v))%list) vnets.

Definition host_vnets : list VNet :=
  [ mkVNet "vnet-a" "rg-1" ["10.0.0.0/16"]
      [mkSubnet "front" "10.0.0.0/24"; mkSubnet "back" "10.0.1.0/24"] ].

Definition host_report : World :=
  match analyze_ip_usage ClassifierSpec.host_10_0_0_5 host_vnets with
  | Return w => w
  | Raise _ => empty_world
  end.

Lemma filter_flat_map {A B : Type} (f : B -> bool) (g : A -> list B) (l : list A) :
  filter f (flat_map g l) = flat_map (fun x => filter f (g x)) l.
Proof.
  induction l as [|x rest IH]; cbn [flat_map]; [reflexivity|].
  rewrite filter_app, IH. reflexivity.
Qed.

Lemma general_match_no_host target n info :
  (forall r, relationship (info r) = r) ->
  filter (has_relationship "host_in_subnet") (general_match target n info) = [].
Proof.
  intros Hinfo. unfold general_match.
  destruct (ClassifierSpec.is_subnet_overlap_values target n)
    as [E|[E|[E|[E|[E|[]]]]]];
    rewrite <- E; cbn [String.eqb Ascii.eqb Bool.eqb filter];
    try reflexivity; unfold has_relationship; rewrite Hinfo; reflexivity.
Qed.

Lemma vnet_record_match_general target vnet_name resource_group prefix :
  vnet_record_match target vnet_name resource_group prefix
  = address_space_general target vnet_name resource_group prefix.
Proof. reflexivity. Qed.

Lemma address_space_no_host target vnet_name resource_group prefix :
  filter (has_relationship "host_in_subnet")
    (address_space_general target vnet_name resource_group prefix) = [].
Proof.
  unfold address_space_general.
  destruct (IPv4Network_nonstrict prefix) as [n|e]; [|reflexivity].
  apply general_match_no_host. reflexivity.
Qed.

Lemma subnet_record_match_host target vnet_name resource_group subnet :
  prefixlen target = 32%Z ->
  filter (has_relationship "host_in_subnet")
    (subnet_record_match target vnet_name resource_group subnet)
  = host_hit target vnet_name resource_group subnet.
Proof.
  intros H32. unfold subnet_record_match, host_hit. rewrite H32.
  cbn [Z.eqb Pos.eqb andb].
  destruct (IPv4Network_nonstrict (address_prefix subnet)) as [sn|e];
    [|reflexivity].
  destruct (check_host_in_network target sn); [reflexivity|].
  apply (general_match_no_host target sn). reflexivity.
Qed.

Lemma subnet_record_match_general target vnet_name resource_group subnet key :
  prefixlen target = 32%Z -> In key general_keys ->
  filter (has_relationship key)
    (subnet_record_match target vnet_name resource_group subnet)
  = filter (has_relationship key)
      (subnet_general target vnet_name resource_group subnet).
Proof.
  intros H32 Hkey. unfold subnet_record_match, subnet_general. rewrite H32.
  cbn [Z.eqb Pos.eqb andb].
  destruct (IPv4Network_nonstrict (address_prefix subnet)) as [sn|e];
    [|reflexivity].
  destruct (check_host_in_network target sn); [|reflexivity].
  unfold general_keys in Hkey.
  repeat (destruct Hkey as [<- | Hkey]; [reflexivity|]). destruct Hkey.
Qed.

Lemma bucket_of_bucketed key l :
  In key bucket_keys ->
  bucket key (bucketed l) = filter (has_relationship key) l.
Proof.
  intros Hkey. unfold bucket_keys in Hkey.
  repeat (destruct Hkey as [<- | Hkey]; [reflexivity|]). destruct Hkey.
Qed.

Lemma general_key_is_bucket_key key : In key general_keys -> In key bucket_keys.
Proof. unfold general_keys, bucket_keys. cbn. tauto. Qed.

Lemma in_general_match target n info :
  is_subnet_overlap target n <> "none" ->
  In (info (is_subnet_overlap target n)) (general_match target n info).
Proof.
  intros Hne. unfold general_match.
  destruct (String.eqb_spec (is_subnet_overlap target n) "none") as [E|E];
    [contradiction | left; reflexivity].
Qed.

Lemma general_key_of target n :
  is_subnet_overlap target n <> "none" ->
  In (is_subnet_overlap target n) general_keys.
Proof.
  intros Hne. unfold general_keys.
  destruct (ClassifierSpec.is_subnet_overlap_values target n)
    as [E|[E|[E|[E|[E|[]]]]]]; rewrite <- E in *; cbn; tauto.
Qed.

(** C3. In the report of [analyze_ip_usage] for a target of prefix length
    32: the host_in_subnet bucket holds, in the order of discovery, exactly
    one Match for every subnet record whose prefix parses and for which
    [check_host_in_network] holds, and nothing else; the four general
    buckets hold exactly the Matches of the general classification of every
    address-space prefix that parses, and of every subnet record that
    parses and for which the host check fails, so a subnet with a host hit
    adds nothing to them. In particular a host hit is in the
    host_in_subnet bucket, a subnet without a host hit and every
    address-space prefix are in the bucket of their classification unless
    it is "none", and no address space is ever in the host_in_subnet
    bucket. *)
Theorem analyze_ip_usage_host_short_circuit
        (target : IPv4Network) (vnets : list VNet) (w : World) :
  prefixlen target = 32%Z ->
  analyze_ip_usage target vnets = Return w ->
  m_host_in_subnet (matches (results w)) = host_hits target vnets
  /\ (forall key, In key general_keys ->
                  bucket key (matches (results w))
                  = filter (has_relationship key) (general_matches target vnets))
  /\ (forall v subnet sn,
        In v vnets -> In subnet (subnets v) ->
        IPv4Network_nonstrict (address_prefix subnet) = Return sn ->
        check_host_in_network target sn = true ->
        In (subnet_match (name v) (resource_group_of v) subnet sn "host_in_subnet")
           (m_host_in_subnet (matches (results w))))
  /\ (forall v subnet sn,
        In v vnets -> In subnet (subnets v) ->
        IPv4Network_nonstrict (address_prefix subnet) = Return sn ->
        check_host_in_network target sn = false ->
        is_subnet_overlap target sn <> "none" ->
        In (subnet_match (name v) (resource_group_of v) subnet sn
              (is_subnet_overlap target sn))
           (bucket (is_subnet_overlap target sn) (matches (results w))))
  /\ (forall v prefix n,
        In v vnets -> In prefix (address_prefixes v) ->
        IPv4Network_nonstrict prefix = Return n ->
        is_subnet_overlap target n <> "none" ->
        In (vnet_match (name v) (resource_group_of v) n (is_subnet_overlap target n))
           (bucket (is_subnet_overlap target n) (matches (results w))))
  /\ (forall mi, In mi (m_host_in_subnet (matches (results w))) ->
                 type mi = "subnet").
Proof.
  intros H32 Hrun.
  pose proof (analyze_ip_usage_matches _ _ _ Hrun) as Hm.
  assert (Hhost : m_host_in_subnet (matches (results w)) = host_hits target vnets).
  { rewrite Hm. cbn [bucketed m_host_in_subnet].
    unfold record_matches, host_hits. rewrite filter_flat_map.
    apply flat_map_ext. intros v. unfold vnet_matches.
    rewrite filter_app, !filter_flat_map.
    rewrite (flat_map_ext _ (fun _ => @nil MatchInfo)).
    - rewrite (flat_map_ext _ (host_hit target (name v) (resource_group_of v))).
      + clear. induction (address_prefixes v) as [|p rest IH]; [reflexivity|].
        exact IH.
      + intros subnet. apply subnet_record_match_host. assumption.
    - intros p. rewrite vnet_record_match_general.
      apply address_space_no_host. }
  assert (Hgeneral : forall key, In key general_keys ->
             bucket key (matches (results w))
             = filter (has_relationship key) (general_matches target vnets)).
  { intros key Hkey. rewrite Hm.
    rewrite (bucket_of_bucketed key _ (general_key_is_bucket_key key Hkey)).
    unfold record_matches, general_matches. rewrite !filter_flat_map.
    apply flat_map_ext. intros v. unfold vnet_matches.
    rewrite !filter_app, !filter_flat_map. f_equal.
    apply flat_map_ext. intros subnet.
    apply subnet_record_match_general; assumption. }
  split; [exact Hhost|]. split; [exact Hgeneral|].
  split; [|split; [|split]].
  - intros v subnet sn Hv Hs Hparse Hhit. rewrite Hhost.
    unfold host_hits. apply in_flat_map. exists v. split; [assumption|].
    apply in_flat_map. exists subnet. split; [assumption|].
    unfold host_hit. rewrite Hparse, Hhit. left. reflexivity.
  - intros v subnet sn Hv Hs Hparse Hmiss Hne.
    rewrite (Hgeneral _ (general_key_of target sn Hne)).
    apply filter_In. split.
    + unfold general_matches. apply in_flat_map. exists v. split; [assumption|].
      apply in_or_app. right. apply in_flat_map. exists subnet.
      split; [assumption|].
      unfold subnet_general. rewrite Hparse, Hmiss.
      apply (in_general_match target sn
               (subnet_match (name v) (resource_group_of v) subnet sn) Hne).
    + unfold has_relationship. apply String.eqb_refl.
  - intros v prefix n Hv Hp Hparse Hne.
    rewrite (Hgeneral _ (general_key_of target n Hne)).
    apply filter_In. split.
    + unfold general_matches. apply in_flat_map. exists v. split; [assumption|].
      apply in_or_app. left. apply in_flat_map. exists prefix.
      split; [assumption|].
      unfold address_space_general. rewrite Hparse.
      apply (in_general_match target n
               (vnet_match (name v) (resource_group_of v) n) Hne).
    + unfold has_relationship. apply String.eqb_refl.
  - intros mi Hin. rewrite Hhost in Hin. unfold host_hits in Hin.
    apply in_flat_map in Hin. destruct Hin as (v & _ & Hin).
    apply in_flat_map in Hin. destruct Hin as (subnet & _ & Hin).
    unfold host_hit in Hin.
    destruct (IPv4Network_nonstrict (address_prefix subnet)) as [sn|e];
      [|destruct Hin].
    destruct (check_host_in_network target sn); [|destruct Hin].
    destruct Hin as [<- | []]. reflexivity.
Qed.

Lemma analyze_ip_usage_host_short_circuit_witness :
  prefixlen ClassifierSpec.host_10_0_0_5 = 32%Z
  /\ analyze_ip_usage ClassifierSpec.host_10_0_0_5 host_vnets = Return host_report
  /\ m_host_in_subnet (matches (results host_report))
     = [subnet_match "vnet-a" "rg-1" front_subnet
          ClassifierSpec.net_10_0_0_0_24 "host_in_subnet"]
  /\ bucket "contained" (matches (results host_report))
     = [vnet_match "vnet-a" "rg-1" ClassifierSpec.net_10_0_0_0_16 "contained"]
  /\ bucket "exact" (matches (results host_report)) = [].
Proof.
  split; [reflexivity|]. split; [reflexivity|].
  destruct (analyze_ip_usage_host_short_circuit ClassifierSpec.host_10_0_0_5
              host_vnets host_report eq_refl eq_refl) as (Hhost & Hgeneral & _).
  split; [rewrite Hhost; reflexivity|].
  split; [rewrite (Hgeneral "contained"); [reflexivity | cbn; tauto]|].
  rewrite (Hgeneral "exact"); [reflexivity | cbn; tauto].
Defined.

End HostShortCircuit.
